(** * code-contest-integrity: the import scripts, embedded and checked

    A shallow embedding of the scraping and seeding scripts under
    [code-contest-import/backend/scripts]:

    - [seed_problems.py]            (modules [SeedProblems],
                                     [SeedProblemsConfig], [SeedProblemsParser])
    - [scrape_codeforces.py]        (module [ScrapeCodeforces])
    - [scrape_codeforces_full.py]   (modules [ScrapeCodeforcesFull],
                                     [ScrapeCodeforcesFullRun])
    - [seed_problems_api.py]        (modules [SeedProblemsApi],
                                     [SeedProblemsApiPipeline])
    - [seed_leetcode.py]            (modules [SeedLeetcode],
                                     [SeedLeetcodePipeline])
    - [scrape_leetcode.py]          (module [ScrapeLeetcode])
    - [scrape_leetcode_complete.py] (modules [ScrapeLeetcodeComplete],
                                     [ScrapeLeetcodeCompleteRun])

    Python values are modelled as follows.  An [int] is a [Z], a length
    or an index a [nat].  A [str] is a Stdlib [string]; case conversion,
    the whitespace class and the digit class are the ASCII ones, so the
    model is exact on ASCII text, and the non-ASCII literals of the
    sources (the bullet of [lstrip], the signs of the log lines) are
    carried as their UTF-8 bytes.  A [dict] with string keys is a
    [gmap string _] or, where the keys are fixed, a record; [None] or a
    missing key is [None], and where a JSON reply can hold [null] under a
    key the three cases are kept apart.  A [float] that is compared or
    slept is a number (a rational, or a count of clock units, with exact
    arithmetic) or one of the three special values; one that is only
    passed on and printed is an abstract value.  A [while] loop is a
    function by well-founded recursion, a [for] loop a fold or a
    structural recursion.

    Effects are threaded explicitly.  The database is a list of stored
    documents and a log (module [PyMongo]); the HTTP client lives in a
    state and exception monad over a clock, the remembered request time
    and the trace of requests and sleeps ([SeedProblems.M]); the loops of
    the scrapers return what they print and the requests and pauses they
    make; what the surroundings decide (server replies, durations,
    generated ids, the longest sleep the platform converts, the text a
    markup library extracts) is an argument.  The limits of the
    interpreter that the code can run into are part of the model: the
    range of [time.sleep], the conversion of a large [int] to a [float],
    and the longest text of digits that [int] converts.
    The two libraries whose behaviour the properties depend on are
    modelled from their documentation: [re] as a backtracking matcher
    (module [Re]) and the tokenizer of [html.parser] on plain tags
    ([ScrapeLeetcodeComplete.tokenize]).

    The first part holds the embedding, the second the rule tables and
    predicates the properties are stated with, the third the properties. *)

From Stdlib Require Import ZArith String Ascii List Lia Bool Arith.
From Stdlib Require Import DecimalString.
From stdpp Require Import base option list strings gmap.
From Equations Require Import Equations.
From Stdlib Require QArith.

Import ListNotations.
Local Open Scope string_scope.

(** ** Python string primitives *)

Module Py.

(** [str(n)] for a non-negative integer, as an f-string prints it. *)
Definition str_of_nat (n : nat) : string :=
  NilZero.string_of_uint (Nat.to_uint n).

(** Truthiness of a string: [not s] holds exactly for the empty string. *)
Definition truthy (s : string) : bool :=
  match s with
  | EmptyString => false
  | String _ _ => true
  end.

(** One character of [str.lower()]: the letters [A]..[Z] move to [a]..[z]. *)
Definition lower_char (c : ascii) : ascii :=
  let n := nat_of_ascii c in
  if (65 <=? n)%nat && (n <=? 90)%nat then ascii_of_nat (n + 32) else c.

(** One character of [str.upper()]. *)
Definition upper_char (c : ascii) : ascii :=
  let n := nat_of_ascii c in
  if (97 <=? n)%nat && (n <=? 122)%nat then ascii_of_nat (n - 32) else c.

Fixpoint lower (s : string) : string :=
  match s with
  | EmptyString => EmptyString
  | String c s' => String (lower_char c) (lower s')
  end.

(** [str.capitalize()]: first character upper-cased, the rest lower-cased. *)
Definition capitalize (s : string) : string :=
  match s with
  | EmptyString => EmptyString
  | String c s' => String (upper_char c) (lower s')
  end.

(** The characters [str.strip()] removes: tab, newline, vertical tab, form
    feed, carriage return, the four separators 28..31, and space. *)
Definition is_space (c : ascii) : bool :=
  let n := nat_of_ascii c in
  ((9 <=? n)%nat && (n <=? 13)%nat) || ((28 <=? n)%nat && (n <=? 32)%nat).

Fixpoint lstrip (s : string) : string :=
  match s with
  | EmptyString => EmptyString
  | String c s' => if is_space c then lstrip s' else s
  end.

(** [rstrip] keeps a character when it is not blank or when something
    that is kept follows it. *)
Fixpoint rstrip (s : string) : string :=
  match s with
  | EmptyString => EmptyString
  | String c s' =>
      match rstrip s' with
      | EmptyString => if is_space c then EmptyString else String c EmptyString
      | r => String c r
      end
  end.

Definition strip (s : string) : string := rstrip (lstrip s).

(** [s.split(sep)] for a one-character separator: always at least one
    piece, empty pieces kept. *)
Fixpoint split (sep : ascii) (s : string) : list string :=
  match s with
  | EmptyString => [EmptyString]
  | String c s' =>
      if Ascii.eqb c sep then EmptyString :: split sep s'
      else match split sep s' with
           | [] => [String c EmptyString]
           | p :: ps => String c p :: ps
           end
  end.

(** [sep.join(parts)]. *)
Fixpoint join (sep : string) (parts : list string) : string :=
  match parts with
  | [] => EmptyString
  | [p] => p
  | p :: ps => p ++ sep ++ join sep ps
  end.

Definition newline : ascii := ascii_of_nat 10.
Definition nl : string := String newline EmptyString.

(** [t in l] for a list of strings. *)
Definition contains (l : list string) (t : string) : bool :=
  existsb (String.eqb t) l.

(** [any(t in l for t in keys)]. *)
Definition any_in (keys l : list string) : bool :=
  existsb (contains l) keys.

(** [c * n]: a string of [n] copies of one character. *)
Fixpoint repeat_char (n : nat) (c : ascii) : string :=
  match n with
  | 0 => EmptyString
  | S n' => String c (repeat_char n' c)
  end.

(** [l.append(x)]. *)
Definition append {A : Type} (l : list A) (x : A) : list A := (l ++ [x])%list.

(** [range(0, n, 2)]. *)
Definition range_by_2 (n : nat) : list nat :=
  map (fun k => 2 * k) (seq 0 ((n + 1) / 2)).

End Py.

(** ** The database, as the gateways see it *)

Module PyMongo.

(** An [ObjectId], given by its 24 hexadecimal digits: [str(oid)] is that
    string. *)
Definition ObjectId := string.

(** A problem document: its [str] entries (title, description,
    difficulty, externalId, ...), and the four entries the gateway and the
    driver write.  A [datetime] is a timestamp. *)
Record document := {
  data : gmap string string;
  _id : option ObjectId;
  createdBy : option ObjectId;
  createdAt : option Z;
  updatedAt : option Z
}.

(** [problem_data[key] = value] for the three stamps; the key leaves the
    [str] entries if it was there. *)
Definition set_createdBy (v : ObjectId) (d : document) : document :=
  {| data := delete "createdBy" (data d); _id := _id d; createdBy := Some v;
     createdAt := createdAt d; updatedAt := updatedAt d |}.

Definition set_createdAt (v : Z) (d : document) : document :=
  {| data := delete "createdAt" (data d); _id := _id d; createdBy := createdBy d;
     createdAt := Some v; updatedAt := updatedAt d |}.

Definition set_updatedAt (v : Z) (d : document) : document :=
  {| data := delete "updatedAt" (data d); _id := _id d; createdBy := createdBy d;
     createdAt := createdAt d; updatedAt := Some v |}.

Definition set_id (v : ObjectId) (d : document) : document :=
  {| data := delete "_id" (data d); _id := Some v; createdBy := createdBy d;
     createdAt := createdAt d; updatedAt := updatedAt d |}.

(** What the surroundings decide during one [insert_problem]: the two
    readings of [datetime.now()], the id the driver generates for a
    document without one, and whether the write fails for a reason other
    than a duplicate key (with the text of that exception). *)
Record env := {
  now_first : Z;
  now_second : Z;
  generated_id : ObjectId;
  failure : option string
}.

Inductive level := DEBUG | INFO | WARNING | ERROR.

(** The collection of stored problems, oldest first, and the log. *)
Record world := {
  problems : list document;
  log : list (level * string)
}.

Inductive insert_result :=
| InsertOneResult (inserted_id : ObjectId)
| DuplicateKeyError
| OtherException (e : string).

(** A stored document stands in the way of a new one when it has the
    same [_id] or the same [externalId]: the collection carries the unique
    index on [externalId] of the data model. *)
Definition conflicts (doc stored : document) : bool :=
  bool_decide (_id stored = _id doc)
  || bool_decide (data stored !! "externalId" = data doc !! "externalId").

(** [collection.insert_one(doc)]: the driver gives the document an [_id]
    when it has none, then writes it.  The result, the document as the
    call leaves it, and the collection. *)
Definition insert_one (e : env) (doc : document) (coll : list document)
  : insert_result * document * list document :=
  let doc := match _id doc with
             | Some _ => doc
             | None => set_id (generated_id e) doc
             end in
  match failure e with
  | Some err => (OtherException err, doc, coll)
  | None =>
      if existsb (conflicts doc) coll then (DuplicateKeyError, doc, coll)
      else (InsertOneResult (default "" (_id doc)), doc, Py.append coll doc)
  end.

(** The logger: [debug] writes in verbose mode only; [error] is called
    with the exception and appends its text. *)
Definition logger_debug (verbose : bool) (msg : string) (w : world) : world :=
  if verbose then {| problems := problems w; log := Py.append (log w) (DEBUG, msg) |}
  else w.

Definition logger_warning (msg : string) (w : world) : world :=
  {| problems := problems w; log := Py.append (log w) (WARNING, msg) |}.

Definition logger_error (msg exc : string) (w : world) : world :=
  {| problems := problems w; log := Py.append (log w) (ERROR, msg ++ ": " ++ exc) |}.

Definition with_problems (coll : list document) (w : world) : world :=
  {| problems := coll; log := log w |}.

(** The connected client: the id of the system author, and the logger's
    verbosity. *)
Record client := {
  system_user_id : ObjectId;
  verbose : bool
}.

End PyMongo.

(** ** seed_problems.py *)

Module SeedProblems.

(** [DifficultyMapper.map_rating] *)
Definition map_rating (rating : option Z) : string :=
  match rating with
  | None => "medium"
  | Some r =>
      if (r <? 1200)%Z then "easy"
      else if (r <=? 1600)%Z then "medium"
      else "hard"
  end.

(** What [ProblemParser._extract_test_cases] reads of the page: a [div]
    block is seen through [find('pre')], which gives the text of its first
    [pre] descendant when there is one. *)
Record block := { pre : option string }.

(** The [sample-test] container, seen through the two [find_all] calls:
    its [input] blocks and its [output] blocks, in document order. *)
Record sample_test := { inputs : list block; outputs : list block }.

Record test_case := {
  input : string;
  output : string;
  explanation : string
}.

(** [pre.get_text().strip() if pre else ""] *)
Definition block_text (b : block) : string :=
  match pre b with
  | Some t => Py.strip t
  | None => ""
  end.

(** [ProblemParser._extract_test_cases]; the argument is the result of
    [soup.find('div', class_='sample-test')]. *)
Definition _extract_test_cases (sample_tests : option sample_test) : list test_case :=
  match sample_tests with
  | None => []
  | Some st =>
      imap (fun i '(input_div, output_div) =>
              {| input := block_text input_div;
                 output := block_text output_div;
                 explanation := "Sample test " ++ Py.str_of_nat (i + 1) |})
           (zip (inputs st) (outputs st))
  end.

(** *** CodeforcesClient *)

(** What [session.get] does on one request: a response with its status
    code and text, or one of the exceptions of [requests]. *)
Inductive reply :=
| Response (status_code : Z) (text : string)
| RaisesTimeout
| RaisesConnectionError
| RaisesRequestException.

(** The exceptions the retry loop catches and remembers. *)
Inductive request_exception :=
| ExcTimeout
| ExcConnectionError
| ExcRequestException
| ExcHTTPError (status_code : Z).

(** The exceptions that leave [_retry_request]: the plain [Exception]
    raised on a 404, the plain [Exception] raised after the loop with the
    remembered cause, and the two exceptions of a sleep that is refused
    or of a backoff that cannot be computed, [ValueError] and
    [OverflowError]. *)
Inductive exn :=
| ProblemNotFound (url : string)
| FailedAfter (max_retries : Z) (last_exception : option request_exception)
| ValueError
| OverflowError.

Inductive event := EvGet (url : string) | EvSleep (seconds : Z).

(** A [float] of the client: a number of units of the clock, or one of
    the three special values.  Arithmetic on the numbers is exact. *)
Inductive float :=
| Finite (t : Z)
| Infinity
| NegInfinity
| NaN.

(** [t < x] and [x - t] for a number [t] and a float [x], and [k * x]
    for a positive number [k]. *)
Definition less (t : Z) (x : float) : bool :=
  match x with
  | Finite v => (t <? v)%Z
  | Infinity => true
  | NegInfinity | NaN => false
  end.

Definition minus (x : float) (t : Z) : float :=
  match x with
  | Finite v => Finite (v - t)
  | _ => x
  end.

Definition times (k : Z) (x : float) : float :=
  match x with
  | Finite v => Finite (k * v)
  | _ => x
  end.

(** [sys.float_info.max_exp]: an [int] converts to a [float] only when
    it is below [2 ** 1024]. *)
Definition float_max_exp : nat := 1024.

(** The client's world: the clock, [self.last_request_time], what
    happened so far (requests and sleeps, oldest first), and the time each
    request was sent at. *)
Record state := {
  now : Z;
  last_request_time : Z;
  trace : list event;
  issued : list Z
}.

Inductive result (A : Type) :=
| Ok (a : A)
| Raise (e : exn).
Arguments Ok {A} a.
Arguments Raise {A} e.

(** Computations of the client: state passing with exceptions. *)
Definition M (A : Type) : Type := state -> result A * state.

Definition ret {A : Type} (a : A) : M A := fun s => (Ok a, s).

Definition raise {A : Type} (e : exn) : M A := fun s => (Raise e, s).

Definition bind {A B : Type} (m : M A) (k : A -> M B) : M B :=
  fun s => match m s with
           | (Ok a, s') => k a s'
           | (Raise e, s') => (Raise e, s')
           end.

Notation "x <- m ;; k" := (bind m (fun x => k))
  (at level 62, m at next level, right associativity).

Section Client.

(** The configuration of the client. *)
Variable delay_seconds : float.
Variable max_retries : Z.

(** The surroundings: the longest time [time.sleep] converts (a 64-bit
    count of nanoseconds), in units of the clock; the reply to the [k]-th
    request of the run and the time it takes; and by how much the [k]-th
    event, when it is a sleep, oversleeps. *)
Variable sleep_max : Z.
Variable server : nat -> reply * N.
Variable oversleep : nat -> N.

(** [time.time()] *)
Definition time_time : M Z := fun s => (Ok (now s), s).

(** [time.sleep(seconds)]: the argument is converted first, which fails
    on what is not a number and on what is out of range, and then refused
    when it is negative. *)
Definition time_sleep (seconds : float) : M unit := fun s =>
  match seconds with
  | NaN => (Raise ValueError, s)
  | Infinity | NegInfinity => (Raise OverflowError, s)
  | Finite t =>
      if (sleep_max <? Z.abs t)%Z then (Raise OverflowError, s)
      else if (t <? 0)%Z then (Raise ValueError, s)
      else (Ok tt,
            {| now := now s + t + Z.of_N (oversleep (length (trace s)));
               last_request_time := last_request_time s;
               trace := Py.append (trace s) (EvSleep t);
               issued := issued s |})
  end.

(** [self.session.get(url, timeout=30)] *)
Definition session_get (url : string) : M reply := fun s =>
  let '(r, took) := server (length (issued s)) in
  (Ok r,
   {| now := now s + Z.of_N took;
      last_request_time := last_request_time s;
      trace := Py.append (trace s) (EvGet url);
      issued := Py.append (issued s) (now s) |}).

Definition set_last_request_time (t : Z) : M unit := fun s =>
  (Ok tt,
   {| now := now s; last_request_time := t; trace := trace s; issued := issued s |}).

Definition get_last_request_time : M Z := fun s => (Ok (last_request_time s), s).

(** [CodeforcesClient._rate_limit] *)
Definition _rate_limit : M unit :=
  current_time <- time_time ;;
  last <- get_last_request_time ;;
  let time_since_last := (current_time - last)%Z in
  _ <- (if less time_since_last delay_seconds
        then time_sleep (minus delay_seconds time_since_last)
        else ret tt) ;;
  t <- time_time ;;
  set_last_request_time t.

(** The backoff before the next attempt, [(2 ** attempt) * delay_seconds]:
    the [int] is converted to a [float] for the product. *)
Definition backoff (attempt : nat) : M float :=
  if (float_max_exp <=? attempt)%nat then raise OverflowError
  else ret (times (2 ^ Z.of_nat attempt) delay_seconds).

(** [time.sleep((2 ** attempt) * self.delay_seconds)] *)
Definition backoff_sleep (attempt : nat) : M unit :=
  wait_time <- backoff attempt ;;
  time_sleep wait_time.

(** [response.raise_for_status()] raises for the codes 400..599. *)
Definition is_error_status (status : Z) : bool :=
  (400 <=? status)%Z && (status <? 600)%Z.

(** The loop [for attempt in range(self.max_retries)] of
    [_retry_request], with [remaining] turns to go. *)
Fixpoint attempts (url : string) (remaining attempt : nat)
    (last_exception : option request_exception) : M (Z * string) :=
  match remaining with
  | 0 => raise (FailedAfter max_retries last_exception)
  | S remaining' =>
      r <- session_get url ;;
      match r with
      | Response status text =>
          if (status =? 429)%Z then
            _ <- backoff_sleep attempt ;;
            attempts url remaining' (S attempt) last_exception
          else if (status =? 404)%Z then
            raise (ProblemNotFound url)
          else if (500 <=? status)%Z then
            _ <- backoff_sleep attempt ;;
            attempts url remaining' (S attempt) last_exception
          else if is_error_status status then
            (* raise_for_status: an HTTPError, caught as RequestException *)
            _ <- (if (Z.of_nat attempt <? max_retries - 1)%Z
                  then backoff_sleep attempt else ret tt) ;;
            attempts url remaining' (S attempt) (Some (ExcHTTPError status))
          else ret (status, text)
      | RaisesTimeout =>
          _ <- backoff_sleep attempt ;;
          attempts url remaining' (S attempt) (Some ExcTimeout)
      | RaisesConnectionError =>
          _ <- backoff_sleep attempt ;;
          attempts url remaining' (S attempt) (Some ExcConnectionError)
      | RaisesRequestException =>
          _ <- (if (Z.of_nat attempt <? max_retries - 1)%Z
                then backoff_sleep attempt else ret tt) ;;
          attempts url remaining' (S attempt) (Some ExcRequestException)
      end
  end.

(** [CodeforcesClient._retry_request] *)
Definition _retry_request (url : string) : M (Z * string) :=
  attempts url (Z.to_nat max_retries) 0 None.

(** [str(n)] for an integer. *)
Definition str_of_Z (n : Z) : string :=
  match n with
  | Z0 => "0"
  | Zpos p => Py.str_of_nat (Pos.to_nat p)
  | Zneg p => "-" ++ Py.str_of_nat (Pos.to_nat p)
  end.

Definition base_url : string := "https://codeforces.com".

(** [CodeforcesClient.fetch_problem] *)
Definition fetch_problem (contest_id : Z) (problem_index : string) : M string :=
  _ <- _rate_limit ;;
  let url := base_url ++ "/problemset/problem/" ++ str_of_Z contest_id
               ++ "/" ++ problem_index in
  response <- _retry_request url ;;
  ret (snd response).

End Client.

End SeedProblems.

(** ** scrape_codeforces_full.py *)

Module ScrapeCodeforcesFull.

Record sample := { input : string; output : string }.

(** The sample-test part of [CodeforcesFullScraper.scrape_problem_details]:
    the list stored under [details['sampleTests']].  A pair is kept only
    when both blocks hold a [pre]. *)
Definition sample_tests_of (st : SeedProblems.sample_test) : list sample :=
  flat_map (fun '(inp, out) =>
              match SeedProblems.pre inp, SeedProblems.pre out with
              | Some i, Some o => [{| input := Py.strip i; output := Py.strip o |}]
              | _, _ => []
              end)
           (zip (SeedProblems.inputs st) (SeedProblems.outputs st)).

End ScrapeCodeforcesFull.

(** ** seed_problems_api.py *)

Module SeedProblemsApi.

(** [DifficultyMapper.map_rating] *)
Definition map_rating (rating : option Z) : string :=
  match rating with
  | None => "medium"
  | Some r =>
      if (r <? 1200)%Z then "easy"
      else if (r <=? 1600)%Z then "medium"
      else "hard"
  end.

(** [DifficultyMapper.get_category_from_tags] *)
Definition get_category_from_tags (tags : list string) : string :=
  let tag_lower := map Py.lower tags in
  if Py.any_in ["dp"; "dynamic programming"] tag_lower then "Dynamic Programming"
  else if Py.any_in ["graph"; "trees"; "dfs"; "bfs"] tag_lower then "Graph Theory"
  else if Py.any_in ["data structures"; "dsu"; "segment tree"] tag_lower then "Data Structure"
  else if Py.any_in ["math"; "number theory"; "combinatorics"] tag_lower then "Mathematics"
  else if Py.any_in ["strings"; "string"] tag_lower then "String Processing"
  else "Algorithm".

(** The record handed to the validator, restricted to its [str] entries:
    the four fields [validate] reads are built as strings by [transform]. *)
Abbreviation problem_data := (gmap string string).

(** The loop over [required_fields]:
    [if field not in problem_data or not problem_data[field]]. *)
Definition missing (pd : problem_data) (field : string) : bool :=
  match pd !! field with
  | None => true
  | Some v => negb (Py.truthy v)
  end.

(** [DataValidator.validate] *)
Definition validate (pd : problem_data) : bool * list string :=
  let errors : list string := [] in
  let required_fields := ["title"; "description"; "difficulty"; "externalId"] in
  let errors :=
    fold_left (fun (errors : list string) (field : string) =>
                 if missing pd field
                 then Py.append errors ("Missing required field: " ++ field)
                 else errors)
              required_fields errors in
  let errors :=
    match pd !! "difficulty" with
    | Some d =>
        if negb (Py.contains ["easy"; "medium"; "hard"] d)
        then Py.append errors ("Invalid difficulty: " ++ d)
        else errors
    | None => errors
    end in
  let errors :=
    match pd !! "description" with
    | Some d =>
        if (String.length d <? 500)%nat
        then Py.append errors ("Description too short: " ++ Py.str_of_nat (String.length d)
                            ++ " chars (minimum 500)")
        else errors
    | None => errors
    end in
  let errors :=
    match pd !! "title" with
    | Some t =>
        if (200 <? String.length t)%nat
        then Py.append errors ("Title too long: " ++ Py.str_of_nat (String.length t)
                            ++ " chars (maximum 200)")
        else errors
    | None => errors
    end in
  (Nat.eqb (length errors) 0, errors).

(** [MongoDBClient.insert_problem]: what it returns, the record as the
    call leaves it (the caller's dict is changed in place), and the
    world.  The f-string of the debug call reads [problem_data['title']]
    before anything is logged; without a title that is a [KeyError], which
    the last handler catches. *)
Definition insert_problem (self : PyMongo.client) (e : PyMongo.env)
    (problem_data : PyMongo.document) (w : PyMongo.world)
  : option string * PyMongo.document * PyMongo.world :=
  let problem_data := PyMongo.set_createdBy (PyMongo.system_user_id self) problem_data in
  let problem_data := PyMongo.set_createdAt (PyMongo.now_first e) problem_data in
  let problem_data := PyMongo.set_updatedAt (PyMongo.now_second e) problem_data in
  let title_or_unknown := default "Unknown" (PyMongo.data problem_data !! "title") in
  match PyMongo.insert_one e problem_data (PyMongo.problems w) with
  | (PyMongo.InsertOneResult inserted_id, problem_data, coll) =>
      let w := PyMongo.with_problems coll w in
      match PyMongo.data problem_data !! "title" with
      | Some title =>
          let w := PyMongo.logger_debug (PyMongo.verbose self)
                     ("Inserted problem: " ++ title ++ " (" ++ inserted_id ++ ")") w in
          (Some inserted_id, problem_data, w)
      | None =>
          let w := PyMongo.logger_error
                     ("Failed to insert problem: " ++ title_or_unknown) "'title'" w in
          (None, problem_data, w)
      end
  | (PyMongo.DuplicateKeyError, problem_data, coll) =>
      let w := PyMongo.with_problems coll w in
      let w := PyMongo.logger_warning ("Duplicate problem: " ++ title_or_unknown) w in
      (None, problem_data, w)
  | (PyMongo.OtherException exc, problem_data, coll) =>
      let w := PyMongo.with_problems coll w in
      let w := PyMongo.logger_error
                 ("Failed to insert problem: " ++ title_or_unknown) exc w in
      (None, problem_data, w)
  end.

End SeedProblemsApi.

(** ** seed_leetcode.py *)

Module SeedLeetcode.

Definition nl2 : string := Py.nl ++ Py.nl.

(** The sentence [_pad_description] appends while the text is short. *)
Definition filler : string :=
  nl2 ++ "This is a programming challenge that tests your problem-solving skills.".

Definition header (title difficulty : string) : string :=
  ("# " ++ title ++ nl2)
  ++ ("**Difficulty**: " ++ Py.capitalize difficulty ++ nl2)
  ++ ("**Source**: LeetCode" ++ nl2)
  ++ ("## Problem Statement" ++ nl2).

Definition footer : string :=
  (nl2 ++ "## Notes" ++ nl2)
  ++ "This problem was imported from LeetCode. "
  ++ "For the most up-to-date version and additional test cases, "
  ++ "please visit the problem on LeetCode.".

(** The loop [while len(full_desc) < 500: full_desc += filler]. *)
Equations? pad_loop (full_desc : string) : string
  by wf (500 - String.length full_desc) lt :=
  pad_loop full_desc with lt_dec (String.length full_desc) 500 := {
    | left _ := pad_loop (full_desc ++ filler);
    | right _ := full_desc }.
Proof.
  assert (Hlen : forall a b : string,
            String.length (a ++ b) = String.length a + String.length b).
  { intros a b. induction a as [| c a IH]; simpl; [reflexivity | now rewrite IH]. }
  rewrite Hlen. simpl. lia.
Qed.

(** [ProblemTransformer._pad_description] *)
Definition _pad_description (desc title difficulty : string) : string :=
  let full_desc := header title difficulty ++ desc ++ footer in
  pad_loop full_desc.

(** The backfill step of [ProblemTransformer.transform]:
    [if len(description) < 500: description = self._pad_description(...)]. *)
Definition backfill (description title difficulty : string) : string :=
  if (String.length description <? 500)%nat
  then _pad_description description title difficulty
  else description.

(** [ProblemTransformer._map_category] *)
Definition _map_category (tags : list string) : string :=
  let tag_lower := map Py.lower tags in
  if Py.any_in ["dynamic programming"; "dp"] tag_lower then "Dynamic Programming"
  else if Py.any_in ["graph"; "tree"; "dfs"; "bfs"] tag_lower then "Graph Theory"
  else if Py.any_in ["array"; "hash table"; "stack"; "queue"] tag_lower then "Data Structure"
  else if Py.any_in ["math"; "geometry"] tag_lower then "Mathematics"
  else if Py.any_in ["string"] tag_lower then "String Processing"
  else "Algorithm".

Record test_case := {
  input : string;
  output : string;
  explanation : string
}.

(** One turn of the loop [for i in range(0, len(lines), 2)] of
    [_parse_test_cases]. *)
Definition parse_step (lines : list string) (test_cases : list test_case) (i : nat)
  : list test_case :=
  if (i + 1 <? length lines)%nat
  then Py.append test_cases ({| input := Py.strip (nth i lines "");
             output := Py.strip (nth (i + 1) lines "");
             explanation := "Example " ++ Py.str_of_nat (length test_cases + 1) |})
  else test_cases.

(** [ProblemTransformer._parse_test_cases]; [None] is a missing (null)
    [exampleTestcases]. *)
Definition _parse_test_cases (example_tests : option string) : list test_case :=
  match example_tests with
  | None => []
  | Some s =>
      if negb (Py.truthy s) then []
      else
        let lines := Py.split Py.newline (Py.strip s) in
        fold_left (parse_step lines) (Py.range_by_2 (length lines)) []
  end.

Abbreviation problem_data := (gmap string string).

Definition missing (pd : problem_data) (field : string) : bool :=
  match pd !! field with
  | None => true
  | Some v => negb (Py.truthy v)
  end.

(** [DataValidator.validate] *)
Definition validate (pd : problem_data) : bool * list string :=
  let errors : list string := [] in
  let required := ["title"; "description"; "difficulty"; "externalId"] in
  let errors :=
    fold_left (fun (errors : list string) (field : string) =>
                 if missing pd field
                 then Py.append errors ("Missing: " ++ field)
                 else errors)
              required errors in
  let errors :=
    match pd !! "difficulty" with
    | Some d =>
        if negb (Py.contains ["easy"; "medium"; "hard"] d)
        then Py.append errors ("Invalid difficulty: " ++ d)
        else errors
    | None => errors
    end in
  let errors :=
    match pd !! "description" with
    | Some d =>
        if (String.length d <? 500)%nat
        then Py.append errors ("Description too short: " ++ Py.str_of_nat (String.length d)
                            ++ " chars")
        else errors
    | None => errors
    end in
  (Nat.eqb (length errors) 0, errors).

(** [MongoDBClient.insert_problem]; [problem_data.get('title')] prints
    as [None] when there is no title. *)
Definition insert_problem (self : PyMongo.client) (e : PyMongo.env)
    (problem_data : PyMongo.document) (w : PyMongo.world)
  : option string * PyMongo.document * PyMongo.world :=
  let problem_data := PyMongo.set_createdBy (PyMongo.system_user_id self) problem_data in
  let problem_data := PyMongo.set_createdAt (PyMongo.now_first e) problem_data in
  let problem_data := PyMongo.set_updatedAt (PyMongo.now_second e) problem_data in
  match PyMongo.insert_one e problem_data (PyMongo.problems w) with
  | (PyMongo.InsertOneResult inserted_id, problem_data, coll) =>
      (Some inserted_id, problem_data, PyMongo.with_problems coll w)
  | (PyMongo.DuplicateKeyError, problem_data, coll) =>
      (None, problem_data, PyMongo.with_problems coll w)
  | (PyMongo.OtherException exc, problem_data, coll) =>
      let w := PyMongo.with_problems coll w in
      let w := PyMongo.logger_error
                 ("Insert failed: " ++ default "None" (PyMongo.data problem_data !! "title"))
                 exc w in
      (None, problem_data, w)
  end.

End SeedLeetcode.

(** ** Regular expressions, as [re] matches them *)

Module Re.

(** The constructs the patterns of [scrape_leetcode_complete.py] use.
    Every pattern there is compiled with [re.DOTALL | re.IGNORECASE]: a
    literal matches either case, and the dot matches any character.
    Letters and digits are the ASCII ones. *)
Inductive regex :=
| Chr (c : ascii)          (* a literal character *)
| Any                      (* [.] *)
| Digit                    (* [\d] *)
| Bol                      (* [^] *)
| Eol                      (* [$] *)
| Eps                      (* the empty pattern *)
| Seq (r1 r2 : regex)      (* [r1 r2] *)
| Alt (r1 r2 : regex)      (* [r1|r2] *)
| Opt (r : regex)          (* [r?] *)
| Plus (r : regex)         (* [r+] *)
| LazyStar (r : regex)     (* [r*?] *)
| Group (r : regex)        (* [(r)], the group 1 *)
| Ahead (r : regex).       (* [(?=r)] *)

(** A literal text. *)
Fixpoint lit (s : string) : regex :=
  match s with
  | EmptyString => Eps
  | String c s' => Seq (Chr c) (lit s')
  end.

(** [r1 r2 ... rn] and [r1|r2|...|rn]. *)
Fixpoint cat (rs : list regex) : regex :=
  match rs with
  | [] => Eps
  | [r] => r
  | r :: rs' => Seq r (cat rs')
  end.

Fixpoint alt (rs : list regex) : regex :=
  match rs with
  | [] => Eps
  | [r] => r
  | r :: rs' => Alt r (alt rs')
  end.

(** Where a match attempt stands: the text still ahead, and what group 1
    holds. *)
Record mstate := {
  rest : string;
  group1 : option string
}.

Definition step (st : mstate) (s' : string) : mstate :=
  {| rest := s'; group1 := group1 st |}.

(** The first [n] characters of a string. *)
Fixpoint take (n : nat) (s : string) : string :=
  match n, s with
  | S n', String c s' => String c (take n' s')
  | _, _ => EmptyString
  end.

(** The text consumed between two states of one attempt. *)
Definition consumed (st st' : mstate) : string :=
  take (String.length (rest st) - String.length (rest st')) (rest st).

Definition progressed (st st' : mstate) : bool :=
  (String.length (rest st') <? String.length (rest st))%nat.

Definition is_digit (c : ascii) : bool :=
  let n := nat_of_ascii c in (48 <=? n)%nat && (n <=? 57)%nat.

Definition same_letter (c c' : ascii) : bool :=
  Ascii.eqb (Py.lower_char c) (Py.lower_char c').

(** The backtracking matcher: [m n r st k] tries [r] at [st], in a text
    of [n] characters, and hands every way it matches to the rest of the
    pattern [k], first choice first, until [k] accepts.  A repetition goes
    on only after a turn that consumed something. *)
Fixpoint m (n : nat) (r : regex) (st : mstate) (k : mstate -> option mstate)
    {struct r} : option mstate :=
  match r with
  | Chr c =>
      match rest st with
      | String c' s' => if same_letter c c' then k (step st s') else None
      | EmptyString => None
      end
  | Any =>
      match rest st with
      | String _ s' => k (step st s')
      | EmptyString => None
      end
  | Digit =>
      match rest st with
      | String c' s' => if is_digit c' then k (step st s') else None
      | EmptyString => None
      end
  | Bol => if (String.length (rest st) =? n)%nat then k st else None
  | Eol =>
      match rest st with
      | EmptyString => k st
      | String c EmptyString => if Ascii.eqb c Py.newline then k st else None
      | _ => None
      end
  | Eps => k st
  | Seq r1 r2 => m n r1 st (fun st' => m n r2 st' k)
  | Alt r1 r2 =>
      match m n r1 st k with
      | Some x => Some x
      | None => m n r2 st k
      end
  | Opt r1 =>
      match m n r1 st k with
      | Some x => Some x
      | None => k st
      end
  | Plus r1 =>
      (fix more (fuel : nat) (st : mstate) {struct fuel} : option mstate :=
         m n r1 st (fun st' =>
           match fuel with
           | 0 => k st'
           | S fuel' =>
               if progressed st st' then
                 match more fuel' st' with
                 | Some x => Some x
                 | None => k st'
                 end
               else k st'
           end))
        (String.length (rest st)) st
  | LazyStar r1 =>
      (fix more (fuel : nat) (st : mstate) {struct fuel} : option mstate :=
         match k st with
         | Some x => Some x
         | None =>
             match fuel with
             | 0 => None
             | S fuel' =>
                 m n r1 st (fun st' =>
                   if progressed st st' then more fuel' st' else None)
             end
         end)
        (String.length (rest st)) st
  | Group r1 =>
      m n r1 st (fun st' =>
        k {| rest := rest st'; group1 := Some (consumed st st') |})
  | Ahead r1 =>
      match m n r1 st Some with
      | Some st' => k {| rest := rest st; group1 := group1 st' |}
      | None => None
      end
  end.

(** A match: the text from its start, the text after its end, and its
    group 1. *)
Record match_obj := {
  from_start : string;
  after : string;
  group : option string
}.

(** The leftmost match in [s], a suffix of a text of [n] characters. *)
Fixpoint search_from (n : nat) (r : regex) (s : string) : option match_obj :=
  match m n r {| rest := s; group1 := None |} Some with
  | Some st' =>
      Some {| from_start := s; after := rest st'; group := group1 st' |}
  | None =>
      match s with
      | EmptyString => None
      | String _ s' => search_from n r s'
      end
  end.

(** [re.search(r, s)] *)
Definition search (r : regex) (s : string) : option match_obj :=
  search_from (String.length s) r s.

(** [re.finditer(r, s)]: the matches from left to right, each search
    starting where the previous match ended (one character further after
    an empty match). *)
Fixpoint finditer_from (fuel n : nat) (r : regex) (s : string) : list match_obj :=
  match fuel with
  | 0 => []
  | S fuel' =>
      match search_from n r s with
      | None => []
      | Some mo =>
          mo :: (if (String.length (after mo) <? String.length (from_start mo))%nat
                 then finditer_from fuel' n r (after mo)
                 else match after mo with
                      | EmptyString => []
                      | String _ s' => finditer_from fuel' n r s'
                      end)
      end
  end.

Definition finditer (r : regex) (s : string) : list match_obj :=
  finditer_from (S (String.length s)) (String.length s) r s.


End Re.

(** ** scrape_leetcode_complete.py *)

Module ScrapeLeetcodeComplete.

Import Re.

(** *** ContentParser *)

(** The calls [HTMLParser.feed] makes. *)
Inductive token :=
| StartTag (tag : string)
| EndTag (tag : string)
| Data (data : string).

Record content_parser := {
  text_parts : list string;
  in_pre : bool;
  in_strong : bool;
  current_text : list string
}.

Definition new_parser : content_parser :=
  {| text_parts := []; in_pre := false; in_strong := false; current_text := [] |}.

(** [''.join(parts)] *)
Definition concat_all (parts : list string) : string := Py.join "" parts.

(** [if self.current_text:] for a list. *)
Definition nonempty {A : Type} (l : list A) : bool :=
  match l with [] => false | _ :: _ => true end.

Definition handle_starttag (tag : string) (self : content_parser) : content_parser :=
  if String.eqb tag "pre" then
    {| text_parts := text_parts self; in_pre := true; in_strong := in_strong self;
       current_text := current_text self |}
  else if String.eqb tag "strong" then
    {| text_parts := text_parts self; in_pre := in_pre self; in_strong := true;
       current_text := current_text self |}
  else if Py.contains ["p"; "div"] tag then
    if nonempty (current_text self) then
      {| text_parts := Py.append (text_parts self)
                         (Py.strip (concat_all (current_text self)));
         in_pre := in_pre self; in_strong := in_strong self; current_text := [] |}
    else self
  else self.

Definition fence : string := "```".

Definition handle_endtag (tag : string) (self : content_parser) : content_parser :=
  if String.eqb tag "pre" then
    if nonempty (current_text self) then
      {| text_parts := Py.append (text_parts self)
                         (fence ++ Py.nl ++ Py.strip (concat_all (current_text self))
                            ++ Py.nl ++ fence);
         in_pre := false; in_strong := in_strong self; current_text := [] |}
    else
      {| text_parts := text_parts self; in_pre := false; in_strong := in_strong self;
         current_text := current_text self |}
  else if String.eqb tag "strong" then
    {| text_parts := text_parts self; in_pre := in_pre self; in_strong := false;
       current_text := current_text self |}
  else self.

Definition handle_data (data : string) (self : content_parser) : content_parser :=
  if Py.truthy (Py.strip data) then
    {| text_parts := text_parts self; in_pre := in_pre self; in_strong := in_strong self;
       current_text :=
         Py.append (current_text self)
           (if in_strong self then "**" ++ data ++ "**" else data) |}
  else self.

Definition get_text (self : content_parser) : string :=
  let text_parts :=
    if nonempty (current_text self)
    then Py.append (text_parts self) (Py.strip (concat_all (current_text self)))
    else text_parts self in
  Py.join (Py.nl ++ Py.nl) text_parts.

Definition handle (t : token) (self : content_parser) : content_parser :=
  match t with
  | StartTag tag => handle_starttag tag self
  | EndTag tag => handle_endtag tag self
  | Data data => handle_data data self
  end.

(** [parser.feed(html)], given the calls the tokenizer makes. *)
Definition feed (tokens : list token) (self : content_parser) : content_parser :=
  fold_left (fun self t => handle t self) tokens self.

(** *** The tokenizer of [html.parser] *)










(** *** The patterns *)

(** [Example \d+:] *)
Definition example_anchor : regex := cat [lit "Example "; Plus Digit; Chr ":"].








(** *** parse_html_content *)

(** An example: a dict with the keys that were found. *)
Record example := {
  input : option string;
  output : option string;
  explanation : option string
}.









End ScrapeLeetcodeComplete.

(** ** Python built-ins of the pipelines *)

Module Builtins.

(** An optional integer and an optional string inside an f-string: a
    missing value prints as [None]. *)
Definition fmt_int (x : option Z) : string :=
  match x with
  | Some z => SeedProblems.str_of_Z z
  | None => "None"
  end.

Definition fmt_str (x : option string) : string := default "None" x.

(** Truthiness of an optional integer and of an optional string: [None],
    [0] and the empty string are false. *)
Definition truthy_int (x : option Z) : bool :=
  match x with
  | Some z => negb (z =? 0)%Z
  | None => false
  end.

Definition truthy_str (x : option string) : bool :=
  match x with
  | Some s => Py.truthy s
  | None => false
  end.

(** [key in d], for a member kept as an option. *)
Definition present {A : Type} (x : option A) : bool :=
  match x with
  | Some _ => true
  | None => false
  end.

(** Truthiness of a list. *)
Definition truthy_list {A : Type} (l : list A) : bool :=
  match l with
  | [] => false
  | _ :: _ => true
  end.

(** [l[:n]]; a negative [n] counts from the end. *)
Definition slice_to {A : Type} (n : Z) (l : list A) : list A :=
  if (n <? 0)%Z then take (length l - Z.to_nat (- n)) l
  else take (Z.to_nat n) l.

(** [s.split(sep)[-1]] and [s.split(sep)[0]] for a one-character
    separator; [split] never gives the empty list. *)
Definition last_piece (sep : ascii) (s : string) : string :=
  List.last (Py.split sep s) EmptyString.

Definition first_piece (sep : ascii) (s : string) : string :=
  List.hd EmptyString (Py.split sep s).

End Builtins.

(** ** seed_problems_api.py: configuration, transformer and main loop *)

Module SeedProblemsApiPipeline.

Import PyMongo Builtins.

(** *** Config *)

Module Config.

Record t := {
  mongo_uri : string;
  problem_limit : Z;
  min_rating : Z;
  max_rating : Z;
  dry_run : bool;
  verbose : bool;
  log_file : string
}.

(** [Config.__init__] *)
Definition init : t :=
  {| mongo_uri := ""; problem_limit := 100; min_rating := 800; max_rating := 2000;
     dry_run := false; verbose := false; log_file := "scraper_api.log" |}.

(** [Config.validate] *)
Definition validate (self : t) : bool * list string :=
  let errors : list string := [] in
  let errors :=
    if negb (Py.truthy (mongo_uri self))
    then Py.append errors "MONGO_URI is required" else errors in
  let errors :=
    if (problem_limit self <? 1)%Z
    then Py.append errors "PROBLEM_LIMIT must be >= 1" else errors in
  let errors :=
    if (min_rating self <? 0)%Z
    then Py.append errors "MIN_RATING must be >= 0" else errors in
  let errors :=
    if (max_rating self <? min_rating self)%Z
    then Py.append errors "MAX_RATING must be >= MIN_RATING" else errors in
  (Nat.eqb (length errors) 0, errors).

End Config.

(** *** ScraperLogger *)

(** [self.stats]; the two times are unset until the timer runs. *)
Record stats := {
  total : Z;
  success : Z;
  failed : Z;
  skipped : Z;
  start_time : option Z;
  end_time : option Z
}.

Definition no_stats : stats :=
  {| total := 0; success := 0; failed := 0; skipped := 0;
     start_time := None; end_time := None |}.

(** [ScraperLogger.update_stats], which is the same in
    [seed_problems.py]. *)
Definition update_stats (status : string) (s : stats) : stats :=
  let s := {| total := total s + 1; success := success s; failed := failed s;
              skipped := skipped s; start_time := start_time s;
              end_time := end_time s |} in
  if String.eqb status "success" then
    {| total := total s; success := success s + 1; failed := failed s;
       skipped := skipped s; start_time := start_time s; end_time := end_time s |}
  else if String.eqb status "failed" then
    {| total := total s; success := success s; failed := failed s + 1;
       skipped := skipped s; start_time := start_time s; end_time := end_time s |}
  else if String.eqb status "skipped" then
    {| total := total s; success := success s; failed := failed s;
       skipped := skipped s + 1; start_time := start_time s; end_time := end_time s |}
  else s.

(** [ScraperLogger.info]: both handlers let the level through. *)
Definition logger_info (msg : string) (w : world) : world :=
  {| problems := problems w; log := Py.append (log w) (INFO, msg) |}.

(** *** The objects of the Codeforces API *)

Module Api.

(** A [Problem] object of [problemset.problems]; a member the response
    leaves out is [None]. *)
Record problem := {
  contestId : option Z;
  index : option string;
  name : option string;
  type : option string;
  tags : option (list string);
  rating : option Z
}.

(** A [ProblemStatistics] object, which has these three members. *)
Record problem_statistics := {
  stat_contestId : option Z;
  stat_index : option string;
  solvedCount : option Z
}.

End Api.

(** *** ProblemTransformer *)

Definition join_or (tags : list string) (otherwise : string) : string :=
  if truthy_list tags then Py.join ", " tags else otherwise.

(** [ProblemTransformer._generate_description] *)
Definition _generate_description (name : string) (tags : list string)
    (rating : option Z) (contest_id : Z) (index : string) : string :=
  let parts : list string := [] in
  let parts := Py.append parts ("# " ++ name ++ Py.nl) in
  let parts := Py.append parts ("## Problem Information" ++ Py.nl) in
  let parts := Py.append parts
    ("- **Source**: Codeforces Problem " ++ SeedProblems.str_of_Z contest_id ++ index) in
  let parts := Py.append parts
    ("- **Difficulty Rating**: "
     ++ (if truthy_int rating then fmt_int rating else "Unrated")) in
  let parts := Py.append parts ("- **Tags**: " ++ join_or tags "None" ++ Py.nl) in
  let parts := Py.append parts ("## Problem Statement" ++ Py.nl) in
  let parts := Py.append parts
    ("This is problem " ++ index ++ " from Codeforces contest "
     ++ SeedProblems.str_of_Z contest_id ++ ".") in
  let parts := Py.append parts
    ("The problem is tagged with: " ++ join_or tags "no specific tags" ++ "." ++ Py.nl) in
  let parts :=
    match rating with
    | Some r =>
        if negb (r =? 0)%Z then
          if (r <? 1200)%Z then
            Py.append parts "This is considered an **easy** problem, suitable for beginners."
          else if (r <=? 1600)%Z then
            Py.append parts "This is considered a **medium** difficulty problem."
          else
            Py.append parts
              "This is considered a **hard** problem, suitable for advanced programmers."
        else parts
    | None => parts
    end in
  let parts := Py.append parts (Py.nl ++ "## Full Problem Statement" ++ Py.nl) in
  let parts := Py.append parts
    "For the complete problem statement, input/output format, examples, and constraints, " in
  let parts := Py.append parts
    ("please visit the original problem on Codeforces:" ++ Py.nl) in
  let parts := Py.append parts
    ("[View Problem on Codeforces](https://codeforces.com/problemset/problem/"
     ++ SeedProblems.str_of_Z contest_id ++ "/" ++ index ++ ")" ++ Py.nl) in
  let parts := Py.append parts ("## Note" ++ Py.nl) in
  let parts := Py.append parts
    "This problem was imported from Codeforces using their official API. " in
  let parts := Py.append parts
    "The full problem statement, test cases, and examples are available on the Codeforces website." in
  Py.join Py.nl parts.

(** The [statistics] entry of a transformed problem. *)
Record submission_statistics := {
  totalSubmissions : Z;
  acceptedSubmissions : Z;
  acceptanceRate : Z;
  averageScore : Z
}.

(** The dict [transform] builds. *)
Record problem_data := {
  title : string;
  description : string;
  difficulty : string;
  tags : list string;
  category : string;
  timeLimit : Z;
  memoryLimit : Z;
  examples : list (gmap string string);
  visibleTestCases : list (gmap string string);
  hiddenTestCases : list (gmap string string);
  source : string;
  sourceUrl : string;
  externalId : string;
  isPublic : bool;
  isActive : bool;
  isVerified : bool;
  inputFormat : string;
  outputFormat : string;
  statistics : option submission_statistics
}.

(** The [str] entries of the dict: what the validator reads and what the
    stored document is seen through. *)
Definition fields (pd : problem_data) : gmap string string :=
  <["title" := title pd]> (
  <["description" := description pd]> (
  <["difficulty" := difficulty pd]> (
  <["category" := category pd]> (
  <["source" := source pd]> (
  <["sourceUrl" := sourceUrl pd]> (
  <["externalId" := externalId pd]> (
  <["inputFormat" := inputFormat pd]> (
  <["outputFormat" := outputFormat pd]> ∅)))))))).

(** [if statistics:] for a dict. *)
Definition truthy_statistics (s : option Api.problem_statistics) : bool :=
  match s with
  | Some st =>
      present (Api.stat_contestId st) || present (Api.stat_index st)
      || present (Api.solvedCount st)
  | None => false
  end.

(** [ProblemTransformer.transform]; the logger writes into the world. *)
Definition transform (verbose : bool) (problem : Api.problem)
    (statistics : option Api.problem_statistics) (w : world)
  : option problem_data * world :=
  let contest_id := Api.contestId problem in
  let index := Api.index problem in
  let name := default "Untitled Problem" (Api.name problem) in
  let problem_type := default "PROGRAMMING" (Api.type problem) in
  let tags := default [] (Api.tags problem) in
  let rating := Api.rating problem in
  if negb (String.eqb problem_type "PROGRAMMING") then
    (None, logger_debug verbose ("Skipping non-programming problem: " ++ name) w)
  else
    match contest_id, index with
    | Some c, Some i =>
        if negb (c =? 0)%Z && Py.truthy i then
          let external_id := SeedProblems.str_of_Z c ++ i in
          let difficulty := SeedProblemsApi.map_rating rating in
          let category := SeedProblemsApi.get_category_from_tags tags in
          let description := _generate_description name tags rating c i in
          let problem_data :=
            {| title := name;
               description := description;
               difficulty := difficulty;
               tags := tags;
               category := category;
               timeLimit := 2000;
               memoryLimit := 256;
               examples := [];
               visibleTestCases := [];
               hiddenTestCases := [];
               source := "Codeforces";
               sourceUrl := "https://codeforces.com/problemset/problem/"
                              ++ SeedProblems.str_of_Z c ++ "/" ++ i;
               externalId := external_id;
               isPublic := true;
               isActive := true;
               isVerified := false;
               inputFormat := "See problem on Codeforces";
               outputFormat := "See problem on Codeforces";
               statistics :=
                 if truthy_statistics statistics then
                   let solved_count :=
                     default 0%Z (statistics ≫= Api.solvedCount) in
                   Some {| totalSubmissions := solved_count;
                           acceptedSubmissions := solved_count;
                           acceptanceRate := 0;
                           averageScore := 0 |}
                 else None |} in
          (Some problem_data,
           logger_debug verbose ("Transformed: " ++ name ++ " (" ++ difficulty ++ ")") w)
        else (None, logger_debug verbose ("Skipping problem without ID: " ++ name) w)
    | _, _ => (None, logger_debug verbose ("Skipping problem without ID: " ++ name) w)
    end.

(** *** MongoDBClient *)

(** The database name [connect] takes from the URI:
    [mongo_uri.split('/')[-1].split('?')[0] or 'coding-platform']. *)
Definition db_name (mongo_uri : string) : string :=
  let candidate := first_piece "?" (last_piece "/" mongo_uri) in
  if Py.truthy candidate then candidate else "coding-platform".

(** [MongoDBClient.problem_exists], when the query goes through. *)
Definition problem_exists (external_id : string) (w : world) : bool :=
  existsb (fun d => bool_decide (data d !! "externalId" = Some external_id))
          (problems w).

(** The dict handed to [insert_problem], as a document. *)
Definition to_document (pd : problem_data) : document :=
  {| data := fields pd; _id := None; createdBy := None;
     createdAt := None; updatedAt := None |}.

(** *** main *)

(** The key of the statistics map, [f"{p.get('contestId')}{p.get('index')}"]. *)
Definition problem_key (contest_id : option Z) (index : option string) : string :=
  fmt_int contest_id ++ fmt_str index.

(** The dict comprehension over [problemStatistics]: a later entry
    replaces an earlier one with the same key. *)
Definition statistics_map (problem_statistics : list Api.problem_statistics)
  : gmap string Api.problem_statistics :=
  fold_left
    (fun m p => <[problem_key (Api.stat_contestId p) (Api.stat_index p) := p]> m)
    problem_statistics ∅.

(** The rating filter and the limit. *)
Definition in_rating_range (config : Config.t) (p : Api.problem) : bool :=
  let rating := default 0%Z (Api.rating p) in
  (Config.min_rating config <=? rating)%Z && (rating <=? Config.max_rating config)%Z.

Definition problems_to_process (config : Config.t) (problems : list Api.problem)
  : list Api.problem :=
  let filtered_problems := List.filter (in_rating_range config) problems in
  slice_to (Config.problem_limit config) filtered_problems.

(** What the surroundings decide during one turn of the loop: whether
    the query of [problem_exists] fails (with the text of the exception),
    and what happens during the insert. *)
Record turn := {
  find_failure : option string;
  insert_env : env
}.

(** The state the loop works on. *)
Record run := {
  world_of : world;
  stats_of : stats
}.

Definition counted (status : string) (w : world) (r : run) : run :=
  {| world_of := w; stats_of := update_stats status (stats_of r) |}.

Section Main.

Variable config : Config.t.

(** The connected database client; unused in a dry run. *)
Variable db_client : client.

(** The statistics map of the run. *)
Variable statistics : gmap string Api.problem_statistics.

(** [int(i / n * 100)], a floating-point computation, as it prints. *)
Variable percent : nat -> nat -> string.

(** The surroundings of turn [i]. *)
Variable turns : nat -> turn.

Definition position (i n : nat) : string :=
  "[" ++ Py.str_of_nat i ++ "/" ++ Py.str_of_nat n ++ "]".

(** The progress line after every tenth problem. *)
Definition progress (i n : nat) (w : world) : world :=
  if (i mod 10 =? 0)%nat
  then logger_info ("Progress: " ++ Py.str_of_nat i ++ "/" ++ Py.str_of_nat n
                    ++ " (" ++ percent i n ++ "%)") w
  else w.

(** The body of the loop
    [for i, problem in enumerate(problems_to_process, 1)], with [n] the
    number of problems to process. *)
Definition process (n i : nat) (problem : Api.problem) (r : run) : run :=
  let '(transformed, w) :=
    transform (Config.verbose config) problem
      (statistics !! problem_key (Api.contestId problem) (Api.index problem))
      (world_of r) in
  match transformed with
  | None => counted "skipped" w r
  | Some pd =>
      let '(is_valid, errors) := SeedProblemsApi.validate (fields pd) in
      if negb is_valid then
        counted "failed"
          (logger_warning ("Validation failed for " ++ title pd ++ ": "
                           ++ Py.join ", " errors) w) r
      else if Config.dry_run config then
        let w := logger_info ("✅ " ++ position i n ++ " Would insert: " ++ title pd
                              ++ " (" ++ difficulty pd ++ ")") w in
        let r := counted "success" w r in
        {| world_of := progress i n (world_of r); stats_of := stats_of r |}
      else
        match find_failure (turns i) with
        | Some exc =>
            counted "failed"
              (logger_error ("Error processing problem " ++ Py.str_of_nat i) exc w) r
        | None =>
            if problem_exists (externalId pd) w then
              counted "skipped"
                (logger_info ("⏭️  " ++ position i n ++ " Already exists: " ++ title pd) w) r
            else
              let '(result, _, w) :=
                SeedProblemsApi.insert_problem db_client (insert_env (turns i))
                  (to_document pd) w in
              let r :=
                match result with
                | Some inserted =>
                    if Py.truthy inserted then
                      counted "success"
                        (logger_info ("✅ " ++ position i n ++ " Inserted: " ++ title pd
                                      ++ " (" ++ difficulty pd ++ ")") w) r
                    else counted "failed" w r
                | None => counted "failed" w r
                end in
              {| world_of := progress i n (world_of r); stats_of := stats_of r |}
        end
  end.

(** The loop, from turn [i] on. *)
Fixpoint process_from (n i : nat) (problems : list Api.problem) (r : run) : run :=
  match problems with
  | [] => r
  | problem :: rest => process_from n (S i) rest (process n i problem r)
  end.

(** The loop of [main] over the problems the configuration selects. *)
Definition process_all (problems : list Api.problem) (r : run) : run :=
  let selected := problems_to_process config problems in
  process_from (length selected) 1 selected r.

End Main.

End SeedProblemsApiPipeline.

(** ** seed_leetcode.py: configuration, transformer and main loop *)

Module SeedLeetcodePipeline.

Import PyMongo Builtins.

(** A member of a JSON object of the GraphQL response: left out, [null],
    or a value. *)
Inductive member (A : Type) :=
| Missing
| Null
| Value (a : A).
Arguments Missing {A}.
Arguments Null {A}.
Arguments Value {A} a.

(** *** Config *)

Module Config.

(** The settings [validate] and [main] read. *)
Record t := {
  mongo_uri : string;
  problem_limit : Z;
  difficulty : option string;
  dry_run : bool;
  verbose : bool;
  log_file : string
}.

(** [Config.validate] *)
Definition validate (self : t) : bool * list string :=
  let errors : list string := [] in
  let errors :=
    if negb (Py.truthy (mongo_uri self))
    then Py.append errors "MONGO_URI required" else errors in
  let errors :=
    if (problem_limit self <? 1)%Z
    then Py.append errors "PROBLEM_LIMIT must be >= 1" else errors in
  let errors :=
    if truthy_str (difficulty self)
       && negb (Py.contains ["Easy"; "Medium"; "Hard"] (default "" (difficulty self)))
    then Py.append errors "DIFFICULTY must be Easy, Medium, or Hard" else errors in
  (Nat.eqb (length errors) 0, errors).

End Config.

(** *** ScraperLogger *)

Record stats := {
  total : Z;
  success : Z;
  failed : Z;
  skipped : Z;
  start_time : option Z;
  end_time : option Z
}.

Definition no_stats : stats :=
  {| total := 0; success := 0; failed := 0; skipped := 0;
     start_time := None; end_time := None |}.

Inductive stats_error :=
| KeyError (key : string)
| TypeError.

(** [ScraperLogger.update_stats]: [self.stats['total'] += 1], then
    [self.stats[status] += 1] whatever the status is.  The stats as the
    call leaves them, and what it raises. *)
Definition update_stats (status : string) (s : stats) : stats * option stats_error :=
  let s := {| total := total s + 1; success := success s; failed := failed s;
              skipped := skipped s; start_time := start_time s;
              end_time := end_time s |} in
  if String.eqb status "total" then
    ({| total := total s + 1; success := success s; failed := failed s;
        skipped := skipped s; start_time := start_time s; end_time := end_time s |},
     None)
  else if String.eqb status "success" then
    ({| total := total s; success := success s + 1; failed := failed s;
        skipped := skipped s; start_time := start_time s; end_time := end_time s |},
     None)
  else if String.eqb status "failed" then
    ({| total := total s; success := success s; failed := failed s + 1;
        skipped := skipped s; start_time := start_time s; end_time := end_time s |},
     None)
  else if String.eqb status "skipped" then
    ({| total := total s; success := success s; failed := failed s;
        skipped := skipped s + 1; start_time := start_time s; end_time := end_time s |},
     None)
  else if String.eqb status "start_time" || String.eqb status "end_time" then
    (s, Some TypeError)
  else (s, Some (KeyError status)).

Definition logger_info (msg : string) (w : world) : world :=
  {| problems := problems w; log := Py.append (log w) (INFO, msg) |}.

(** *** The objects of the GraphQL API *)

Module Api.

Record topic_tag := {
  tag_name : member string;
  slug : member string
}.

(** The [question] object of [questionData], with the members
    [transform] reads. *)
Record question := {
  title : member string;
  titleSlug : member string;
  difficulty : member string;
  content : member string;
  questionFrontendId : member string;
  topicTags : member (list topic_tag);
  exampleTestcases : member string
}.

(** An entry of the problem list. *)
Record list_entry := {
  entry_title : member string;
  entry_titleSlug : member string;
  isPaidOnly : member bool
}.

End Api.

(** *** ProblemTransformer *)

(** What [transform] can run into. *)
Inductive transform_error :=
| MissingKey (key : string)          (* KeyError *)
| NoneHasNoLower                     (* AttributeError: None.lower() *)
| NoneIsNoMarkup                     (* TypeError of BeautifulSoup(None) *)
| NoneIsNotIterable.                 (* TypeError: for tag in None *)

(** [d[key]]: a value or [None], or a [KeyError]. *)
Definition subscript {A : Type} (key : string) (m : member A)
  : option A + transform_error :=
  match m with
  | Missing => inr (MissingKey key)
  | Null => inl None
  | Value a => inl (Some a)
  end.

(** The cleaning of [_html_to_markdown]: lines trimmed, empty lines
    dropped, the rest joined by blank lines. *)
Definition clean_text (text : string) : string :=
  let lines := map Py.strip (Py.split Py.newline text) in
  let lines := List.filter Py.truthy lines in
  Py.join (Py.nl ++ Py.nl) lines.

(** [[tag['name'] for tag in topic_tags]], then the [lower()] of
    [_map_category] on every name. *)
Fixpoint tag_names (topic_tags : list Api.topic_tag) : list string + transform_error :=
  match topic_tags with
  | [] => inl []
  | tag :: rest =>
      match Api.tag_name tag with
      | Missing => inr (MissingKey "name")
      | Null =>
          match tag_names rest with
          | inl _ => inr NoneHasNoLower
          | inr e => inr e
          end
      | Value name =>
          match tag_names rest with
          | inl names => inl (name :: names)
          | inr e => inr e
          end
      end
  end.

(** The dict [transform] builds; the title is [None] when the response
    has [null] there. *)
Record problem_data := {
  title : option string;
  description : string;
  difficulty : string;
  tags : list string;
  category : string;
  timeLimit : Z;
  memoryLimit : Z;
  examples : list SeedLeetcode.test_case;
  visibleTestCases : list SeedLeetcode.test_case;
  hiddenTestCases : list SeedLeetcode.test_case;
  source : string;
  sourceUrl : string;
  externalId : string;
  isPublic : bool;
  isActive : bool;
  isVerified : bool;
  inputFormat : string;
  outputFormat : string
}.

(** The [str] entries of the dict. *)
Definition fields (pd : problem_data) : gmap string string :=
  let m : gmap string string :=
    <["description" := description pd]> (
    <["difficulty" := difficulty pd]> (
    <["category" := category pd]> (
    <["source" := source pd]> (
    <["sourceUrl" := sourceUrl pd]> (
    <["externalId" := externalId pd]> (
    <["inputFormat" := inputFormat pd]> (
    <["outputFormat" := outputFormat pd]> ∅))))))) in
  match title pd with
  | Some t => <["title" := t]> m
  | None => m
  end.

Section Transformer.

(** [BeautifulSoup(html, 'lxml')], without its [script] and [style]
    elements, read through [get_text(separator='\n')]. *)
Variable soup_text : string -> string.

(** [ProblemTransformer._html_to_markdown] *)
Definition _html_to_markdown (html : string) : string :=
  clean_text (soup_text html).

(** The body of the [try] of [transform]. *)
Definition transform_body (problem_detail : Api.question)
  : problem_data + transform_error :=
  match subscript "title" (Api.title problem_detail) with
  | inr e => inr e
  | inl title =>
  match subscript "titleSlug" (Api.titleSlug problem_detail) with
  | inr e => inr e
  | inl title_slug =>
  match subscript "difficulty" (Api.difficulty problem_detail) with
  | inr e => inr e
  | inl None => inr NoneHasNoLower
  | inl (Some d) =>
  let difficulty := Py.lower d in
  match subscript "content" (Api.content problem_detail) with
  | inr e => inr e
  | inl None => inr NoneIsNoMarkup
  | inl (Some content_html) =>
  let description := _html_to_markdown content_html in
  let description :=
    SeedLeetcode.backfill description (fmt_str title) difficulty in
  match
    match Api.topicTags problem_detail with
    | Missing => inl []
    | Null => inr NoneIsNotIterable
    | Value topic_tags => tag_names topic_tags
    end
  with
  | inr e => inr e
  | inl tags =>
  let category := SeedLeetcode._map_category tags in
  let example_tests :=
    match Api.exampleTestcases problem_detail with
    | Missing => Some ""
    | Null => None
    | Value s => Some s
    end in
  let test_cases := SeedLeetcode._parse_test_cases example_tests in
  match subscript "questionFrontendId" (Api.questionFrontendId problem_detail) with
  | inr e => inr e
  | inl frontend_id =>
  inl {| title := title;
         description := description;
         difficulty := difficulty;
         tags := tags;
         category := category;
         timeLimit := 2000;
         memoryLimit := 256;
         examples := if truthy_list test_cases then take 3 test_cases else [];
         visibleTestCases := if truthy_list test_cases then test_cases else [];
         hiddenTestCases := [];
         source := "LeetCode";
         sourceUrl := "https://leetcode.com/problems/" ++ fmt_str title_slug ++ "/";
         externalId := "leetcode_" ++ fmt_str frontend_id;
         isPublic := true;
         isActive := true;
         isVerified := false;
         inputFormat := "See problem description";
         outputFormat := "See problem description" |}
  end end end end end end.

(** The text of an exception, as [logger.error] prints it; the text of
    the [TypeError] of [BeautifulSoup] is the library's. *)
Variable markup_error : string.

Definition error_text (e : transform_error) : string :=
  match e with
  | MissingKey key => "'" ++ key ++ "'"
  | NoneHasNoLower => "'NoneType' object has no attribute 'lower'"
  | NoneIsNoMarkup => markup_error
  | NoneIsNotIterable => "'NoneType' object is not iterable"
  end.

(** [problem_detail.get('title', 'Unknown')] inside an f-string. *)
Definition title_or_unknown (problem_detail : Api.question) : string :=
  match Api.title problem_detail with
  | Missing => "Unknown"
  | Null => "None"
  | Value t => t
  end.

(** [ProblemTransformer.transform] *)
Definition transform (verbose : bool) (problem_detail : Api.question) (w : world)
  : option problem_data * world :=
  match transform_body problem_detail with
  | inl problem_data =>
      (Some problem_data,
       logger_debug verbose ("Transformed: " ++ fmt_str (title problem_data)) w)
  | inr e =>
      (None,
       logger_error ("Transform failed for " ++ title_or_unknown problem_detail)
         (error_text e) w)
  end.

End Transformer.

(** *** MongoDBClient *)

(** [mongo_uri.split('/')[-1].split('?')[0] or 'coding-platform'] *)
Definition db_name (mongo_uri : string) : string :=
  let candidate := first_piece "?" (last_piece "/" mongo_uri) in
  if Py.truthy candidate then candidate else "coding-platform".

(** [MongoDBClient.problem_exists], when the query goes through. *)
Definition problem_exists (external_id : string) (w : world) : bool :=
  existsb (fun d => bool_decide (data d !! "externalId" = Some external_id))
          (problems w).

Definition to_document (pd : problem_data) : document :=
  {| data := fields pd; _id := None; createdBy := None;
     createdAt := None; updatedAt := None |}.

(** *** LeetCodeClient.fetch_problem_detail *)

(** What the request for the details comes to: an exception anywhere in
    the [try] (with its text), or the [question] member of the response,
    [None] when it is [null]. *)
Inductive detail_reply :=
| DetailRaises (exc : string)
| DetailData (question : option Api.question).

(** [LeetCodeClient.fetch_problem_detail], given what the request comes
    to; the wait before the request leaves no trace here. *)
Definition fetch_problem_detail (verbose : bool) (title_slug : option string)
    (reply : detail_reply) (w : world) : option Api.question * world :=
  let w := logger_debug verbose ("Fetching details for: " ++ fmt_str title_slug) w in
  match reply with
  | DetailData question => (question, w)
  | DetailRaises exc =>
      (None, logger_error ("Failed to fetch " ++ fmt_str title_slug) exc w)
  end.

(** *** main *)

Record turn := {
  detail : detail_reply;
  find_failure : option string;
  insert_env : env
}.

Record run := {
  world_of : world;
  stats_of : stats
}.

(** [logger.update_stats(status)] with one of the statuses [main]
    passes, none of which raises. *)
Definition counted (status : string) (w : world) (r : run) : run :=
  {| world_of := w; stats_of := (update_stats status (stats_of r)).1 |}.

Section Main.

Variable config : Config.t.
Variable db_client : client.
Variable soup_text : string -> string.
Variable markup_error : string.

(** [int(i / n * 100)], a floating-point computation, as it prints. *)
Variable percent : nat -> nat -> string.

Variable turns : nat -> turn.

Definition progress (i n : nat) (w : world) : world :=
  if (i mod 10 =? 0)%nat
  then logger_info ("Progress: " ++ Py.str_of_nat i ++ "/" ++ Py.str_of_nat n
                    ++ " (" ++ percent i n ++ "%)") w
  else w.

Definition failed_turn (i : nat) (exc : string) (w : world) (r : run) : run :=
  counted "failed"
    (logger_error ("Error processing problem " ++ Py.str_of_nat i) exc w) r.

(** The body of the loop [for i, problem in enumerate(problems, 1)]; a
    question object that came back is never the empty dict. *)
Definition process (n i : nat) (problem : Api.list_entry) (r : run) : run :=
  let w := world_of r in
  match subscript "titleSlug" (Api.entry_titleSlug problem) with
  | inr _ => failed_turn i "'titleSlug'" w r
  | inl title_slug =>
  match subscript "title" (Api.entry_title problem) with
  | inr _ => failed_turn i "'title'" w r
  | inl title =>
  let w := logger_info ("[" ++ Py.str_of_nat i ++ "/" ++ Py.str_of_nat n
                        ++ "] Fetching: " ++ fmt_str title) w in
  let '(detail, w) :=
    fetch_problem_detail (Config.verbose config) title_slug (detail (turns i)) w in
  match detail with
  | None => counted "failed" w r
  | Some detail =>
  let '(transformed, w) :=
    transform soup_text markup_error (Config.verbose config) detail w in
  match transformed with
  | None => counted "failed" w r
  | Some pd =>
      let '(is_valid, errors) := SeedLeetcode.validate (fields pd) in
      if negb is_valid then
        counted "failed"
          (logger_warning ("Validation failed: " ++ Py.join ", " errors) w) r
      else if Config.dry_run config then
        let w := logger_info ("✅ Would insert: " ++ fmt_str title
                              ++ " (" ++ difficulty pd ++ ")") w in
        let r := counted "success" w r in
        {| world_of := progress i n (world_of r); stats_of := stats_of r |}
      else
        match find_failure (turns i) with
        | Some exc => failed_turn i exc w r
        | None =>
            if problem_exists (externalId pd) w then
              counted "skipped"
                (logger_info ("⏭️  Already exists: " ++ fmt_str title) w) r
            else
              let '(result, _, w) :=
                SeedLeetcode.insert_problem db_client (insert_env (turns i))
                  (to_document pd) w in
              let r :=
                match result with
                | Some inserted =>
                    if Py.truthy inserted then
                      counted "success"
                        (logger_info ("✅ Inserted: " ++ fmt_str title
                                      ++ " (" ++ difficulty pd ++ ")") w) r
                    else counted "failed" w r
                | None => counted "failed" w r
                end in
              {| world_of := progress i n (world_of r); stats_of := stats_of r |}
        end
  end end end end.

Fixpoint process_from (n i : nat) (problems : list Api.list_entry) (r : run) : run :=
  match problems with
  | [] => r
  | problem :: rest => process_from n (S i) rest (process n i problem r)
  end.

(** The loop of [main] over the problems [fetch_problem_list] returned. *)
Definition process_all (problems : list Api.list_entry) (r : run) : run :=
  process_from (length problems) 1 problems r.

End Main.

End SeedLeetcodePipeline.

(** ** scrape_codeforces.py *)

Module ScrapeCodeforces.

Import Builtins.

(** A [Problem] object of the API; [points], a JSON number that is only
    passed on, is kept by its text. *)
Record problem := {
  contestId : option Z;
  index : option string;
  name : option string;
  type : option string;
  rating : option Z;
  tags : option (list string);
  points : option string
}.

(** An entry of [stats_map], with the member that is read. *)
Record problem_statistics := {
  solvedCount : option Z
}.

(** The dict [process_problem] builds. *)
Record problem_data := {
  pd_contestId : Z;
  pd_index : string;
  pd_name : option string;
  pd_type : option string;
  pd_rating : option Z;
  pd_tags : list string;
  pd_solvedCount : Z;
  pd_url : string;
  pd_points : option string;
  pd_timeLimit : string;
  pd_memoryLimit : string
}.

Definition base_url : string := "https://codeforces.com".

(** [CodeforcesFetcher.process_problem] *)
Definition process_problem (problem : problem)
    (stats_map : gmap string problem_statistics) : option problem_data :=
  match contestId problem, index problem with
  | Some contest_id, Some index =>
      if negb (contest_id =? 0)%Z && Py.truthy index then
        let key := SeedProblems.str_of_Z contest_id ++ index in
        let stats := stats_map !! key in
        Some {| pd_contestId := contest_id;
                pd_index := index;
                pd_name := name problem;
                pd_type := type problem;
                pd_rating := rating problem;
                pd_tags := default [] (tags problem);
                pd_solvedCount := default 0%Z (stats ≫= solvedCount);
                pd_url := base_url ++ "/contest/" ++ SeedProblems.str_of_Z contest_id
                            ++ "/problem/" ++ index;
                pd_points := points problem;
                pd_timeLimit := "2 seconds";
                pd_memoryLimit := "256 megabytes" |}
      else None
  | _, _ => None
  end.

(** [x or 'any'] and [x or 'N/A'] for an optional integer inside an
    f-string. *)
Definition int_or (x : option Z) (otherwise : string) : string :=
  if truthy_int x then fmt_int x else otherwise.

(** The three filters of the loop of [fetch_problems]: [true] when the
    problem is passed over. *)
Definition filtered_out (min_rating max_rating : option Z) (tags : option (list string))
    (problem : problem) : bool :=
  let rating := rating problem in
  let problem_tags := default [] (ScrapeCodeforces.tags problem) in
  if truthy_int min_rating
     && (negb (truthy_int rating)
         || (default 0 rating <? default 0 min_rating)%Z) then true
  else if truthy_int max_rating
          && (negb (truthy_int rating)
              || (default 0 max_rating <? default 0 rating)%Z) then true
  else if truthy_list (default [] tags)
          && negb (Py.any_in (default [] tags) problem_tags) then true
  else false.

Definition rule : string := Py.repeat_char 80 "=".

Section Fetch.

Variable limit : Z.
Variable min_rating max_rating : option Z.
Variable tags : option (list string).
Variable stats_map : gmap string problem_statistics.

(** The loop [for problem in problems] of [fetch_problems]: what is
    fetched and what is printed, from the state the loop is in. *)
Fixpoint fetch_loop (problems : list problem) (fetched_problems : list problem_data)
    (count : Z) (out : list string) : list problem_data * list string :=
  match problems with
  | [] => (fetched_problems, out)
  | problem :: rest =>
      if (limit <=? count)%Z then (fetched_problems, out)
      else if filtered_out min_rating max_rating tags problem
      then fetch_loop rest fetched_problems count out
      else
        match process_problem problem stats_map with
        | Some problem_data =>
            let out := Py.append out
              ("[" ++ SeedProblems.str_of_Z (count + 1) ++ "/"
               ++ SeedProblems.str_of_Z limit ++ "] "
               ++ SeedProblems.str_of_Z (pd_contestId problem_data)
               ++ pd_index problem_data ++ ": " ++ fmt_str (pd_name problem_data)) in
            let out := Py.append out
              ("         Rating: " ++ int_or (pd_rating problem_data) "N/A"
               ++ " | Solved: " ++ SeedProblems.str_of_Z (pd_solvedCount problem_data)) in
            fetch_loop rest (Py.append fetched_problems problem_data) (count + 1) out
        | None => fetch_loop rest fetched_problems count out
        end
  end.

(** [CodeforcesFetcher.fetch_problems], given what [fetch_problem_list]
    returned (and printed): the problems fetched, and the lines
    printed. *)
Definition fetch_problems (listed : list problem) (listing_out : list string)
  : list problem_data * list string :=
  let out : list string := [] in
  let out := Py.append out (Py.nl ++ rule) in
  let out := Py.append out
    ("🚀 Starting Codeforces Problem Fetcher (Limit: "
     ++ SeedProblems.str_of_Z limit ++ " problems)") in
  let out :=
    if truthy_int min_rating || truthy_int max_rating
    then Py.append out ("   Rating filter: " ++ int_or min_rating "any" ++ " - "
                        ++ int_or max_rating "any")
    else out in
  let out :=
    if truthy_list (default [] tags)
    then Py.append out ("   Tags filter: " ++ Py.join ", " (default [] tags))
    else out in
  let out := Py.append out (rule ++ Py.nl) in
  let out := (out ++ listing_out)%list in
  if negb (truthy_list listed) then ([], Py.append out "❌ No problems to fetch")
  else
    let out := Py.append out (Py.nl ++ "📚 Processing problems..." ++ Py.nl) in
    let '(fetched_problems, out) := fetch_loop listed [] 0 out in
    let out := Py.append out (Py.nl ++ rule) in
    let out := Py.append out
      ("✅ Fetching complete! Successfully fetched "
       ++ Py.str_of_nat (length fetched_problems) ++ " problems") in
    let out := Py.append out (rule ++ Py.nl) in
    (fetched_problems, out).

End Fetch.

End ScrapeCodeforces.

(** ** scrape_codeforces_full.py: the list and the scraping loop *)

Module ScrapeCodeforcesFullRun.

Import Builtins.

(** A [Problem] object of the API, with the members that are read. *)
Record problem := {
  contestId : option Z;
  index : option string;
  name : option string;
  rating : option Z;
  tags : option (list string)
}.

Record problem_statistics := {
  solvedCount : option Z
}.

(** The rating filter of [fetch_problem_list]: [true] when the problem
    is passed over. *)
Definition filtered_out (min_rating max_rating : option Z) (p : problem) : bool :=
  let rating := rating p in
  if truthy_int min_rating
     && (negb (truthy_int rating)
         || (default 0 rating <? default 0 min_rating)%Z) then true
  else if truthy_int max_rating
          && (negb (truthy_int rating)
              || (default 0 max_rating <? default 0 rating)%Z) then true
  else false.

(** What [fetch_problem_list] returns of the problems of an [OK]
    response: [filtered[:limit]]. *)
Definition fetch_problem_list (limit : Z) (min_rating max_rating : option Z)
    (problems : list problem) : list problem :=
  let filtered :=
    List.filter (fun p => negb (filtered_out min_rating max_rating p)) problems in
  slice_to limit filtered.

(** The dict [scrape_problem_details] returns: a key is there when the
    page had the element. *)
Record details := {
  title : option string;
  timeLimit : option string;
  memoryLimit : option string;
  inputFormat : option string;
  outputFormat : option string;
  description : option string;
  sampleTests : option (list ScrapeCodeforcesFull.sample);
  note : option string
}.

(** [if details:] *)
Definition truthy_details (d : details) : bool :=
  present (title d) || present (timeLimit d) || present (memoryLimit d)
  || present (inputFormat d) || present (outputFormat d) || present (description d)
  || present (sampleTests d) || present (note d).

(** The dict of a scraped problem: the data of the API, and the
    details, whose keys are all different from those. *)
Record full_problem := {
  fp_contestId : Z;
  fp_index : string;
  fp_name : option string;
  fp_rating : option Z;
  fp_tags : list string;
  fp_solvedCount : Z;
  fp_url : string;
  fp_details : details
}.

Definition base_url : string := "https://codeforces.com".

Definition problem_url (contest_id : Z) (index : string) : string :=
  base_url ++ "/contest/" ++ SeedProblems.str_of_Z contest_id ++ "/problem/" ++ index.

(** What happens on the way: pages requested and pauses. *)
Record progress := {
  trace : list SeedProblems.event;
  out : list string
}.

Definition print (line : string) (p : progress) : progress :=
  {| trace := trace p; out := Py.append (out p) line |}.

Definition happened (e : SeedProblems.event) (p : progress) : progress :=
  {| trace := Py.append (trace p) e; out := out p |}.

Definition rule : string := Py.repeat_char 80 "=".

Section Scrape.

Variable limit : Z.
Variable min_rating max_rating : option Z.
Variable stats_map : gmap string problem_statistics.

(** What [scrape_problem_details] returns for a page: the details it
    found, the empty dict after an exception; and what it prints in that
    case. *)
Variable scrape_problem_details : Z -> string -> details * list string.

(** The loop [for problem in problems] of [scrape_problems]. *)
Fixpoint scrape_loop (problems : list problem) (scraped : list full_problem)
    (count : Z) (p : progress) : list full_problem * progress :=
  match problems with
  | [] => (scraped, p)
  | problem :: rest =>
      if (limit <=? count)%Z then (scraped, p)
      else
        match contestId problem, index problem with
        | Some contest_id, Some index =>
            if negb (contest_id =? 0)%Z && Py.truthy index then
              let p := print ("[" ++ SeedProblems.str_of_Z (count + 1) ++ "/"
                              ++ SeedProblems.str_of_Z limit ++ "] "
                              ++ SeedProblems.str_of_Z contest_id ++ index ++ ": "
                              ++ fmt_str (name problem)) p in
              let p := happened (SeedProblems.EvGet (problem_url contest_id index)) p in
              let '(details, printed) := scrape_problem_details contest_id index in
              let p := {| trace := trace p; out := (out p ++ printed)%list |} in
              let '(scraped, count, p) :=
                if truthy_details details then
                  let key := SeedProblems.str_of_Z contest_id ++ index in
                  let stats := stats_map !! key in
                  let full_problem :=
                    {| fp_contestId := contest_id;
                       fp_index := index;
                       fp_name := name problem;
                       fp_rating := rating problem;
                       fp_tags := default [] (tags problem);
                       fp_solvedCount := default 0%Z (stats ≫= solvedCount);
                       fp_url := problem_url contest_id index;
                       fp_details := details |} in
                  let test_count := length (default [] (sampleTests details)) in
                  (Py.append scraped full_problem, (count + 1)%Z,
                   print ("         ✓ " ++ Py.str_of_nat test_count ++ " sample tests | "
                          ++ Py.str_of_nat (String.length (default "" (description details)))
                          ++ " chars description") p)
                else (scraped, count, p) in
              scrape_loop rest scraped count (happened (SeedProblems.EvSleep 2) p)
            else scrape_loop rest scraped count p
        | _, _ => scrape_loop rest scraped count p
        end
  end.

(** [CodeforcesFullScraper.scrape_problems], given the problems of the
    API's response and what [fetch_problem_list] printed. *)
Definition scrape_problems (api_problems : list problem) (listing_out : list string)
  : list full_problem * progress :=
  let p := {| trace := []; out := [] |} in
  let p := print (Py.nl ++ rule) p in
  let p := print ("🚀 Codeforces Full Scraper (Limit: " ++ SeedProblems.str_of_Z limit
                  ++ " problems)") p in
  let p :=
    if truthy_int min_rating || truthy_int max_rating
    then print ("   Rating: " ++ ScrapeCodeforces.int_or min_rating "any" ++ " - "
                ++ ScrapeCodeforces.int_or max_rating "any") p
    else p in
  let p := print (rule ++ Py.nl) p in
  let problems := fetch_problem_list (limit * 2) min_rating max_rating api_problems in
  let p := {| trace := trace p; out := (out p ++ listing_out)%list |} in
  if negb (truthy_list problems) then ([], p)
  else
    let p := print (Py.nl ++ "📚 Scraping detailed information..." ++ Py.nl) p in
    let '(scraped, p) := scrape_loop problems [] 0 p in
    let p := print (Py.nl ++ rule) p in
    let p := print ("✅ Successfully scraped " ++ Py.str_of_nat (length scraped)
                    ++ " problems with full details") p in
    let p := print (rule ++ Py.nl) p in
    (scraped, p).

End Scrape.

End ScrapeCodeforcesFullRun.

(** ** seed_problems.py: configuration, statistics and parser *)

Module SeedProblemsConfig.

Import QArith_base.
Local Open Scope Z_scope.

(** A Python [float]: a finite value, which is a rational, an infinity,
    or not a number. *)
Inductive float :=
| Finite (q : Q)
| Infinity
| NegInfinity
| NaN.

(** [a < b] on floats: false whenever one side is not a number. *)
Definition float_lt (a b : float) : bool :=
  match a, b with
  | NaN, _ | _, NaN => false
  | Finite x, Finite y => negb (Qle_bool y x)
  | NegInfinity, (Finite _ | Infinity) => true
  | Finite _, Infinity => true
  | _, _ => false
  end.

Record t := {
  mongo_uri : string;
  problem_start : Z;
  problem_end : Z;
  delay_seconds : float;
  max_retries : Z;
  dry_run : bool;
  verbose : bool;
  max_problems_per_run : Z;
  log_file : string;
  user_agent : string
}.

(** [Config.__init__] *)
Definition init : t :=
  {| mongo_uri := "";
     problem_start := 1;
     problem_end := 100;
     delay_seconds := Finite (Qmake 2 1);
     max_retries := 3;
     dry_run := false;
     verbose := false;
     max_problems_per_run := 100;
     log_file := "scraper.log";
     user_agent := "Mozilla/5.0 (Educational Scraper for Coding Platform)" |}.

(** [Config.validate] *)
Definition validate (self : t) : bool * list string :=
  let errors : list string := [] in
  let errors :=
    if negb (Py.truthy (mongo_uri self))
    then Py.append errors "MONGO_URI is required"%string else errors in
  let errors :=
    if problem_start self <? 1
    then Py.append errors "PROBLEM_START must be >= 1"%string else errors in
  let errors :=
    if problem_end self <? problem_start self
    then Py.append errors "PROBLEM_END must be >= PROBLEM_START"%string else errors in
  let errors :=
    if float_lt (delay_seconds self) (Finite (Qmake 1 1))
    then Py.append errors
           "DELAY_SECONDS must be >= 1.0 (respect Codeforces servers)"%string
    else errors in
  let errors :=
    if max_retries self <? 1
    then Py.append errors "MAX_RETRIES must be >= 1"%string else errors in
  let errors :=
    if max_problems_per_run self <? 1
    then Py.append errors "MAX_PROBLEMS_PER_RUN must be >= 1"%string else errors in
  (Nat.eqb (length errors) 0, errors).

End SeedProblemsConfig.

Module SeedProblemsParser.

Import Builtins.

(** *** MarkdownConverter.convert: the clean-up *)

(** The first pass: every line loses its trailing white space. *)
Definition rstrip_lines (markdown : string) : string :=
  Py.join Py.nl (map Py.rstrip (Py.split Py.newline markdown)).

(** The second pass: [line for line in ... if line.strip() or line == ''] *)
Definition drop_blank_lines (markdown : string) : string :=
  Py.join Py.nl
    (List.filter (fun line => Py.truthy (Py.strip line) || String.eqb line "")
       (Py.split Py.newline markdown)).

(** The end of [MarkdownConverter.convert], from the Markdown of the
    tree on. *)
Definition clean_up (markdown : string) : string :=
  let markdown := rstrip_lines markdown in
  let markdown := drop_blank_lines markdown in
  Py.strip markdown.

(** *** ProblemParser *)

(** [s] with [prefix] taken off its start, when it starts with it. *)
Fixpoint strip_prefix (prefix s : string) : option string :=
  match prefix, s with
  | EmptyString, _ => Some s
  | String c p', String c' s' => if Ascii.eqb c c' then strip_prefix p' s' else None
  | String _ _, EmptyString => None
  end.

(** [s.split(sep, 1)[1]] when [sep in s]: the text after the first
    occurrence of a separator that is not empty. *)
Fixpoint after_first (sep s : string) : option string :=
  match strip_prefix sep s with
  | Some rest => Some rest
  | None =>
      match s with
      | EmptyString => None
      | String _ s' => after_first sep s'
      end
  end.

(** [ProblemParser._extract_title]; the first argument is the text of
    the first [div] of class [title], when the page has one. *)
Definition _extract_title (title_div : option string) (contest_id : Z)
    (problem_index : string) : string :=
  match title_div with
  | Some text =>
      let title_text := Py.strip text in
      match after_first ". " title_text with
      | Some rest => rest
      | None => title_text
      end
  | None => "Problem " ++ SeedProblems.str_of_Z contest_id ++ problem_index
  end.

(** [ProblemParser._extract_tags]; the argument holds the texts of the
    [span] elements of class [tag-box]. *)
Definition _extract_tags (tag_elements : list string) : list string :=
  fold_left
    (fun tags tag_elem =>
       let tag_text := Py.strip tag_elem in
       if Py.truthy tag_text then Py.append tags tag_text else tags)
    tag_elements [].

(** The number a text of decimal digits spells. *)
Definition digit_value (c : ascii) : Z := Z.of_nat (nat_of_ascii c - 48).

Definition int_of_digits (s : string) : Z :=
  (fix go (acc : Z) (s : string) : Z :=
     match s with
     | EmptyString => acc
     | String c s' => go (10 * acc + digit_value c)%Z s'
     end) 0%Z s.

(** [sys.get_int_max_str_digits()], as Python sets it: the longest text
    of decimal digits that [int] converts. *)
Definition int_max_str_digits : nat := 4300.

(** [int(s)] for a text of decimal digits: the number, or [None] for the
    [ValueError] a text of more digits than the limit raises (leading
    zeros count). *)
Definition int_ (s : string) : option Z :=
  if (int_max_str_digits <? String.length s)%nat then None
  else Some (int_of_digits s).

(** [match.group()]: the text a match covers. *)
Definition group_0 (mo : Re.match_obj) : string :=
  Re.take (String.length (Re.from_start mo) - String.length (Re.after mo))
    (Re.from_start mo).

(** [ProblemParser._extract_difficulty_rating]; the argument is the text
    of the [span] of class [ProblemRating], when the page has one.  The
    pattern is [\d+].  The bare [except] swallows the [ValueError] of
    [int], and the function then returns [None]. *)
Definition _extract_difficulty_rating (rating_span : option string) : option Z :=
  match rating_span with
  | Some text =>
      let rating_text := Py.strip text in
      match Re.search (Re.Plus Re.Digit) rating_text with
      | Some mo =>
          match int_ (group_0 mo) with
          | Some rating => Some rating
          | None => None
          end
      | None => None
      end
  | None => None
  end.

End SeedProblemsParser.

(** ** scrape_leetcode.py *)

Module ScrapeLeetcode.

Import Builtins.

Section Fetcher.

(** The acceptance rate is a float: its type, [round(x, 2)] and the
    text an f-string gives it are left to the surroundings. *)
Variable number : Type.
Variable round2 : number -> number.
Variable show : number -> string.

(** A question of [problemsetQuestionList], with the members the query
    asks for and [fetch_problems] reads. *)
Record question := {
  acRate : number;
  difficulty : string;
  frontendQuestionId : string;
  paidOnly : bool;
  title : string;
  titleSlug : string;
  topicTags : list string;          (* the [name] of each tag *)
  hasSolution : option bool;
  hasVideoSolution : option bool
}.

(** The dict [fetch_problems] builds. *)
Record problem := {
  id : string;
  p_title : string;
  slug : string;
  p_difficulty : string;
  tags : list string;
  acceptanceRate : number;
  isPremium : bool;
  p_hasSolution : bool;
  p_hasVideoSolution : bool;
  url : string
}.

Definition base_url : string := "https://leetcode.com".

Definition problem_of (p : question) : problem :=
  {| id := frontendQuestionId p;
     p_title := title p;
     slug := titleSlug p;
     p_difficulty := difficulty p;
     tags := topicTags p;
     acceptanceRate := round2 (acRate p);
     isPremium := paidOnly p;
     p_hasSolution := default false (hasSolution p);
     p_hasVideoSolution := default false (hasVideoSolution p);
     url := base_url ++ "/problems/" ++ titleSlug p ++ "/" |}.

Definition rule : string := Py.repeat_char 80 "=".

Variable limit : Z.
Variable skip_premium : bool.

(** The loop [for p in problems] of [fetch_problems]. *)
Fixpoint fetch_loop (problems : list question) (result : list problem)
    (count : Z) (out : list string) : list problem * list string :=
  match problems with
  | [] => (result, out)
  | p :: rest =>
      if (limit <=? count)%Z then (result, out)
      else if skip_premium && paidOnly p then fetch_loop rest result count out
      else
        let problem := problem_of p in
        let result := Py.append result problem in
        let count := (count + 1)%Z in
        let premium_badge := if isPremium problem then "🔒" else "  " in
        let out := Py.append out
          ("[" ++ SeedProblems.str_of_Z count ++ "/" ++ SeedProblems.str_of_Z limit
           ++ "] " ++ premium_badge ++ " " ++ id problem ++ ". " ++ p_title problem) in
        let out := Py.append out
          ("         Difficulty: " ++ p_difficulty problem ++ " | Acceptance: "
           ++ show (acceptanceRate problem) ++ "%") in
        fetch_loop rest result count out
  end.

(** What [fetch_problem_list] returns for a limit and a difficulty: the
    questions and their total number (two empty values after a
    failure), and what it prints. *)
Variable fetch_problem_list : Z -> option string -> list question * Z * list string.

(** [LeetCodeFetcher.fetch_problems] *)
Definition fetch_problems (difficulty : option string) : list problem * list string :=
  let out : list string := [] in
  let out := Py.append out (Py.nl ++ rule) in
  let out := Py.append out
    ("🚀 Starting LeetCode Problem Fetcher (Limit: " ++ SeedProblems.str_of_Z limit
     ++ " problems)") in
  let out :=
    if truthy_str difficulty
    then Py.append out ("   Difficulty filter: " ++ default "" difficulty) else out in
  let out :=
    if skip_premium then Py.append out "   Skipping premium problems" else out in
  let out := Py.append out (rule ++ Py.nl) in
  let out := Py.append out "📡 Fetching problem list from LeetCode GraphQL API..." in
  let fetch_limit := if skip_premium then (limit * 3)%Z else limit in
  let '(problems, total, printed) := fetch_problem_list fetch_limit difficulty in
  let out := (out ++ printed)%list in
  if negb (truthy_list problems) then ([], Py.append out "❌ No problems fetched")
  else
    let out := Py.append out
      ("✅ Successfully fetched " ++ Py.str_of_nat (length problems)
       ++ " problems (Total available: " ++ SeedProblems.str_of_Z total ++ ")") in
    let out := Py.append out (Py.nl ++ "📚 Processing problems..." ++ Py.nl) in
    let '(result, out) := fetch_loop problems [] 0 out in
    let out := Py.append out (Py.nl ++ rule) in
    let out := Py.append out
      ("✅ Fetching complete! Successfully fetched " ++ Py.str_of_nat (length result)
       ++ " problems") in
    let out := Py.append out (rule ++ Py.nl) in
    (result, out).

(** The dict [display_summary] counts the difficulties in:
    [difficulties[diff] = difficulties.get(diff, 0) + 1] for every
    problem. *)
Definition difficulties (problems : list problem) : gmap string Z :=
  fold_left
    (fun difficulties p =>
       let diff := p_difficulty p in
       <[diff := (default 0 (difficulties !! diff) + 1)%Z]> difficulties)
    problems ∅.

End Fetcher.

End ScrapeLeetcode.

(** ** scrape_leetcode_complete.py: the scraping loop *)

Module ScrapeLeetcodeCompleteRun.

Import Builtins.

(** An entry of the problem list, with the members the loop reads. *)
Record problem_meta := {
  title : string;
  titleSlug : string;
  paidOnly : option bool
}.

(** The dict [scrape_problem] builds; [id] and [difficulty] are [None]
    when the details leave them out. *)
Record problem := {
  url : string;
  id : option string;
  p_title : string;
  p_titleSlug : string;
  difficulty : option string;
  tags : list string;
  description : string;
  examples : list ScrapeLeetcodeComplete.example;
  constraints : list string;
  hints : list string;
  likes : Z;
  dislikes : Z
}.

Record progress := {
  trace : list SeedProblems.event;
  out : list string
}.

Definition print (line : string) (p : progress) : progress :=
  {| trace := trace p; out := Py.append (out p) line |}.

Definition happened (e : SeedProblems.event) (p : progress) : progress :=
  {| trace := Py.append (trace p) e; out := out p |}.

Definition rule : string := Py.repeat_char 80 "=".

Definition graphql_url : string := "https://leetcode.com/graphql".

(** [str(b)] for a boolean. *)
Definition str_of_bool (b : bool) : string := if b then "True" else "False".

Section Scrape.

Variable limit : Z.
Variable skip_premium : bool.

(** What [scrape_problem] returns for a slug, after its one request: the
    problem, or [None]; and what it prints when the request fails. *)
Variable scrape_problem : string -> option problem * list string.

(** The loop [for problem_meta in problem_list] of [scrape_problems]. *)
Fixpoint scrape_loop (problem_list : list problem_meta) (scraped : list problem)
    (count : Z) (p : progress) : list problem * progress :=
  match problem_list with
  | [] => (scraped, p)
  | problem_meta :: rest =>
      if (limit <=? count)%Z then (scraped, p)
      else if skip_premium && default false (paidOnly problem_meta)
      then scrape_loop rest scraped count p
      else
        let title_slug := titleSlug problem_meta in
        let p := print ("[" ++ SeedProblems.str_of_Z (count + 1) ++ "/"
                        ++ SeedProblems.str_of_Z limit ++ "] Scraping: "
                        ++ title problem_meta) p in
        let p := happened (SeedProblems.EvGet graphql_url) p in
        let '(problem, printed) := scrape_problem title_slug in
        let p := {| trace := trace p; out := (out p ++ printed)%list |} in
        let '(scraped, count, p) :=
          match problem with
          | Some problem =>
              let p := print ("         ✓ Description: "
                              ++ Py.str_of_nat (String.length (description problem))
                              ++ " chars") p in
              let p := print ("         ✓ Examples: "
                              ++ Py.str_of_nat (length (examples problem))) p in
              let p := print ("         ✓ Constraints: "
                              ++ Py.str_of_nat (length (constraints problem))) p in
              let p := print ("         ✓ Tags: "
                              ++ Py.join ", " (take 3 (tags problem))) p in
              (Py.append scraped problem, (count + 1)%Z, p)
          | None => (scraped, count, p)
          end in
        scrape_loop rest scraped count (happened (SeedProblems.EvSleep 1) p)
  end.

(** What [get_problem_list] returns for a limit, and what it prints. *)
Variable get_problem_list : Z -> list problem_meta * list string.

(** [LeetCodeCompleteScraper.scrape_problems] *)
Definition scrape_problems : list problem * progress :=
  let p := {| trace := []; out := [] |} in
  let p := print (Py.nl ++ rule) p in
  let p := print "🚀 LeetCode Complete Scraper" p in
  let p := print ("   Target: " ++ SeedProblems.str_of_Z limit ++ " problems") p in
  let p := print ("   Skip Premium: " ++ str_of_bool skip_premium) p in
  let p := print (rule ++ Py.nl) p in
  let p := print "📡 Fetching problem list..." p in
  let p := happened (SeedProblems.EvGet graphql_url) p in
  let '(problem_list, printed) := get_problem_list (limit * 3)%Z in
  let p := {| trace := trace p; out := (out p ++ printed)%list |} in
  if negb (truthy_list problem_list) then ([], print "❌ Failed to fetch problem list" p)
  else
    let p := print ("✅ Found " ++ Py.str_of_nat (length problem_list) ++ " problems"
                    ++ Py.nl) p in
    let p := print ("📚 Scraping detailed information..." ++ Py.nl) p in
    let '(scraped, p) := scrape_loop problem_list [] 0 p in
    let p := print (Py.nl ++ rule) p in
    let p := print ("✅ Successfully scraped " ++ Py.str_of_nat (length scraped)
                    ++ " complete problems") p in
    let p := print (rule ++ Py.nl) p in
    (scraped, p).

End Scrape.

End ScrapeLeetcodeCompleteRun.

(** ** The rule tables the properties are stated against *)

Module CategorySpec.

(** A rule: its keywords and the category it assigns. *)
Definition rule : Type := list string * string.

(** [first_match tag_lower rules c]: [c] is the category of the first
    rule of [rules] one of whose keywords is a member of [tag_lower], or
    [Algorithm] when no rule has one. *)
Inductive first_match (tag_lower : list string) : list rule -> string -> Prop :=
| fm_default : first_match tag_lower [] "Algorithm"
| fm_hit ks cat rs k :
    k ∈ ks -> k ∈ tag_lower -> first_match tag_lower ((ks, cat) :: rs) cat
| fm_skip ks cat rs c :
    (forall k, k ∈ ks -> k ∉ tag_lower) ->
    first_match tag_lower rs c ->
    first_match tag_lower ((ks, cat) :: rs) c.

(** The rule list as the specification words it. *)
Definition claimed_rules : list rule :=
  [ (["dynamic programming"; "dp"], "Dynamic Programming");
    (["graph"; "tree"; "dfs"; "bfs"], "Graph Theory");
    (["array"; "hash table"; "stack"; "queue"; "data structures"; "dsu";
      "segment tree"], "Data Structure");
    (["math"; "geometry"; "number theory"; "combinatorics"], "Mathematics");
    (["string"; "strings"], "String Processing") ].

(** The rule list of [seed_leetcode.py]. *)
Definition leetcode_rules : list rule :=
  [ (["dynamic programming"; "dp"], "Dynamic Programming");
    (["graph"; "tree"; "dfs"; "bfs"], "Graph Theory");
    (["array"; "hash table"; "stack"; "queue"], "Data Structure");
    (["math"; "geometry"], "Mathematics");
    (["string"], "String Processing") ].

(** The rule list of [seed_problems_api.py]. *)
Definition codeforces_rules : list rule :=
  [ (["dp"; "dynamic programming"], "Dynamic Programming");
    (["graph"; "trees"; "dfs"; "bfs"], "Graph Theory");
    (["data structures"; "dsu"; "segment tree"], "Data Structure");
    (["math"; "number theory"; "combinatorics"], "Mathematics");
    (["strings"; "string"], "String Processing") ].

(** The same search as a function, to evaluate it. *)
Fixpoint infer (rules : list rule) (tag_lower : list string) : string :=
  match rules with
  | [] => "Algorithm"
  | (ks, cat) :: rs => if Py.any_in ks tag_lower then cat else infer rs tag_lower
  end.

End CategorySpec.

Module ValidatorSpec.

(** The rules of the validator, as the specification lists them. *)
Inductive rule :=
| Required (field : string)
| DifficultyAllowed
| DescriptionMinLength
| TitleMaxLength.

(** When a record violates a rule.  A rule on a field's value speaks of
    the value that is there; absence is the business of [Required]. *)
Definition violated (pd : gmap string string) (r : rule) : Prop :=
  match r with
  | Required field =>
      match pd !! field with Some v => v = "" | None => True end
  | DifficultyAllowed =>
      match pd !! "difficulty" with
      | Some d => d ∉ ["easy"; "medium"; "hard"]
      | None => False
      end
  | DescriptionMinLength =>
      match pd !! "description" with
      | Some d => String.length d < 500
      | None => False
      end
  | TitleMaxLength =>
      match pd !! "title" with
      | Some t => 200 < String.length t
      | None => False
      end
  end.

#[global] Instance violated_dec pd r : Decision (violated pd r).
Proof. destruct r; simpl; destruct (pd !! _); apply _. Defined.

(** The four rule groups in the order the specification gives them. *)
Definition all_rules : list rule :=
  [ Required "title"; Required "description"; Required "difficulty";
    Required "externalId"; DifficultyAllowed; DescriptionMinLength;
    TitleMaxLength ].

(** The rules [seed_leetcode.py] checks: no bound on the title. *)
Definition leetcode_rules : list rule :=
  [ Required "title"; Required "description"; Required "difficulty";
    Required "externalId"; DifficultyAllowed; DescriptionMinLength ].

Definition field_of (pd : gmap string string) (k : string) : string :=
  default "" (pd !! k).

(** The message [seed_problems_api.py] gives for a violated rule. *)
Definition api_message (pd : gmap string string) (r : rule) : string :=
  match r with
  | Required field => "Missing required field: " ++ field
  | DifficultyAllowed => "Invalid difficulty: " ++ field_of pd "difficulty"
  | DescriptionMinLength =>
      "Description too short: "
      ++ Py.str_of_nat (String.length (field_of pd "description"))
      ++ " chars (minimum 500)"
  | TitleMaxLength =>
      "Title too long: " ++ Py.str_of_nat (String.length (field_of pd "title"))
      ++ " chars (maximum 200)"
  end.

(** The message [seed_leetcode.py] gives for a violated rule. *)
Definition leetcode_message (pd : gmap string string) (r : rule) : string :=
  match r with
  | Required field => "Missing: " ++ field
  | DifficultyAllowed => "Invalid difficulty: " ++ field_of pd "difficulty"
  | DescriptionMinLength =>
      "Description too short: "
      ++ Py.str_of_nat (String.length (field_of pd "description")) ++ " chars"
  | TitleMaxLength => ""
  end.

(** A record that is fine but for its title of 201 characters. *)
Definition long_title_record : gmap string string :=
  <["title" := Py.repeat_char 201 "T"]>
    (<["description" := Py.repeat_char 500 "d"]>
       (<["difficulty" := "easy"]> (<["externalId" := "leetcode_1"]> ∅))).

End ValidatorSpec.

Module BackfillSpec.

(** [k] copies of the filler sentence, one after the other. *)
Fixpoint fillers (k : nat) : string :=
  match k with
  | 0 => EmptyString
  | S k' => SeedLeetcode.filler ++ fillers k'
  end.

(** The text before any filler: generated header, the description,
    generated footer. *)
Definition wrapped (desc title difficulty : string) : string :=
  SeedLeetcode.header title difficulty ++ desc ++ SeedLeetcode.footer.

End BackfillSpec.

Module SamplePairingSpec.

(** The index-wise pairs of a container, each as a sample. *)
Definition paired (st : SeedProblems.sample_test) : list ScrapeCodeforcesFull.sample :=
  (fun '(inp, out) =>
     {| ScrapeCodeforcesFull.input := SeedProblems.block_text inp;
        ScrapeCodeforcesFull.output := SeedProblems.block_text out |})
    <$> zip (SeedProblems.inputs st) (SeedProblems.outputs st).

Definition has_pre (b : SeedProblems.block) : Prop := is_Some (SeedProblems.pre b).

(** One input block without a [pre], one output block with one. *)
Definition bare_input : SeedProblems.sample_test :=
  {| SeedProblems.inputs := [ {| SeedProblems.pre := None |} ];
     SeedProblems.outputs := [ {| SeedProblems.pre := Some "1" |} ] |}.

(** Two input blocks and one output block, each with a [pre]. *)
Definition two_inputs : SeedProblems.sample_test :=
  {| SeedProblems.inputs := [ {| SeedProblems.pre := Some " 1 2 " |};
                              {| SeedProblems.pre := Some "4" |} ];
     SeedProblems.outputs := [ {| SeedProblems.pre := Some "3" |} ] |}.

End SamplePairingSpec.

Module ExampleTestsSpec.

(** The [k]-th test case read off the lines: lines [2k] and [2k+1],
    trimmed. *)
Definition case_of (lines : list string) (k : nat) : SeedLeetcode.test_case :=
  {| SeedLeetcode.input := Py.strip (nth (2 * k) lines "");
     SeedLeetcode.output := Py.strip (nth (2 * k + 1) lines "");
     SeedLeetcode.explanation := "Example " ++ Py.str_of_nat (k + 1) |}.

End ExampleTestsSpec.

Module GatewaySpec.

Import PyMongo.

(** The id a record is stored under: its own [_id] when it has one, else
    the one the driver generates. *)
Definition stored_id (e : env) (pd : document) : ObjectId :=
  default (generated_id e) (_id pd).

(** What the specification asks of [insert]: the record leaves the call
    stamped; the collection is the old one, or the old one followed by
    the stamped record (one insert, nothing stored is touched); a stored
    record with the same [externalId] makes the call return [None] and
    store nothing; any other failure of the write makes it return [None],
    store nothing and log the failure as an error; and when the write
    does not fail and no stored record has the [externalId] or the id of
    the new one, the stamped record is stored at the end of the
    collection under its id, which is what the call returns when the
    record has a title. *)
Definition contract
    (insert_problem : client -> env -> document -> world
                      -> option string * document * world) : Prop :=
  forall (self : client) (e : env) (pd : document) (w : world),
    let '(r, pd', w') := insert_problem self e pd w in
    (createdBy pd' = Some (system_user_id self) /\
     createdAt pd' = Some (now_first e) /\
     updatedAt pd' = Some (now_second e) /\
     data pd' !! "externalId" = data pd !! "externalId") /\
    (problems w' = problems w \/ problems w' = (problems w ++ [pd'])%list) /\
    (failure e = None ->
     (exists d, d ∈ problems w /\ data d !! "externalId" = data pd !! "externalId") ->
     r = None /\ problems w' = problems w) /\
    (forall err, failure e = Some err ->
     r = None /\ problems w' = problems w /\
     exists msg, log w' = Py.append (log w) (ERROR, msg ++ ": " ++ err)) /\
    (failure e = None ->
     (forall d, d ∈ problems w ->
        data d !! "externalId" <> data pd !! "externalId" /\
        _id d <> Some (stored_id e pd)) ->
     problems w' = (problems w ++ [pd'])%list /\
     _id pd' = Some (stored_id e pd) /\
     (is_Some (data pd !! "title") -> r = Some (stored_id e pd))).

(** A client, a record, and surroundings to try the contract on: a
    write that times out, a write that goes through, and a collection
    that already holds the record's [externalId]. *)
Definition gateway : client :=
  {| system_user_id := "5f0000000000000000000001"; verbose := false |}.

Definition two_sum : document :=
  {| data := <["externalId" := "leetcode_1"]> (<["title" := "Two Sum"]> ∅);
     _id := None; createdBy := None; createdAt := None; updatedAt := None |}.

Definition timing_out : env :=
  {| now_first := 10; now_second := 11;
     generated_id := "5f00000000000000000000aa"; failure := Some "timed out" |}.

Definition quiet : env :=
  {| now_first := 20; now_second := 21;
     generated_id := "5f00000000000000000000bb"; failure := None |}.

Definition empty_world : world := {| problems := []; log := [] |}.

Definition stored_world : world :=
  {| problems := [ {| data := <["externalId" := "leetcode_1"]> ∅;
                      _id := Some "5f00000000000000000000cc";
                      createdBy := None; createdAt := None; updatedAt := None |} ];
     log := [] |}.

End GatewaySpec.

Module FetcherSpec.

Import SeedProblems.

(** From [s] to [s']: the clock did not go back, the remembered request
    time is the same, and at most [k] requests were sent, none before the
    time of [s]. *)
Definition advances (k : nat) (s s' : state) : Prop :=
  (now s <= now s')%Z /\
  last_request_time s' = last_request_time s /\
  exists sent,
    issued s' = (issued s ++ sent)%list /\
    Forall (fun t => (now s <= t)%Z) sent /\
    length sent <= k.

(** The limit of [time.sleep] in the examples, whose clock counts
    milliseconds: [2 ** 63 - 1] nanoseconds. *)
Definition sleep_limit : Z := 9223372036854.

(** A server that answers every request with 200 after 3000 units of
    time, and sleeps that never oversleep. *)
Definition slow_server (k : nat) : reply * N := (Response 200 "ok", 3000%N).
Definition punctual (k : nat) : N := 0%N.

(** A server that answers every request with 429 at once. *)
Definition busy_server (k : nat) : reply * N := (Response 429 "", 0%N).

(** A server that answers 429 once and 200 from then on. *)
Definition busy_once_server (k : nat) : reply * N :=
  match k with
  | 0 => (Response 429 "", 0%N)
  | _ => (Response 200 "page", 0%N)
  end.

(** The client at time 5000, before its first request. *)
Definition fresh : state :=
  {| now := 5000; last_request_time := 0; trace := []; issued := [] |}.

(** The state the first fetch of problem 1A leaves, with a delay of
    1000 and the slow server. *)
Definition after_first_fetch : state :=
  snd (fetch_problem (Finite 1000) 3 sleep_limit slow_server punctual 1 "A" fresh).

(** The state the second fetch leaves, called as soon as the first one
    has returned. *)
Definition after_second_fetch : state :=
  snd (fetch_problem (Finite 1000) 3 sleep_limit slow_server punctual 1 "A"
         after_first_fetch).

(** The backoff of a turn for a delay that is the number [d]. *)
Definition backoff_of (d : Z) (attempt : nat) : Z := (2 ^ Z.of_nat attempt * d)%Z.

(** The trace of [n] turns that each get a retriable answer, from turn
    [attempt] on: a request, then the backoff of the turn. *)
Fixpoint backoff_trace (d : Z) (url : string) (n attempt : nat) : list event :=
  match n with
  | 0 => []
  | S n' =>
      EvGet url :: EvSleep (backoff_of d attempt) :: backoff_trace d url n' (S attempt)
  end.

(** [time.sleep] accepts the backoffs of the turns below [n], for a
    delay that is the number [d]: the delay is not negative, the turns are
    few enough for [2 ** attempt] to be a float, and no backoff is longer
    than the longest sleep. *)
Definition accepted (sleep_max d : Z) (n : nat) : Prop :=
  (0 <= d)%Z /\ (n <= float_max_exp)%nat /\
  forall attempt, (attempt < n)%nat -> (backoff_of d attempt <= sleep_max)%Z.

(** From [s] to [s'] the trace only grew. *)
Definition grows (s s' : state) : Prop :=
  exists events, trace s' = (trace s ++ events)%list.

(** The call got past the rate limiter: it remembers a time that is not
    before the call, at least the delay after the time remembered before
    when the delay is a number, and the time of the call itself when that
    long has passed already; it sent its requests, at most [max_retries],
    at or after the time it remembers, the first of them at that very
    time; and when the delay had passed already, the first thing the call
    did was that request, not a sleep. *)
Definition let_through (delay_seconds : float) (max_retries : Z) (url : string)
    (s s' : state) : Prop :=
  (now s <= last_request_time s')%Z /\
  (forall d, delay_seconds = Finite d ->
             (last_request_time s + d <= last_request_time s')%Z) /\
  (less (now s - last_request_time s) delay_seconds = false ->
   last_request_time s' = now s /\
   ((0 < max_retries)%Z ->
    exists events, trace s' = (trace s ++ EvGet url :: events)%list)) /\
  exists sent,
    issued s' = (issued s ++ sent)%list /\
    Forall (fun t => (last_request_time s' <= t)%Z) sent /\
    length sent <= Z.to_nat max_retries /\
    ((0 < max_retries)%Z -> exists rest, sent = last_request_time s' :: rest).

(** The rate limiter's sleep was refused: the delay is infinite, or the
    wait it asks for is longer than the longest sleep. *)
Definition refused (delay_seconds : float) (sleep_max : Z) (s : state) : Prop :=
  delay_seconds = Infinity \/
  exists d, delay_seconds = Finite d /\
            (sleep_max < last_request_time s + d - now s)%Z.

(** The replies the loop answers with a backoff and another turn. *)
Definition retriable (r : reply) : Prop :=
  match r with
  | Response status _ => status = 429%Z \/ (500 <= status)%Z
  | RaisesTimeout | RaisesConnectionError => True
  | RaisesRequestException => False
  end.

(** What the loop remembers as the last exception after such a reply: a
    status code leaves no exception behind. *)
Definition remembered (last : option request_exception) (r : reply)
  : option request_exception :=
  match r with
  | RaisesTimeout => Some ExcTimeout
  | RaisesConnectionError => Some ExcConnectionError
  | _ => last
  end.

(** The remembered exception after the replies to requests [k], ...,
    [k + n - 1]. *)
Fixpoint last_cause (server : nat -> reply * N) (k n : nat)
    (last : option request_exception) : option request_exception :=
  match n with
  | 0 => last
  | S n' => last_cause server (S k) n' (remembered last (fst (server k)))
  end.

End FetcherSpec.

Module SegmentSpec.

Import Re ScrapeLeetcodeComplete.


Fixpoint group_free (r : regex) : bool :=
  match r with
  | Group _ => false
  | Seq r1 r2 | Alt r1 r2 => group_free r1 && group_free r2
  | Opt r1 | Plus r1 | LazyStar r1 | Ahead r1 => group_free r1
  | _ => true
  end.


(** Whether a pattern matches at the start of a text. *)
Definition matches_at (r : regex) (s : string) : bool :=
  match m 0 r {| rest := s; group1 := None |} Some with
  | Some _ => true
  | None => false
  end.


(** The loop of a greedy plus, by name. *)
Definition plus_more (n : nat) (r1 : regex) (k : mstate -> option mstate)
  : nat -> mstate -> option mstate :=
  fix more (fuel : nat) (st : mstate) {struct fuel} : option mstate :=
    m n r1 st (fun st' =>
      match fuel with
      | 0 => k st'
      | S fuel' =>
          if progressed st st' then
            match more fuel' st' with
            | Some x => Some x
            | None => k st'
            end
          else k st'
      end).

(** An anchor [r] reads exactly the text [a]: at a text that starts with
    [a], what follows the anchor is tried after [a], and nowhere else. *)
Definition reads (r : regex) (a : string) : Prop :=
  forall n tail g k,
    m n r {| rest := a ++ tail; group1 := g |} k = k {| rest := tail; group1 := g |}.


(** Two texts that differ in case only. *)
Definition same_text (a b : string) : Prop := Py.lower a = Py.lower b.

(** All characters are digits. *)
Fixpoint all_digits (s : string) : bool :=
  match s with
  | EmptyString => true
  | String c s' => is_digit c && all_digits s'
  end.

(** Whether a text starts with a digit. *)
Definition starts_with_digit (s : string) : bool :=
  match s with
  | String c _ => is_digit c
  | EmptyString => false
  end.


(** [first_field A T text a body rest']: the first place of [text] where
    the anchor [A] matches reads [a] there; [body] follows, up to the
    first place where the stop [T] matches, and [rest'] is the text from
    there on. *)
Definition first_field (A T : regex) (text a body rest' : string) : Prop :=
  exists pre,
    text = pre ++ a ++ body ++ rest' /\
    reads A a /\
    (forall x y, pre = x ++ y -> y <> "" ->
       matches_at A (y ++ a ++ body ++ rest') = false) /\
    matches_at T rest' = true /\
    (forall x y, body = x ++ y -> y <> "" -> matches_at T (y ++ rest') = false).



(** The stops of the five field patterns. *)
Definition example_stop : regex := Ahead (alt [example_anchor; lit "Constraints:"; Eol]).

(** The non-empty suffixes of a text, longest first. *)
Fixpoint suffixes (s : string) : list string :=
  match s with
  | EmptyString => []
  | String _ s' => s :: suffixes s'
  end.

(** A pattern matches at no place of [pre], in the text [pre ++ tail]. *)
Definition nowhere_in (r : regex) (pre tail : string) : bool :=
  forallb (fun y => negb (matches_at r (y ++ tail))) (suffixes pre).








(** The text [ContentParser] extracts from the content of scenario C. *)
Definition scenario_c_text : string :=
  "Find XExample 1:" ++ Py.nl ++ "Input: [1,2]" ++ Py.nl ++ "Output: 3"
  ++ Py.nl ++ "Constraints:" ++ Py.nl ++ "- 1<=n<=100".

End SegmentSpec.

(** ** Predicates on texts *)

Module TextSpec.

(** The character [c] occurs nowhere in [s]. *)
Fixpoint no_char (c : ascii) (s : string) : Prop :=
  match s with
  | EmptyString => True
  | String x s' => x <> c /\ no_char c s'
  end.

(** Only white space, if anything. *)
Fixpoint blank (s : string) : bool :=
  match s with
  | EmptyString => true
  | String x s' => Py.is_space x && blank s'
  end.

(** A text that [strip] leaves as it is. *)
Definition trimmed (s : string) : Prop := Py.strip s = s.

End TextSpec.

(** ** What the pipelines are measured against *)

Module ApiPipelineSpec.

Import PyMongo SeedProblemsApiPipeline.

(** The three counters of the outcomes, together. *)
Definition outcomes (s : stats) : Z := (success s + failed s + skipped s)%Z.

(** The external ids of a collection, document by document. *)
Definition external_ids (coll : list document) : list (option string) :=
  map (fun d => data d !! "externalId") coll.

(** A document the seeder may store: it passes the validator and is
    signed by the system user. *)
Definition seeded_by (db_client : client) (d : document) : Prop :=
  SeedProblemsApi.validate (data d) = (true, []) /\
  createdBy d = Some (system_user_id db_client).

(** From [r] to [r']: the collection grew at its end by as many
    documents as [success] was raised, each of them one the seeder may
    store, and external ids that were pairwise distinct still are. *)
Definition stores (db_client : client) (r r' : run) : Prop :=
  exists added,
    problems (world_of r') = (problems (world_of r) ++ added)%list /\
    Z.of_nat (length added) = (success (stats_of r') - success (stats_of r))%Z /\
    Forall (seeded_by db_client) added /\
    (NoDup (external_ids (problems (world_of r))) ->
     NoDup (external_ids (problems (world_of r')))).

(** The rules of the two [Config.validate] of the API seeders. *)
Definition api_configured (c : Config.t) : Prop :=
  Config.mongo_uri c <> "" /\ (1 <= Config.problem_limit c)%Z /\
  (0 <= Config.min_rating c)%Z /\ (Config.min_rating c <= Config.max_rating c)%Z.

(** A status [update_stats] has a counter for. *)
Definition known_status (status : string) : bool :=
  String.eqb status "success" || String.eqb status "failed"
  || String.eqb status "skipped".

(** The entries of the statistics list filed under a key, in the order
    of the list. *)
Definition filed_under (key : string) (l : list Api.problem_statistics)
  : list Api.problem_statistics :=
  List.filter
    (fun p => String.eqb (problem_key (Api.stat_contestId p) (Api.stat_index p)) key) l.

(** Problem 4A of Codeforces, as the API lists it. *)
Definition watermelon : Api.problem :=
  {| Api.contestId := Some 4%Z; Api.index := Some "A"; Api.name := Some "Watermelon";
     Api.type := Some "PROGRAMMING"; Api.tags := Some ["brute force"; "math"];
     Api.rating := Some 800%Z |}.

(** An entry that is not a programming problem, and one without a
    rating. *)
Definition quiz : Api.problem :=
  {| Api.contestId := Some 5%Z; Api.index := Some "B"; Api.name := Some "Quiz";
     Api.type := Some "QUESTION"; Api.tags := None; Api.rating := Some 900%Z |}.

Definition unrated : Api.problem :=
  {| Api.contestId := Some 6%Z; Api.index := Some "C"; Api.name := Some "Unrated";
     Api.type := None; Api.tags := None; Api.rating := None |}.

(** A live configuration, a client, and surroundings in which nothing
    fails. *)
Definition live : Config.t :=
  {| Config.mongo_uri := "mongodb://localhost:27017/coding-platform";
     Config.problem_limit := 100; Config.min_rating := 800; Config.max_rating := 2000;
     Config.dry_run := false; Config.verbose := false;
     Config.log_file := "scraper_api.log" |}.

Definition seeder : client :=
  {| system_user_id := "5f0000000000000000000001"; verbose := false |}.

Definition calm (i : nat) : turn :=
  {| find_failure := None;
     insert_env := {| now_first := 10; now_second := 11;
                      generated_id := "5f00000000000000000000" ++ Py.str_of_nat (10 + i);
                      failure := None |} |}.

Definition no_percent (i n : nat) : string := "0".

Definition fresh_run : run :=
  {| world_of := {| problems := []; log := [] |}; stats_of := no_stats |}.

End ApiPipelineSpec.

Module LeetcodePipelineSpec.

Import PyMongo SeedLeetcodePipeline.

Definition outcomes (s : stats) : Z := (success s + failed s + skipped s)%Z.

Definition external_ids (coll : list document) : list (option string) :=
  map (fun d => data d !! "externalId") coll.

Definition seeded_by (db_client : client) (d : document) : Prop :=
  SeedLeetcode.validate (data d) = (true, []) /\
  createdBy d = Some (system_user_id db_client).

Definition stores (db_client : client) (r r' : run) : Prop :=
  exists added,
    problems (world_of r') = (problems (world_of r) ++ added)%list /\
    Z.of_nat (length added) = (success (stats_of r') - success (stats_of r))%Z /\
    Forall (seeded_by db_client) added /\
    (NoDup (external_ids (problems (world_of r))) ->
     NoDup (external_ids (problems (world_of r')))).

Definition levels : list string := ["easy"; "medium"; "hard"].

(** The rules of [Config.validate]. *)
Definition leetcode_configured (c : Config.t) : Prop :=
  Config.mongo_uri c <> "" /\ (1 <= Config.problem_limit c)%Z /\
  match Config.difficulty c with
  | None => True
  | Some d => d = "" \/ d = "Easy" \/ d = "Medium" \/ d = "Hard"
  end.

(** The question Two Sum, as [questionData] answers, and its entry in
    the problem list. *)
Definition two_sum : Api.question :=
  {| Api.title := Value "Two Sum";
     Api.titleSlug := Value "two-sum";
     Api.difficulty := Value "Easy";
     Api.content := Value "<p>Given an array of integers, return indices.</p>";
     Api.questionFrontendId := Value "1";
     Api.topicTags := Value [ {| Api.tag_name := Value "Array"; Api.slug := Value "array" |};
                              {| Api.tag_name := Value "Hash Table";
                                 Api.slug := Value "hash-table" |} ];
     Api.exampleTestcases := Value ("[2,7,11,15]" ++ Py.nl ++ "9") |}.

Definition two_sum_entry : Api.list_entry :=
  {| Api.entry_title := Value "Two Sum"; Api.entry_titleSlug := Value "two-sum";
     Api.isPaidOnly := Value false |}.

(** An entry whose details cannot be fetched, and one without a slug. *)
Definition lost_entry : Api.list_entry :=
  {| Api.entry_title := Value "Lost"; Api.entry_titleSlug := Value "lost";
     Api.isPaidOnly := Value false |}.

Definition broken_entry : Api.list_entry :=
  {| Api.entry_title := Value "Broken"; Api.entry_titleSlug := Missing;
     Api.isPaidOnly := Value false |}.

(** A reading of the markup that keeps the text between the tags of the
    one-paragraph content above. *)
Definition plain_text (html : string) : string :=
  "Given an array of integers, return indices.".

Definition live : Config.t :=
  {| Config.mongo_uri := "mongodb://localhost:27017/coding-platform";
     Config.problem_limit := 50; Config.difficulty := None;
     Config.dry_run := false; Config.verbose := false;
     Config.log_file := "leetcode_scraper.log" |}.

Definition dry : Config.t :=
  {| Config.mongo_uri := "mongodb://localhost:27017/coding-platform";
     Config.problem_limit := 50; Config.difficulty := None;
     Config.dry_run := true; Config.verbose := false;
     Config.log_file := "leetcode_scraper.log" |}.

Definition seeder : client :=
  {| system_user_id := "5f0000000000000000000002"; verbose := false |}.

(** Surroundings in which the first problem's details arrive, the
    second problem's request times out, and nothing else fails. *)
Definition calm (i : nat) : turn :=
  {| detail := match i with
               | 1 => DetailData (Some two_sum)
               | _ => DetailRaises "timed out"
               end;
     find_failure := None;
     insert_env := {| now_first := 10; now_second := 11;
                      generated_id := "5f00000000000000000000" ++ Py.str_of_nat (10 + i);
                      failure := None |} |}.

Definition no_percent (i n : nat) : string := "0".

Definition fresh_run : run :=
  {| world_of := {| problems := []; log := [] |}; stats_of := no_stats |}.

End LeetcodePipelineSpec.

Module RetrySpec.

Import SeedProblems.

(** What leaves [_retry_request] when [time.sleep] accepts every
    backoff: a response below 400 that the server gave, the failure that
    names the page, or the failure after the last attempt. *)
Definition expected (max_retries : Z) (server : nat -> reply * N) (url : string)
    (r : result (Z * string)) : Prop :=
  match r with
  | Ok (status, text) =>
      (status < 400)%Z /\ exists k took, server k = (Response status text, took)
  | Raise (ProblemNotFound u) => u = url
  | Raise (FailedAfter n _) => n = max_retries
  | Raise ValueError | Raise OverflowError => False
  end.

(** The same for [fetch_problem], which returns the text alone. *)
Definition fetched (max_retries : Z) (server : nat -> reply * N) (url : string)
    (r : result string) : Prop :=
  match r with
  | Ok text =>
      exists status k took,
        (status < 400)%Z /\ server k = (Response status text, took)
  | Raise (ProblemNotFound u) => u = url
  | Raise (FailedAfter n _) => n = max_retries
  | Raise ValueError | Raise OverflowError => False
  end.

(** The address of a problem page. *)
Definition problem_url (contest_id : Z) (problem_index : string) : string :=
  base_url ++ "/problemset/problem/" ++ str_of_Z contest_id ++ "/" ++ problem_index.

(** The time a trace spends asleep, and the requests it holds. *)
Fixpoint slept (t : list event) : Z :=
  match t with
  | [] => 0
  | EvSleep seconds :: t' => seconds + slept t'
  | EvGet _ :: t' => slept t'
  end.

Fixpoint requests (t : list event) : nat :=
  match t with
  | [] => 0
  | EvGet _ :: t' => S (requests t')
  | EvSleep _ :: t' => requests t'
  end.

(** A server that times out twice and then answers. *)
Definition flaky_server (k : nat) : reply * N :=
  match k with
  | 0 | 1 => (RaisesTimeout, 30000%N)
  | _ => (Response 200 "page", 100%N)
  end.

End RetrySpec.

Module ScrapeCodeforcesFullSpec.

Import Builtins ScrapeCodeforcesFullRun.

(** What one listed problem contributes when the loop comes to it: the
    scraped problem, unless it has no id or its page gave nothing. *)
Definition scraped_of (stats_map : gmap string problem_statistics)
    (scrape_problem_details : Z -> string -> details * list string)
    (p : problem) : option full_problem :=
  match contestId p, index p with
  | Some contest_id, Some index =>
      if negb (contest_id =? 0)%Z && Py.truthy index then
        let details := (scrape_problem_details contest_id index).1 in
        if truthy_details details then
          Some {| fp_contestId := contest_id;
                  fp_index := index;
                  fp_name := name p;
                  fp_rating := rating p;
                  fp_tags := default [] (tags p);
                  fp_solvedCount :=
                    default 0%Z
                      (stats_map !! (SeedProblems.str_of_Z contest_id ++ index)
                         ≫= solvedCount);
                  fp_url := problem_url contest_id index;
                  fp_details := details |}
        else None
      else None
  | _, _ => None
  end.

(** Four listed problems, and pages of which the second gives nothing. *)
Definition listed : list problem :=
  [ {| contestId := Some 4%Z; index := Some "A"; name := Some "Watermelon";
       rating := Some 800%Z; tags := Some ["math"] |};
    {| contestId := Some 5%Z; index := Some "B"; name := Some "Center Alignment";
       rating := Some 1200%Z; tags := None |};
    {| contestId := Some 6%Z; index := Some "C"; name := Some "Alice, Bob and Chocolate";
       rating := Some 1200%Z; tags := None |};
    {| contestId := Some 7%Z; index := Some "D"; name := Some "Palindrome";
       rating := Some 2200%Z; tags := None |} ].

Definition no_details : details :=
  {| title := None; timeLimit := None; memoryLimit := None; inputFormat := None;
     outputFormat := None; description := None; sampleTests := None; note := None |}.

Definition pages (contest_id : Z) (index : string) : details * list string :=
  if (contest_id =? 5)%Z then (no_details, ["  ⚠️  Error scraping https://codeforces.com/contest/5/problem/B: timed out"])
  else ({| title := Some (SeedProblems.str_of_Z contest_id ++ index);
           timeLimit := Some "1 second"; memoryLimit := None; inputFormat := None;
           outputFormat := None; description := None; sampleTests := Some [];
           note := None |}, []).

End ScrapeCodeforcesFullSpec.

Module ScrapeCodeforcesSpec.

Import Builtins ScrapeCodeforces.

(** What one problem of the list contributes when the loop comes to
    it: its record, unless a filter passes it over or it has no id. *)
Definition candidate (min_rating max_rating : option Z) (tags : option (list string))
    (stats_map : gmap string problem_statistics) (p : problem) : option problem_data :=
  if filtered_out min_rating max_rating tags p then None
  else process_problem p stats_map.

(** The rating of a fetched problem respects a bound that is set. *)
Definition within (min_rating max_rating : option Z) (pd : problem_data) : Prop :=
  (forall m, min_rating = Some m -> m <> 0%Z ->
     exists r, pd_rating pd = Some r /\ r <> 0%Z /\ (m <= r)%Z) /\
  (forall m, max_rating = Some m -> m <> 0%Z ->
     exists r, pd_rating pd = Some r /\ r <> 0%Z /\ (r <= m)%Z).

(** Three problems of the API: rated 800, unrated, rated 1500. *)
Definition watermelon : problem :=
  {| contestId := Some 4%Z; index := Some "A"; name := Some "Watermelon";
     type := Some "PROGRAMMING"; rating := Some 800%Z;
     tags := Some ["brute force"; "math"]; points := None |}.

Definition unrated : problem :=
  {| contestId := Some 6%Z; index := Some "C"; name := Some "Unrated";
     type := Some "PROGRAMMING"; rating := None; tags := None; points := None |}.

Definition harder : problem :=
  {| contestId := Some 7%Z; index := Some "D"; name := Some "Harder";
     type := Some "PROGRAMMING"; rating := Some 1500%Z;
     tags := Some ["dp"]; points := Some "1500.0" |}.

End ScrapeCodeforcesSpec.

Module SeedProblemsSpec.

Import SeedProblemsConfig.

(** The six rules of [Config.validate], as conditions on a
    configuration. *)
Definition well_configured (c : t) : Prop :=
  mongo_uri c <> "" /\
  (1 <= problem_start c)%Z /\
  (problem_start c <= problem_end c)%Z /\
  float_lt (delay_seconds c) (Finite (QArith_base.Qmake 1 1)) = false /\
  (1 <= max_retries c)%Z /\
  (1 <= max_problems_per_run c)%Z.

(** No character is a digit. *)
Fixpoint no_digit (s : string) : bool :=
  match s with
  | EmptyString => true
  | String c s' => negb (Re.is_digit c) && no_digit s'
  end.

(** The configuration the environment gives when only [MONGO_URI] is
    set. *)
Definition from_defaults : t :=
  {| mongo_uri := "mongodb://localhost:27017/coding-platform";
     problem_start := 1; problem_end := 100;
     delay_seconds := Finite (QArith_base.Qmake 2 1);
     max_retries := 3; dry_run := false; verbose := false;
     max_problems_per_run := 100; log_file := "scraper.log";
     user_agent := "Mozilla/5.0 (Educational Scraper for Coding Platform)" |}.

(** A configuration whose delay is not a number, and one whose range
    runs backwards and that allows no attempt. *)
Definition not_a_number (c : t) : t :=
  {| mongo_uri := mongo_uri c; problem_start := problem_start c;
     problem_end := problem_end c; delay_seconds := NaN;
     max_retries := max_retries c; dry_run := dry_run c; verbose := verbose c;
     max_problems_per_run := max_problems_per_run c; log_file := log_file c;
     user_agent := user_agent c |}.

Definition backwards (c : t) : t :=
  {| mongo_uri := mongo_uri c; problem_start := 10; problem_end := 5;
     delay_seconds := delay_seconds c;
     max_retries := (-1); dry_run := dry_run c; verbose := verbose c;
     max_problems_per_run := max_problems_per_run c; log_file := log_file c;
     user_agent := user_agent c |}.

End SeedProblemsSpec.

Module ScrapeLeetcodeSpec.

Import ScrapeLeetcode.

(** How often a difficulty occurs among the problems. *)
Definition occurrences {number : Type} (d : string) (problems : list (problem number)) : Z :=
  Z.of_nat (length (List.filter (fun p => String.eqb (p_difficulty number p) d) problems)).

(** The questions the loop does not pass over. *)
Definition kept {number : Type} (skip_premium : bool) (p : question number) : bool :=
  negb (skip_premium && paidOnly number p).

End ScrapeLeetcodeSpec.

Module ScrapeLeetcodeCompleteSpec.

Import Builtins ScrapeLeetcodeCompleteRun.

(** What one entry contributes when the loop comes to it. *)
Definition scraped_of (skip_premium : bool)
    (scrape_problem : string -> option problem * list string)
    (problem_meta : problem_meta) : option problem :=
  if skip_premium && default false (paidOnly problem_meta) then None
  else (scrape_problem (titleSlug problem_meta)).1.

(** The entries that are not passed over as premium. *)
Definition wanted (skip_premium : bool) (problem_meta : problem_meta) : bool :=
  negb (skip_premium && default false (paidOnly problem_meta)).

End ScrapeLeetcodeCompleteSpec.

Module ContentParserSpec.

Import ScrapeLeetcodeComplete TextSpec.

(** A call of the tokenizer that brings text to show. *)
Definition visible (t : token) : bool :=
  match t with
  | Data data => negb (blank data)
  | _ => false
  end.

(** The parser holds something: a finished part, or text of the part
    in the making. *)
Definition occupied (self : content_parser) : bool :=
  nonempty (text_parts self) || nonempty (current_text self).

(** What the handlers keep true of a parser: every finished part is a
    trimmed text that is not empty, and every piece of the part in the
    making has something to show. *)
Definition well_kept (self : content_parser) : Prop :=
  Forall (fun part => part <> "" /\ trimmed part) (text_parts self) /\
  Forall (fun piece => blank piece = false) (current_text self).

End ContentParserSpec.

(** * Properties *)

(** ** Strings *)

Section Strings.

(** Concatenation: its unfolding, length, associativity and units. *)
Lemma str_app_cons (x : ascii) (a b : string) : String x a ++ b = String x (a ++ b).
Proof. reflexivity. Qed.

Lemma str_app_nil_l (a : string) : "" ++ a = a.
Proof. reflexivity. Qed.

Lemma str_app_length (a b : string) :
  String.length (a ++ b) = String.length a + String.length b.
Proof.
  induction a as [|c a IH]; [reflexivity |].
  rewrite str_app_cons. simpl. now rewrite IH.
Qed.

Lemma str_app_assoc (a b c : string) : (a ++ b) ++ c = a ++ (b ++ c).
Proof.
  induction a as [|x a IH]; [reflexivity |].
  rewrite !str_app_cons. now rewrite IH.
Qed.

Lemma str_app_nil_r (a : string) : a ++ "" = a.
Proof.
  induction a as [|x a IH]; [reflexivity |].
  rewrite str_app_cons. now rewrite IH.
Qed.

End Strings.

(** ** Difficulty bucketing *)

Section DifficultyBucketing.

Lemma map_rating_agree (rating : option Z) :
  SeedProblems.map_rating rating = SeedProblemsApi.map_rating rating.
Proof. reflexivity. Qed.

Lemma map_rating_cases (r : Z) :
  ((r < 1200)%Z /\ SeedProblems.map_rating (Some r) = "easy") \/
  ((1200 <= r <= 1600)%Z /\ SeedProblems.map_rating (Some r) = "medium") \/
  ((1600 < r)%Z /\ SeedProblems.map_rating (Some r) = "hard").
Proof.
  unfold SeedProblems.map_rating.
  destruct (Z.ltb_spec r 1200); [left; split; [lia | reflexivity] |].
  destruct (Z.leb_spec r 1600); right; [left | right]; (split; [lia | reflexivity]).
Qed.

(** C1. For every rating the mapping answers [medium] on [None], [easy]
    exactly below 1200, [medium] exactly on 1200..1600 and [hard] exactly
    above 1600; the four boundary values are as stated, and the
    implementations of [seed_problems.py] and [seed_problems_api.py] agree
    on every input. *)
Theorem map_rating_buckets :
  (forall rating, SeedProblems.map_rating rating = SeedProblemsApi.map_rating rating) /\
  SeedProblems.map_rating None = "medium" /\
  (forall r : Z,
     (SeedProblems.map_rating (Some r) = "easy" <-> (r < 1200)%Z) /\
     (SeedProblems.map_rating (Some r) = "medium" <-> (1200 <= r <= 1600)%Z) /\
     (SeedProblems.map_rating (Some r) = "hard" <-> (1600 < r)%Z)) /\
  SeedProblems.map_rating (Some 1199%Z) = "easy" /\
  SeedProblems.map_rating (Some 1200%Z) = "medium" /\
  SeedProblems.map_rating (Some 1600%Z) = "medium" /\
  SeedProblems.map_rating (Some 1601%Z) = "hard".
Proof.
  split; [exact map_rating_agree |].
  split; [reflexivity |].
  split; [| repeat split; reflexivity].
  intros r.
  destruct (map_rating_cases r) as [[Hr E] | [[Hr E] | [Hr E]]]; rewrite E;
    (split; [| split]); (split; intros Hc);
    try reflexivity; try discriminate Hc; try lia.
Qed.

End DifficultyBucketing.

(** ** Category inference *)

Section CategoryInference.

Import CategorySpec.

Lemma contains_elem_of (l : list string) (t : string) :
  Py.contains l t = true <-> t ∈ l.
Proof.
  unfold Py.contains. rewrite existsb_exists. split.
  - intros (x & Hx & E). apply String.eqb_eq in E. subst x.
    now apply list_elem_of_In.
  - intros H. exists t. split; [now apply list_elem_of_In | apply String.eqb_refl].
Qed.

Lemma any_in_true (ks l : list string) :
  Py.any_in ks l = true <-> exists k, k ∈ ks /\ k ∈ l.
Proof.
  unfold Py.any_in. rewrite existsb_exists. split.
  - intros (k & Hk & E). exists k. split; [now apply list_elem_of_In |].
    now apply contains_elem_of.
  - intros (k & Hk & E). exists k. split; [now apply list_elem_of_In |].
    now apply contains_elem_of.
Qed.

Lemma any_in_false (ks l : list string) :
  Py.any_in ks l = false <-> forall k, k ∈ ks -> k ∉ l.
Proof.
  split.
  - intros H k Hk Hl.
    assert (Py.any_in ks l = true) by (apply any_in_true; eauto).
    congruence.
  - intros H. destruct (Py.any_in ks l) eqn:E; [| reflexivity].
    apply any_in_true in E as (k & Hk & Hl). now destruct (H k Hk).
Qed.

(** [infer] computes the relation. *)
Lemma infer_first_match (rules : list rule) (tl : list string) :
  first_match tl rules (infer rules tl).
Proof.
  induction rules as [| [ks cat] rs IH]; simpl.
  - constructor.
  - destruct (Py.any_in ks tl) eqn:E.
    + apply any_in_true in E as (k & Hk & Hl). now apply (fm_hit tl ks cat rs k).
    + apply fm_skip; [now apply any_in_false | exact IH].
Qed.

(** The relation has one answer. *)
Lemma first_match_infer (rules : list rule) (tl : list string) (c : string) :
  first_match tl rules c -> c = infer rules tl.
Proof.
  induction 1 as [| ks cat rs k Hk Hl | ks cat rs c Hno _ IH]; simpl.
  - reflexivity.
  - assert (E : Py.any_in ks tl = true) by (apply any_in_true; eauto).
    now rewrite E.
  - apply any_in_false in Hno. now rewrite Hno.
Qed.

Lemma _map_category_infer (tags : list string) :
  SeedLeetcode._map_category tags = infer leetcode_rules (map Py.lower tags).
Proof. reflexivity. Qed.

Lemma get_category_from_tags_infer (tags : list string) :
  SeedProblemsApi.get_category_from_tags tags
  = infer codeforces_rules (map Py.lower tags).
Proof. reflexivity. Qed.

(** C3, as the claim states it, fails: on the single tag [tree] the
    Codeforces mapper answers [Algorithm] (its rule has [trees]), and on
    the single tag [strings] the LeetCode mapper answers [Algorithm] (its
    rule has [string] only); the claimed rule list gives Graph Theory and
    String Processing there. *)
Lemma category_claimed_rules_counterexample :
  ~ first_match (map Py.lower ["tree"]) claimed_rules
      (SeedProblemsApi.get_category_from_tags ["tree"]) /\
  ~ first_match (map Py.lower ["strings"]) claimed_rules
      (SeedLeetcode._map_category ["strings"]) /\
  (SeedProblemsApi.get_category_from_tags ["tree"] = "Algorithm" /\
   first_match (map Py.lower ["tree"]) claimed_rules "Graph Theory") /\
  (SeedLeetcode._map_category ["strings"] = "Algorithm" /\
   first_match (map Py.lower ["strings"]) claimed_rules "String Processing").
Proof.
  split; [| split].
  - intros H. apply first_match_infer in H. vm_compute in H. discriminate H.
  - intros H. apply first_match_infer in H. vm_compute in H. discriminate H.
  - repeat split; try reflexivity.
    + exact (infer_first_match claimed_rules (map Py.lower ["tree"])).
    + exact (infer_first_match claimed_rules (map Py.lower ["strings"])).
Qed.

(** C3, amended.  Each implementation evaluates its own ordered rule
    list against the lower-cased tags by exact membership, and the first
    rule with a keyword among the tags wins, [Algorithm] otherwise; the
    two lists differ from each other.  In both, tags that contain [dp]
    (with or without [graph]) resolve to Dynamic Programming. *)
Theorem category_first_match (tags : list string) :
  first_match (map Py.lower tags) leetcode_rules (SeedLeetcode._map_category tags) /\
  first_match (map Py.lower tags) codeforces_rules
    (SeedProblemsApi.get_category_from_tags tags) /\
  ("dp" ∈ map Py.lower tags ->
   SeedLeetcode._map_category tags = "Dynamic Programming" /\
   SeedProblemsApi.get_category_from_tags tags = "Dynamic Programming").
Proof.
  split; [| split].
  - rewrite _map_category_infer. apply infer_first_match.
  - rewrite get_category_from_tags_infer. apply infer_first_match.
  - intros Hdp.
    rewrite _map_category_infer, get_category_from_tags_infer.
    unfold leetcode_rules, codeforces_rules. cbn [infer].
    assert (E1 : Py.any_in ["dynamic programming"; "dp"] (map Py.lower tags) = true).
    { apply any_in_true. exists "dp". split; [repeat constructor | exact Hdp]. }
    assert (E2 : Py.any_in ["dp"; "dynamic programming"] (map Py.lower tags) = true).
    { apply any_in_true. exists "dp". split; [repeat constructor | exact Hdp]. }
    now rewrite E1, E2.
Qed.

(** C3, witness.  The theorem at the tags [Graph], [DP]: [dp] is among the
    lower-cased tags, and both mappers answer Dynamic Programming. *)
Lemma category_first_match_witness :
  "dp" ∈ map Py.lower ["Graph"; "DP"] /\
  SeedLeetcode._map_category ["Graph"; "DP"] = "Dynamic Programming" /\
  SeedProblemsApi.get_category_from_tags ["Graph"; "DP"] = "Dynamic Programming".
Proof.
  assert (Hdp : "dp" ∈ map Py.lower ["Graph"; "DP"]) by (vm_compute; repeat constructor).
  split; [exact Hdp |].
  exact (proj2 (proj2 (category_first_match ["Graph"; "DP"])) Hdp).
Defined.

(** The precedence instance of the claim: [dp] and [graph] together. *)
Example category_dp_graph :
  SeedLeetcode._map_category ["graph"; "DP"] = "Dynamic Programming" /\
  SeedProblemsApi.get_category_from_tags ["graph"; "DP"] = "Dynamic Programming".
Proof. split; reflexivity. Qed.

End CategoryInference.

(** ** The validator *)

Section Validator.

Import ValidatorSpec.

Implicit Types (pd : gmap string string) (errors : list string).

Local Arguments Py.contains : simpl never.
Local Arguments Py.append : simpl never.
Local Arguments Py.str_of_nat : simpl never.

Lemma filter_one {A} (P : A -> Prop) `{!forall x, Decision (P x)} (x : A) :
  filter P [x] = if decide (P x) then [x] else [].
Proof. rewrite filter_cons, filter_nil. reflexivity. Qed.

Lemma truthy_false (v : string) : Py.truthy v = false <-> v = "".
Proof. destruct v; simpl; split; congruence. Qed.

Lemma missing_violated pd field :
  SeedProblemsApi.missing pd field = true <-> violated pd (Required field).
Proof.
  unfold SeedProblemsApi.missing, violated. destruct (pd !! field) as [v|].
  - destruct v; cbn; split; intros H; first [reflexivity | discriminate H].
  - tauto.
Qed.

(** One turn of the loop over the required fields adds the message of
    the rule [Required field] when it is violated, and nothing else. *)
Lemma required_step (msg : rule -> string) (prefix : string) pd errors field :
  msg (Required field) = prefix ++ field ->
  (if SeedProblemsApi.missing pd field
   then Py.append errors (prefix ++ field) else errors)
  = (errors ++ (msg <$> filter (violated pd) [Required field]))%list.
Proof.
  intros Hmsg. rewrite filter_one.
  destruct (SeedProblemsApi.missing pd field) eqn:E.
  - apply missing_violated in E. rewrite decide_True by exact E.
    simpl. now rewrite Hmsg.
  - rewrite decide_False; [simpl; now rewrite app_nil_r |].
    intros V. apply missing_violated in V. congruence.
Qed.

Lemma difficulty_step (msg : rule -> string) pd errors :
  msg DifficultyAllowed = "Invalid difficulty: " ++ field_of pd "difficulty" ->
  match pd !! "difficulty" with
  | Some d =>
      if negb (Py.contains ["easy"; "medium"; "hard"] d)
      then Py.append errors ("Invalid difficulty: " ++ d)
      else errors
  | None => errors
  end = (errors ++ (msg <$> filter (violated pd) [DifficultyAllowed]))%list.
Proof.
  intros Hmsg. rewrite filter_one. unfold field_of in Hmsg.
  destruct (decide (violated pd DifficultyAllowed)) as [V | V];
    simpl in V; destruct (pd !! "difficulty") as [d|] eqn:E; simpl in *.
  - destruct (Py.contains ["easy"; "medium"; "hard"] d) eqn:C.
    + apply contains_elem_of in C. contradiction.
    + simpl. now rewrite Hmsg.
  - contradiction.
  - destruct (Py.contains ["easy"; "medium"; "hard"] d) eqn:C; simpl; [now rewrite app_nil_r |].
    exfalso. apply V. intros Hd. apply contains_elem_of in Hd. congruence.
  - now rewrite app_nil_r.
Qed.

Lemma description_step (msg : rule -> string) (suffix : string) pd errors :
  msg DescriptionMinLength
  = "Description too short: "
    ++ Py.str_of_nat (String.length (field_of pd "description")) ++ suffix ->
  match pd !! "description" with
  | Some d =>
      if (String.length d <? 500)%nat
      then Py.append errors
             ("Description too short: " ++ Py.str_of_nat (String.length d) ++ suffix)
      else errors
  | None => errors
  end = (errors ++ (msg <$> filter (violated pd) [DescriptionMinLength]))%list.
Proof.
  intros Hmsg. rewrite filter_one. unfold field_of in Hmsg.
  destruct (decide (violated pd DescriptionMinLength)) as [V | V];
    simpl in V; destruct (pd !! "description") as [d|] eqn:E; simpl in *.
  - destruct (Nat.ltb_spec (String.length d) 500); [| lia].
    now rewrite Hmsg.
  - contradiction.
  - destruct (Nat.ltb_spec (String.length d) 500); [lia |].
    now rewrite app_nil_r.
  - now rewrite app_nil_r.
Qed.

Lemma title_step pd errors :
  match pd !! "title" with
  | Some t =>
      if (200 <? String.length t)%nat
      then Py.append errors
             ("Title too long: " ++ Py.str_of_nat (String.length t)
                ++ " chars (maximum 200)")
      else errors
  | None => errors
  end = (errors ++ (api_message pd <$> filter (violated pd) [TitleMaxLength]))%list.
Proof.
  rewrite filter_one.
  destruct (decide (violated pd TitleMaxLength)) as [V | V];
    simpl in V; unfold api_message, field_of;
    destruct (pd !! "title") as [t|] eqn:E; simpl in *.
  - destruct (Nat.ltb_spec 200 (String.length t)); [| lia]. reflexivity.
  - contradiction.
  - destruct (Nat.ltb_spec 200 (String.length t)); [lia |].
    now rewrite app_nil_r.
  - now rewrite app_nil_r.
Qed.

Lemma filter_snoc {A} (P : A -> Prop) `{!forall x, Decision (P x)} (l : list A) (x : A) :
  filter P (l ++ [x])%list = (filter P l ++ filter P [x])%list.
Proof. apply filter_app. Qed.

(** The errors of the Codeforces validator: the messages of the violated
    rules, in rule order. *)
Lemma api_validate_errors pd :
  (SeedProblemsApi.validate pd).2 = api_message pd <$> filter (violated pd) all_rules.
Proof.
  unfold SeedProblemsApi.validate. cbn [snd fold_left].
  rewrite title_step.
  rewrite (description_step (api_message pd) " chars (minimum 500)") by reflexivity.
  rewrite (difficulty_step (api_message pd)) by reflexivity.
  rewrite !(required_step (api_message pd) "Missing required field: ") by reflexivity.
  change all_rules with
    ((((((([] ++ [Required "title"]) ++ [Required "description"])
           ++ [Required "difficulty"]) ++ [Required "externalId"])
         ++ [DifficultyAllowed]) ++ [DescriptionMinLength]) ++ [TitleMaxLength])%list.
  rewrite !filter_snoc, !fmap_app. reflexivity.
Qed.

(** The errors of the LeetCode validator. *)
Lemma leetcode_validate_errors pd :
  (SeedLeetcode.validate pd).2
  = leetcode_message pd <$> filter (violated pd) leetcode_rules.
Proof.
  unfold SeedLeetcode.validate. cbn [snd fold_left].
  change SeedLeetcode.missing with SeedProblemsApi.missing.
  rewrite (description_step (leetcode_message pd) " chars") by reflexivity.
  rewrite (difficulty_step (leetcode_message pd)) by reflexivity.
  rewrite !(required_step (leetcode_message pd) "Missing: ") by reflexivity.
  change leetcode_rules with
    (((((([] ++ [Required "title"]) ++ [Required "description"])
           ++ [Required "difficulty"]) ++ [Required "externalId"])
         ++ [DifficultyAllowed]) ++ [DescriptionMinLength])%list.
  rewrite !filter_snoc, !fmap_app. reflexivity.
Qed.

Lemma no_errors_iff (msg : rule -> string) pd (rules : list rule) :
  Nat.eqb (length (msg <$> filter (violated pd) rules)) 0 = true
  <-> forall r, r ∈ rules -> ~ violated pd r.
Proof.
  rewrite Nat.eqb_eq, length_fmap. split.
  - intros Hlen r Hr V.
    assert (Hin : r ∈ filter (violated pd) rules) by (apply list_elem_of_filter; auto).
    destruct (filter (violated pd) rules); [inversion Hin | discriminate Hlen].
  - intros Hno. induction rules as [| r rs IH]; [reflexivity |].
    rewrite filter_cons. rewrite decide_False.
    + apply IH. intros r' Hr'. apply Hno. now right.
    + apply Hno. now left.
Qed.

(** C2, as the claim states it, fails for [seed_leetcode.py]: a record
    whose only defect is a title of 201 characters violates the title
    rule and is rejected by the Codeforces validator, while the LeetCode
    validator returns valid with no message. *)
Lemma validate_title_counterexample :
  ~ ((SeedLeetcode.validate long_title_record).1 = true
     <-> forall r, r ∈ all_rules -> ~ violated long_title_record r) /\
  violated long_title_record TitleMaxLength /\
  SeedLeetcode.validate long_title_record = (true, []) /\
  SeedProblemsApi.validate long_title_record
  = (false, ["Title too long: 201 chars (maximum 200)"]).
Proof.
  assert (V : violated long_title_record TitleMaxLength) by (vm_compute; lia).
  assert (E : SeedLeetcode.validate long_title_record = (true, []))
    by (vm_compute; reflexivity).
  split; [| split; [exact V | split; [exact E | vm_compute; reflexivity]]].
  intros [H _]. rewrite E in H.
  apply (H eq_refl TitleMaxLength); [| exact V].
  unfold all_rules. repeat constructor.
Qed.

(** C2, amended.  Both validators accumulate every violation without
    stopping: the result holds one message per violated rule, in rule
    order, and is valid exactly when no checked rule is violated.  The
    Codeforces validator checks all four rule groups; the LeetCode
    validator checks the first three and has no bound on the title. *)
Theorem validate_accumulates pd :
  (SeedProblemsApi.validate pd).2
    = api_message pd <$> filter (violated pd) all_rules /\
  ((SeedProblemsApi.validate pd).1 = true
     <-> forall r, r ∈ all_rules -> ~ violated pd r) /\
  (SeedLeetcode.validate pd).2
    = leetcode_message pd <$> filter (violated pd) leetcode_rules /\
  ((SeedLeetcode.validate pd).1 = true
     <-> forall r, r ∈ leetcode_rules -> ~ violated pd r).
Proof.
  split; [apply api_validate_errors |].
  split.
  { rewrite <- (no_errors_iff (api_message pd)), <- api_validate_errors.
    reflexivity. }
  split; [apply leetcode_validate_errors |].
  rewrite <- (no_errors_iff (leetcode_message pd)), <- leetcode_validate_errors.
  reflexivity.
Qed.

End Validator.

(** ** Description backfill *)

Section Backfill.

Import Py SeedLeetcode BackfillSpec.


(** The loop stops, on a text of at least 500 characters that is the
    start text followed by the least number of fillers that reaches 500. *)
Lemma pad_loop_spec (s : string) :
  exists k,
    pad_loop s = s ++ fillers k /\
    500 <= String.length (pad_loop s) /\
    forall j, j < k -> String.length (s ++ fillers j) < 500.
Proof.
  funelim (pad_loop s).
  - destruct H as (k & Hk & Hlen & Hmin).
    exists (S k). split; [| split].
    + rewrite Hk, str_app_assoc. reflexivity.
    + exact Hlen.
    + intros j Hj. destruct j as [|j].
      * cbn [fillers]. now rewrite str_app_nil_r.
      * specialize (Hmin j (proj2 (Nat.succ_lt_mono j k) Hj)).
        cbn [fillers]. now rewrite <- str_app_assoc.
  - exists 0. cbn [fillers]. rewrite str_app_nil_r.
    split; [reflexivity | split; [lia | intros j Hj; lia]].
Qed.

(** C4. The backfilled description has at least 500 characters for
    every input; a description of at least 500 characters is returned as
    it is; a shorter one becomes header, description, footer and then the
    least number of filler sentences that reaches 500 characters. *)
Theorem backfill_floor (desc title difficulty : string) :
  500 <= String.length (backfill desc title difficulty) /\
  (500 <= String.length desc -> backfill desc title difficulty = desc) /\
  (String.length desc < 500 ->
   exists k,
     backfill desc title difficulty = wrapped desc title difficulty ++ fillers k /\
     forall j, j < k ->
       String.length (wrapped desc title difficulty ++ fillers j) < 500).
Proof.
  unfold backfill, _pad_description.
  destruct (Nat.ltb_spec (String.length desc) 500) as [Hlt | Hge].
  - destruct (pad_loop_spec (header title difficulty ++ desc ++ footer))
      as (k & Hk & Hlen & Hmin).
    split; [exact Hlen | split; [lia |]].
    intros _. exists k. split; [exact Hk | exact Hmin].
  - split; [exact Hge | split; [reflexivity | lia]].
Qed.

(** C4, witness.  The theorem at a description of 3 characters, which is wrapped and
    padded, and at one of 500 characters, which is kept. *)
Lemma backfill_floor_witness :
  (String.length "abc" < 500 /\
   exists k,
     backfill "abc" "Two Sum" "easy" = wrapped "abc" "Two Sum" "easy" ++ fillers k /\
     forall j, j < k ->
       String.length (wrapped "abc" "Two Sum" "easy" ++ fillers j) < 500) /\
  (500 <= String.length (Py.repeat_char 500 "d") /\
   backfill (Py.repeat_char 500 "d") "Two Sum" "easy"
   = Py.repeat_char 500 "d").
Proof.
  assert (H1 : String.length "abc" < 500) by (vm_compute; lia).
  assert (H2 : 500 <= String.length (Py.repeat_char 500 "d"))
    by (vm_compute; lia).
  split; split; [exact H1 | | exact H2 |].
  - exact (proj2 (proj2 (backfill_floor "abc" "Two Sum" "easy")) H1).
  - exact (proj1 (proj2 (backfill_floor (Py.repeat_char 500 "d")
                           "Two Sum" "easy")) H2).
Defined.

(** A short description is wrapped and padded; here four fillers are
    needed. *)
Example backfill_short :
  backfill "abc" "Two Sum" "easy" = wrapped "abc" "Two Sum" "easy" ++ fillers 4 /\
  String.length (backfill "abc" "Two Sum" "easy") = 521.
Proof. split; vm_compute; reflexivity. Qed.

End Backfill.

(** ** Sample-test pairing *)

Section SamplePairing.

Import SeedProblems SamplePairingSpec.

Lemma extract_lookup (st : sample_test) (i : nat) (inp out : block) :
  inputs st !! i = Some inp -> outputs st !! i = Some out ->
  _extract_test_cases (Some st) !! i
  = Some {| input := block_text inp; output := block_text out;
            explanation := "Sample test " ++ Py.str_of_nat (i + 1) |}.
Proof.
  intros Hi Ho. unfold _extract_test_cases.
  rewrite list_lookup_imap, lookup_zip_with, Hi, Ho.
  reflexivity.
Qed.

Lemma sample_tests_sublist (st : sample_test) :
  sublist (ScrapeCodeforcesFull.sample_tests_of st) (paired st).
Proof.
  unfold ScrapeCodeforcesFull.sample_tests_of, paired.
  induction (zip (inputs st) (outputs st)) as [| [inp out] l IH]; simpl.
  - constructor.
  - unfold block_text. destruct (pre inp), (pre out); simpl;
      (apply sublist_skip || apply sublist_cons); exact IH.
Qed.

Lemma sample_tests_all (st : sample_test) :
  Forall has_pre (inputs st) -> Forall has_pre (outputs st) ->
  ScrapeCodeforcesFull.sample_tests_of st = paired st.
Proof.
  unfold ScrapeCodeforcesFull.sample_tests_of, paired.
  generalize (outputs st) as os. induction (inputs st) as [| inp ins IH];
    intros os Hi Ho; [reflexivity |].
  destruct os as [| out os]; [reflexivity |].
  inversion Hi as [| ? ? [ti Hti] Hi']; subst.
  inversion Ho as [| ? ? [to Hto] Ho']; subst.
  simpl. unfold block_text. rewrite Hti, Hto. simpl. f_equal.
  apply IH; assumption.
Qed.

(** C8, as the claim states it, fails for [scrape_codeforces_full.py]:
    with one input block that holds no [pre] and one output block, the
    container has min(1, 1) = 1 pair and the scraper produces no test
    case, while [ProblemParser._extract_test_cases] produces one. *)
Lemma sample_pairing_counterexample :
  length (ScrapeCodeforcesFull.sample_tests_of bare_input)
    <> Nat.min (length (inputs bare_input)) (length (outputs bare_input)) /\
  Nat.min (length (inputs bare_input)) (length (outputs bare_input)) = 1 /\
  ScrapeCodeforcesFull.sample_tests_of bare_input = [] /\
  _extract_test_cases (Some bare_input)
  = [ {| input := ""; output := "1"; explanation := "Sample test 1" |} ].
Proof. split; [discriminate | repeat split]. Qed.

(** C8, amended.  [ProblemParser._extract_test_cases] produces exactly
    min(m, n) test cases, the [i]-th from the [i]-th input block and the
    [i]-th output block (the trimmed text of its [pre], or the empty
    string without one), with explanation [Sample test i+1], and none
    without a container.  [scrape_codeforces_full.py] pairs the blocks by
    index too, in order, but keeps a pair only when both blocks hold a
    [pre] and records no explanation: it produces at most min(m, n)
    samples, and all of them when every block has a [pre]. *)
Theorem sample_pairing (st : sample_test) :
  _extract_test_cases None = [] /\
  length (_extract_test_cases (Some st))
    = Nat.min (length (inputs st)) (length (outputs st)) /\
  (forall i inp out,
     inputs st !! i = Some inp -> outputs st !! i = Some out ->
     _extract_test_cases (Some st) !! i
     = Some {| input := block_text inp; output := block_text out;
               explanation := "Sample test " ++ Py.str_of_nat (i + 1) |}) /\
  sublist (ScrapeCodeforcesFull.sample_tests_of st) (paired st) /\
  length (ScrapeCodeforcesFull.sample_tests_of st)
    <= Nat.min (length (inputs st)) (length (outputs st)) /\
  (Forall has_pre (inputs st) -> Forall has_pre (outputs st) ->
   ScrapeCodeforcesFull.sample_tests_of st = paired st).
Proof.
  split; [reflexivity |].
  split.
  { unfold _extract_test_cases. now rewrite length_imap, length_zip. }
  split; [apply extract_lookup |].
  split; [apply sample_tests_sublist |].
  split; [| apply sample_tests_all].
  rewrite (sublist_length _ _ (sample_tests_sublist st)).
  unfold paired. now rewrite length_fmap, length_zip.
Qed.

(** C8, witness.  The theorem at a container with two input blocks and one output
    block, all with a [pre]: one test case, from the first of each. *)
Lemma sample_pairing_witness :
  inputs two_inputs !! 0 = Some {| pre := Some " 1 2 " |} /\
  outputs two_inputs !! 0 = Some {| pre := Some "3" |} /\
  _extract_test_cases (Some two_inputs) !! 0
  = Some {| input := "1 2"; output := "3"; explanation := "Sample test 1" |} /\
  length (_extract_test_cases (Some two_inputs)) = 1 /\
  ScrapeCodeforcesFull.sample_tests_of two_inputs = paired two_inputs.
Proof.
  destruct (sample_pairing two_inputs) as (_ & Hlen & Hith & _ & _ & Hall).
  split; [reflexivity |]. split; [reflexivity |].
  split; [exact (Hith 0 _ _ eq_refl eq_refl) |].
  split; [exact Hlen |].
  apply Hall; repeat constructor; eexists; reflexivity.
Defined.

End SamplePairing.

(** ** The exampleTestcases string *)

Section ExampleTests.

Import SeedLeetcode ExampleTestsSpec.

Local Arguments Nat.mul : simpl never.
Local Arguments Nat.div : simpl never.

(** The loop over the first [j] even indices, all of which have a
    successor line. *)
Lemma parse_prefix (lines : list string) (j : nat) :
  2 * j <= length lines ->
  fold_left (parse_step lines) ((fun k => 2 * k) <$> seq 0 j) []
  = case_of lines <$> seq 0 j.
Proof.
  induction j as [| j IH]; intros Hj; [reflexivity |].
  rewrite seq_S, !fmap_app, fold_left_app, IH by lia.
  cbn [fmap list_fmap fold_left plus]. unfold parse_step.
  destruct (Nat.ltb_spec (2 * j + 1) (length lines)) as [_ | Hge]; [| lia].
  unfold Py.append, case_of. rewrite length_fmap, length_seq.
  reflexivity.
Qed.

Lemma fold_lines (lines : list string) :
  fold_left (parse_step lines) (Py.range_by_2 (length lines)) []
  = case_of lines <$> seq 0 (length lines / 2).
Proof.
  unfold Py.range_by_2. set (n := length lines).
  change (map (fun k => 2 * k)) with (fmap (M := list) (fun k => 2 * k)).
  destruct (Nat.Even_or_Odd n) as [[q Hq] | [q Hq]].
  - replace ((n + 1) / 2) with q by (apply Nat.div_unique with 1; lia).
    replace (n / 2) with q by (apply Nat.div_unique with 0; lia).
    apply parse_prefix. fold n. lia.
  - replace ((n + 1) / 2) with (S q) by (apply Nat.div_unique with 0; lia).
    replace (n / 2) with q by (apply Nat.div_unique with 1; lia).
    rewrite seq_S, fmap_app, fold_left_app, parse_prefix by (fold n; lia).
    cbn [fmap list_fmap fold_left plus]. unfold parse_step. fold n.
    destruct (Nat.ltb_spec (2 * q + 1) n) as [Hlt | _]; [lia | reflexivity].
Qed.

(** C10. A missing or empty string gives no test case.  A non-empty
    string whose stripped form splits at newlines into [n] lines gives
    exactly floor(n/2) test cases, the [k]-th with the trimmed lines [2k]
    and [2k+1] as input and output; a last unpaired line is dropped. *)
Theorem parse_test_cases_pairs (c : ascii) (s : string) :
  _parse_test_cases None = [] /\
  _parse_test_cases (Some "") = [] /\
  length (_parse_test_cases (Some (String c s)))
    = length (Py.split Py.newline (Py.strip (String c s))) / 2 /\
  (forall k,
     k < length (Py.split Py.newline (Py.strip (String c s))) / 2 ->
     _parse_test_cases (Some (String c s)) !! k
     = Some {| input :=
                 Py.strip (nth (2 * k) (Py.split Py.newline (Py.strip (String c s))) "");
               output :=
                 Py.strip (nth (2 * k + 1) (Py.split Py.newline (Py.strip (String c s))) "");
               explanation := "Example " ++ Py.str_of_nat (k + 1) |}).
Proof.
  split; [reflexivity | split; [reflexivity |]].
  assert (E : _parse_test_cases (Some (String c s))
              = case_of (Py.split Py.newline (Py.strip (String c s)))
                  <$> seq 0 (length (Py.split Py.newline (Py.strip (String c s))) / 2)).
  { unfold _parse_test_cases. cbn [Py.truthy negb]. apply fold_lines. }
  rewrite E. split.
  - now rewrite length_fmap, length_seq.
  - intros k Hk. rewrite list_lookup_fmap, lookup_seq_lt by exact Hk.
    reflexivity.
Qed.

(** C10, witness.  The theorem at a string of three lines: the index 0 is below
    floor(3/2), and the first test case pairs the first two lines. *)
Lemma parse_test_cases_pairs_witness :
  0 < length (Py.split Py.newline
                (Py.strip ("[1,2]" ++ Py.nl ++ " 3 " ++ Py.nl ++ "x"))) / 2 /\
  _parse_test_cases (Some ("[1,2]" ++ Py.nl ++ " 3 " ++ Py.nl ++ "x")) !! 0
  = Some {| input := "[1,2]"; output := "3"; explanation := "Example 1" |}.
Proof.
  assert (H : 0 < length (Py.split Py.newline
                            (Py.strip ("[1,2]" ++ Py.nl ++ " 3 " ++ Py.nl ++ "x"))) / 2)
    by (vm_compute; lia).
  split; [exact H |].
  exact (proj2 (proj2 (proj2 (parse_test_cases_pairs "[" ("1,2]" ++ Py.nl ++ " 3 " ++ Py.nl ++ "x"))))
           0 H).
Defined.

(** Three lines: one pair, the third line dropped. *)
Example parse_test_cases_three_lines :
  _parse_test_cases (Some ("[1,2]" ++ Py.nl ++ " 3 " ++ Py.nl ++ "x"))
  = [ {| input := "[1,2]"; output := "3"; explanation := "Example 1" |} ].
Proof. vm_compute. reflexivity. Qed.

End ExampleTests.

(** ** The persistence gateway *)

Section Gateway.

Import PyMongo GatewaySpec.

Lemma stamped_entries (self : client) (e : env) (pd : document) :
  let stamped :=
    set_updatedAt (now_second e)
      (set_createdAt (now_first e) (set_createdBy (system_user_id self) pd)) in
  data stamped !! "externalId" = data pd !! "externalId" /\
  data stamped !! "title" = data pd !! "title" /\
  _id stamped = _id pd.
Proof. simpl. now rewrite !lookup_delete_ne by discriminate. Qed.

Lemma stamped_externalId (self : client) (e : env) (pd : document) :
  data (set_updatedAt (now_second e)
          (set_createdAt (now_first e) (set_createdBy (system_user_id self) pd)))
    !! "externalId"
  = data pd !! "externalId".
Proof. apply (stamped_entries self e pd). Qed.

(** What [insert_one] does to a document: it may add an [_id], nothing
    else changes. *)
Lemma insert_one_document (e : env) (doc : document) (coll : list document) :
  let '(_, doc', _) := insert_one e doc coll in
  createdBy doc' = createdBy doc /\ createdAt doc' = createdAt doc /\
  updatedAt doc' = updatedAt doc /\
  data doc' !! "externalId" = data doc !! "externalId" /\
  data doc' !! "title" = data doc !! "title".
Proof.
  unfold insert_one.
  assert (H : forall d, d = match _id doc with Some _ => doc | None => set_id (generated_id e) doc end ->
            createdBy d = createdBy doc /\ createdAt d = createdAt doc /\
            updatedAt d = updatedAt doc /\
            data d !! "externalId" = data doc !! "externalId" /\
            data d !! "title" = data doc !! "title").
  { intros d ->. destruct (_id doc); [tauto |]. simpl.
    now rewrite !lookup_delete_ne by discriminate. }
  destruct (failure e); [apply H; reflexivity |].
  destruct (existsb _ _); apply H; reflexivity.
Qed.

(** The three outcomes of [insert_one]; the document leaves the call
    with its id. *)
Lemma insert_one_cases (e : env) (doc : document) (coll : list document) :
  exists doc',
    _id doc' = Some (stored_id e doc) /\
    ((exists err, failure e = Some err /\
        insert_one e doc coll = (OtherException err, doc', coll)) \/
     (failure e = None /\ existsb (conflicts doc') coll = true /\
        insert_one e doc coll = (DuplicateKeyError, doc', coll)) \/
     (failure e = None /\ existsb (conflicts doc') coll = false /\
        insert_one e doc coll
        = (InsertOneResult (stored_id e doc), doc', (coll ++ [doc'])%list))).
Proof.
  unfold insert_one, stored_id.
  exists (match _id doc with Some _ => doc | None => set_id (generated_id e) doc end).
  assert (Hid : _id (match _id doc with
                     | Some _ => doc
                     | None => set_id (generated_id e) doc
                     end) = Some (default (generated_id e) (_id doc))).
  { destruct (_id doc) as [i |] eqn:E; [exact E | reflexivity]. }
  split; [exact Hid |].
  destruct (failure e) as [err |]; [left; eauto |].
  right. destruct (existsb _ coll) eqn:E; [left | right]; [eauto |].
  split; [reflexivity |]. split; [reflexivity |]. rewrite Hid. reflexivity.
Qed.

Lemma conflicts_externalId (doc : document) (coll : list document) :
  (exists d, d ∈ coll /\ data d !! "externalId" = data doc !! "externalId") ->
  existsb (conflicts doc) coll = true.
Proof.
  intros (d & Hd & E). apply existsb_exists. exists d.
  split; [now apply list_elem_of_In |].
  unfold conflicts. rewrite (bool_decide_eq_true_2 _ E). apply orb_true_r.
Qed.

(** Without a stored record of the same [externalId] or the same id,
    nothing stands in the way. *)
Lemma conflicts_none (doc : document) (coll : list document) :
  (forall d, d ∈ coll ->
     data d !! "externalId" <> data doc !! "externalId" /\ _id d <> _id doc) ->
  existsb (conflicts doc) coll = false.
Proof.
  intros H. destruct (existsb (conflicts doc) coll) eqn:E; [| reflexivity].
  apply existsb_exists in E as (d & Hd & Hc). apply list_elem_of_In in Hd.
  destruct (H d Hd) as [Hx Hi]. unfold conflicts in Hc.
  apply orb_true_iff in Hc as [Hc | Hc]; apply bool_decide_eq_true_1 in Hc; contradiction.
Qed.

Ltac insert_setup self e pd w :=
  destruct (stamped_entries self e pd) as (Hext & Htitle & Hsid); cbv zeta in Hext, Htitle, Hsid;
  pose proof (insert_one_document e
                (set_updatedAt (now_second e)
                   (set_createdAt (now_first e) (set_createdBy (system_user_id self) pd)))
                (problems w)) as Hdoc;
  destruct (insert_one_cases e
              (set_updatedAt (now_second e)
                 (set_createdAt (now_first e) (set_createdBy (system_user_id self) pd)))
              (problems w))
    as (doc' & Hid & [(err & Hf & Hins) | [(Hf & Hc & Hins) | (Hf & Hc & Hins)]]);
  rewrite Hins in Hdoc; destruct Hdoc as (Hby & Hat & Hup & Hx & Ht);
  simpl in Hby, Hat, Hup;
  change (stored_id e
            (set_updatedAt (now_second e)
               (set_createdAt (now_first e) (set_createdBy (system_user_id self) pd))))
    with (stored_id e pd) in *.

Ltac contract_parts :=
  split; [ repeat split; congruence | ];
  split; [ first [ left; reflexivity | right; reflexivity ] | ];
  split; [ intros Hnone Hdup | split; [ intros err' Herr | intros Hnone Hfree ] ].

Ltac failed_write Hf :=
  match goal with
  | Herr : failure _ = Some ?err' |- _ =>
      rewrite Hf in Herr; injection Herr as <-;
      split; [reflexivity | split; [reflexivity | eexists; reflexivity]]
  end.

Ltac not_duplicate Hext Hx Hc :=
  match goal with
  | Hdup : exists d, _ |- _ =>
      rewrite <- Hext, <- Hx in Hdup;
      apply conflicts_externalId in Hdup; congruence
  end.

(** The write went through although something stood in the way: there
    is no such case. *)
Ltac not_free Hfree Hx Hid Hc :=
  match type of Hc with
  | existsb (conflicts ?doc') ?coll = true =>
      assert (existsb (conflicts doc') coll = false)
        by (apply conflicts_none; intros d Hd; rewrite Hx, Hid; apply Hfree; exact Hd);
      congruence
  end.

Lemma api_insert_contract : contract SeedProblemsApi.insert_problem.
Proof.
  intros self e pd w. unfold SeedProblemsApi.insert_problem.
  insert_setup self e pd w; rewrite Hins.
  - cbn. rewrite Hext in Hx.
    contract_parts; [congruence | failed_write Hf | congruence].
  - cbn. rewrite Hext in Hx.
    contract_parts; [split; reflexivity | congruence | not_free Hfree Hx Hid Hc].
  - assert (Hp : forall v m w0, problems (logger_debug v m w0) = problems w0)
      by (intros [] ? ?; reflexivity).
    destruct (data doc' !! "title") as [title |] eqn:Etitle.
    + cbn [fst snd]. rewrite Hp. cbn.
      contract_parts; [not_duplicate Hext Hx Hc | congruence |].
      split; [reflexivity |]. split; [exact Hid | reflexivity].
    + cbn. contract_parts; [not_duplicate Hext Hx Hc | congruence |].
      split; [reflexivity |]. split; [exact Hid |].
      intros [t Hsome]. congruence.
Qed.

Lemma leetcode_insert_contract : contract SeedLeetcode.insert_problem.
Proof.
  intros self e pd w. unfold SeedLeetcode.insert_problem.
  insert_setup self e pd w; rewrite Hins; cbn.
  - rewrite Hext in Hx. contract_parts; [congruence | failed_write Hf | congruence].
  - rewrite Hext in Hx.
    contract_parts; [split; reflexivity | congruence | not_free Hfree Hx Hid Hc].
  - contract_parts; [not_duplicate Hext Hx Hc | congruence |].
    split; [reflexivity |]. split; [exact Hid | reflexivity].
Qed.

(** C5. Both gateways stamp the record with [createdBy], [createdAt]
    and [updatedAt] and attempt one insert.  A record whose [externalId]
    is already stored makes the call return [None] with the collection as
    it was; any other failure of the write is logged as an error and
    returns [None]; when the write does not fail and nothing stored has
    the [externalId] or the id of the record, the stamped record is
    stored at the end of the collection, and its id is returned (by the
    API script when the record has a title: its debug line reads the title
    after the write).  Every stored record stays as it is, the collection
    only ever growing by the stamped record at its end. *)
Theorem insert_problem_contract :
  contract SeedProblemsApi.insert_problem /\ contract SeedLeetcode.insert_problem.
Proof. split; [exact api_insert_contract | exact leetcode_insert_contract]. Qed.

(** C5, witness.  The contract at a write that times out, at a record
    whose [externalId] is stored already, and at a write that goes
    through. *)
Lemma insert_problem_contract_witness :
  (failure timing_out = Some "timed out" /\
   (SeedProblemsApi.insert_problem gateway timing_out two_sum empty_world).1.1 = None /\
   problems (SeedProblemsApi.insert_problem gateway timing_out two_sum empty_world).2
   = problems empty_world) /\
  (failure quiet = None /\
   (exists d, d ∈ problems stored_world /\
              data d !! "externalId" = data two_sum !! "externalId") /\
   (SeedLeetcode.insert_problem gateway quiet two_sum stored_world).1.1 = None /\
   problems (SeedLeetcode.insert_problem gateway quiet two_sum stored_world).2
   = problems stored_world) /\
  (failure quiet = None /\
   (forall d, d ∈ problems empty_world ->
      data d !! "externalId" <> data two_sum !! "externalId" /\
      _id d <> Some (stored_id quiet two_sum)) /\
   (SeedProblemsApi.insert_problem gateway quiet two_sum empty_world).1.1
   = Some "5f00000000000000000000bb" /\
   length (problems (SeedProblemsApi.insert_problem gateway quiet two_sum empty_world).2)
   = 1 /\
   (SeedLeetcode.insert_problem gateway quiet two_sum empty_world).1.1
   = Some "5f00000000000000000000bb").
Proof.
  split; [| split].
  - pose proof (proj1 insert_problem_contract gateway timing_out two_sum empty_world) as H.
    destruct (SeedProblemsApi.insert_problem gateway timing_out two_sum empty_world)
      as [[r pd'] w'].
    destruct H as (_ & _ & _ & H & _). destruct (H "timed out" eq_refl) as (Hr & Hp & _).
    split; [reflexivity |]. split; [exact Hr | exact Hp].
  - pose proof (proj2 insert_problem_contract gateway quiet two_sum stored_world) as H.
    assert (Hdup : exists d, d ∈ problems stored_world /\
                     data d !! "externalId" = data two_sum !! "externalId").
    { eexists. split; [left |]. vm_compute. reflexivity. }
    destruct (SeedLeetcode.insert_problem gateway quiet two_sum stored_world)
      as [[r pd'] w'].
    destruct H as (_ & _ & H & _). destruct (H eq_refl Hdup) as (Hr & Hp).
    split; [reflexivity |]. split; [exact Hdup |]. split; [exact Hr | exact Hp].
  - assert (Hfree : forall d, d ∈ problems empty_world ->
                      data d !! "externalId" <> data two_sum !! "externalId" /\
                      _id d <> Some (stored_id quiet two_sum)).
    { intros d Hd. cbn in Hd. inversion Hd. }
    assert (Htitle : is_Some (data two_sum !! "title")).
    { exists "Two Sum". vm_compute. reflexivity. }
    pose proof (proj1 insert_problem_contract gateway quiet two_sum empty_world) as H1.
    pose proof (proj2 insert_problem_contract gateway quiet two_sum empty_world) as H2.
    destruct (SeedProblemsApi.insert_problem gateway quiet two_sum empty_world)
      as [[r1 pd1] w1].
    destruct (SeedLeetcode.insert_problem gateway quiet two_sum empty_world)
      as [[r2 pd2] w2].
    destruct H1 as (_ & _ & _ & _ & H1). destruct (H1 eq_refl Hfree) as (Hp1 & _ & Hr1).
    destruct H2 as (_ & _ & _ & _ & H2). destruct (H2 eq_refl Hfree) as (_ & _ & Hr2).
    split; [reflexivity |]. split; [exact Hfree |].
    split; [exact (Hr1 Htitle) |]. split; [| exact (Hr2 Htitle)].
    cbn [snd]. rewrite Hp1. reflexivity.
Defined.

(** Inserting a record twice stores it once: the second call returns
    [None] and leaves the collection as the first call made it. *)
Example insert_twice :
  let self := {| system_user_id := "5f0000000000000000000001"; verbose := false |} in
  let e := {| now_first := 10; now_second := 11;
              generated_id := "5f00000000000000000000aa"; failure := None |} in
  let e' := {| now_first := 20; now_second := 21;
               generated_id := "5f00000000000000000000bb"; failure := None |} in
  let pd := {| data := <["externalId" := "leetcode_1"]> (<["title" := "Two Sum"]> ∅);
               _id := None; createdBy := None; createdAt := None;
               updatedAt := None |} in
  let '(r1, _, w1) := SeedLeetcode.insert_problem self e pd
                        {| problems := []; log := [] |} in
  let '(r2, _, w2) := SeedLeetcode.insert_problem self e' pd w1 in
  r1 = Some "5f00000000000000000000aa" /\ r2 = None /\
  length (problems w1) = 1 /\ problems w2 = problems w1.
Proof. vm_compute. repeat split. Qed.

End Gateway.

(** ** The rate-limited fetcher *)

Section Fetcher.

Import SeedProblems FetcherSpec.

Variable delay_seconds : float.
Variable max_retries : Z.
Variable sleep_max : Z.
Variable server : nat -> reply * N.
Variable oversleep : nat -> N.

Local Open Scope Z_scope.

Lemma advances_refl (k : nat) (s : state) : advances k s s.
Proof.
  repeat split; [lia |]. exists []. rewrite app_nil_r.
  repeat split; [constructor | simpl; lia].
Qed.

Lemma advances_trans (k1 k2 : nat) (s1 s2 s3 : state) :
  advances k1 s1 s2 -> advances k2 s2 s3 -> advances (k1 + k2) s1 s3.
Proof.
  intros (Hn1 & Hl1 & sent1 & Hi1 & Hf1 & Hk1) (Hn2 & Hl2 & sent2 & Hi2 & Hf2 & Hk2).
  split; [lia |]. split; [congruence |].
  exists (sent1 ++ sent2)%list. split; [| split].
  - rewrite Hi2, Hi1. now rewrite app_assoc.
  - apply Forall_app. split; [exact Hf1 |].
    eapply Forall_impl; [exact Hf2 |]. intros t Ht. simpl in Ht. lia.
  - rewrite length_app. lia.
Qed.

Lemma advances_weaken (k k' : nat) (s s' : state) :
  (k <= k')%nat -> advances k s s' -> advances k' s s'.
Proof.
  intros Hk (Hn & Hl & sent & Hi & Hf & Hlen).
  split; [exact Hn |]. split; [exact Hl |]. exists sent. repeat split; auto. lia.
Qed.

(** What a sleep does when it is accepted, and when it is. *)
Lemma time_sleep_cases (seconds : float) (s : state) :
  (exists t, seconds = Finite t /\ 0 <= t <= sleep_max /\
             time_sleep sleep_max oversleep seconds s
             = (Ok tt,
                {| now := now s + t + Z.of_N (oversleep (length (trace s)));
                   last_request_time := last_request_time s;
                   trace := Py.append (trace s) (EvSleep t);
                   issued := issued s |})) \/
  (exists e, time_sleep sleep_max oversleep seconds s = (Raise e, s) /\
             (e = ValueError \/ e = OverflowError) /\
             (forall t, seconds = Finite t -> ~ 0 <= t <= sleep_max)).
Proof.
  unfold time_sleep. destruct seconds as [t | | |].
  - destruct (Z.ltb_spec sleep_max (Z.abs t)) as [Hbig | Hfit].
    + right. exists OverflowError. split; [reflexivity |]. split; [now right |].
      intros t' [= <-]. lia.
    + destruct (Z.ltb_spec t 0) as [Hneg | Hpos].
      * right. exists ValueError. split; [reflexivity |]. split; [now left |].
        intros t' [= <-]. lia.
      * left. exists t. split; [reflexivity |]. split; [lia | reflexivity].
  - right. exists OverflowError. split; [reflexivity |]. split; [now right | discriminate].
  - right. exists OverflowError. split; [reflexivity |]. split; [now right | discriminate].
  - right. exists ValueError. split; [reflexivity |]. split; [now left | discriminate].
Qed.

(** Sleeping sends nothing and lasts at least as long as asked. *)
Lemma time_sleep_advances (seconds : float) (s : state) :
  advances 0 s (snd (time_sleep sleep_max oversleep seconds s)) /\
  (fst (time_sleep sleep_max oversleep seconds s) = Ok tt ->
   exists t, seconds = Finite t /\ 0 <= t <= sleep_max /\
             now s + t <= now (snd (time_sleep sleep_max oversleep seconds s))).
Proof.
  destruct (time_sleep_cases seconds s) as [(t & -> & Ht & E) | (e & E & _ & _)];
    rewrite E; cbn [fst snd].
  - split.
    + repeat split; simpl; [lia |].
      exists []. rewrite app_nil_r. repeat split; [constructor | simpl; lia].
    + intros _. exists t. split; [reflexivity |]. split; [exact Ht |]. simpl. lia.
  - split; [apply advances_refl | discriminate].
Qed.

(** One request is sent, at the time of the state it is sent from. *)
Lemma session_get_advances (url : string) (s : state) :
  advances 1 s (snd (session_get server url s)).
Proof.
  unfold session_get. destruct (server (length (issued s))) as [r took]. simpl.
  repeat split; simpl; [lia |].
  exists [now s]. repeat split; [| simpl; lia].
  constructor; [lia | constructor].
Qed.

(** A request always gives a reply, and the loop goes on with it. *)
Lemma bind_session_get {B : Type} (url : string) (f : reply -> M B) (s : state) :
  bind (session_get server url) f s
  = f (fst (server (length (issued s)))) (snd (session_get server url s)).
Proof. unfold bind, session_get. destruct (server (length (issued s))). reflexivity. Qed.

Lemma session_get_sent (url : string) (s : state) :
  issued (snd (session_get server url s)) = (issued s ++ [now s])%list.
Proof. unfold session_get. destruct (server (length (issued s))). reflexivity. Qed.

Lemma bind_advances {A B : Type} (k1 k2 : nat) (m : M A) (f : A -> M B) :
  (forall s, advances k1 s (snd (m s))) ->
  (forall a s, advances k2 s (snd (f a s))) ->
  forall s, advances (k1 + k2) s (snd (bind m f s)).
Proof.
  intros Hm Hf s. unfold bind. specialize (Hm s).
  destruct (m s) as [[a | e] s1]; simpl in *.
  - eapply advances_trans; [exact Hm | apply Hf].
  - eapply advances_weaken; [| exact Hm]. lia.
Qed.

Lemma backoff_sleep_advances (attempt : nat) (s : state) :
  advances 0 s (snd (backoff_sleep delay_seconds sleep_max oversleep attempt s)).
Proof.
  unfold backoff_sleep. change 0%nat with (0 + 0)%nat. apply bind_advances.
  - intros s0. unfold backoff. destruct (float_max_exp <=? attempt)%nat;
      apply advances_refl.
  - intros wait_time s0. apply time_sleep_advances.
Qed.

Lemma optional_sleep_advances (b : bool) (attempt : nat) (s : state) :
  advances 0 s
    (snd ((if b then backoff_sleep delay_seconds sleep_max oversleep attempt
           else ret tt) s)).
Proof. destruct b; [apply backoff_sleep_advances | apply advances_refl]. Qed.

(** The retry loop sends at most as many requests as it has turns, none
    before it starts, and the first of them at once. *)
Lemma attempts_advances (url : string) (remaining attempt : nat)
    (last_exception : option request_exception) (s : state) :
  advances remaining s
    (snd (attempts delay_seconds max_retries sleep_max server oversleep url
            remaining attempt last_exception s)) /\
  (remaining <> 0%nat ->
   exists rest,
     issued (snd (attempts delay_seconds max_retries sleep_max server oversleep url
                    remaining attempt last_exception s))
     = (issued s ++ now s :: rest)%list).
Proof.
  revert attempt last_exception s.
  induction remaining as [| remaining IH]; intros attempt last_exception s.
  - split; [apply advances_refl | contradiction].
  - cbn [attempts]. rewrite !bind_session_get.
    pose proof (session_get_advances url s) as Hget.
    pose proof (session_get_sent url s) as Hsent.
    set (r := fst (server (length (issued s)))).
    set (s1 := snd (session_get server url s)) in *.
    match goal with |- advances _ _ (snd ?c) /\ _ =>
      assert (Hrest : advances remaining s1 (snd c)) end.
    { assert (Hsleep : forall last s0,
                advances remaining s0
                  (snd ((_ <- backoff_sleep delay_seconds sleep_max oversleep attempt ;;
                         attempts delay_seconds max_retries sleep_max server oversleep
                           url remaining (S attempt) last) s0))).
      { intros last s0. change remaining with (0 + remaining)%nat.
        apply bind_advances;
          [intros; apply backoff_sleep_advances | intros; apply IH]. }
      assert (Hopt : forall last s0,
                advances remaining s0
                  (snd ((_ <- (if Z.of_nat attempt <? max_retries - 1
                               then backoff_sleep delay_seconds sleep_max oversleep
                                      attempt
                               else ret tt) ;;
                         attempts delay_seconds max_retries sleep_max server oversleep
                           url remaining (S attempt) last) s0))).
      { intros last s0. change remaining with (0 + remaining)%nat.
        apply bind_advances;
          [intros; apply optional_sleep_advances | intros; apply IH]. }
      destruct r as [status text | | |]; try apply Hsleep; try apply Hopt.
      destruct (status =? 429); [apply Hsleep |].
      destruct (status =? 404); [apply advances_refl |].
      destruct (500 <=? status); [apply Hsleep |].
      destruct (is_error_status status); [apply Hopt |].
      apply advances_refl. }
    split.
    + change (S remaining) with (1 + remaining)%nat.
      eapply advances_trans; [exact Hget | exact Hrest].
    + intros _. destruct Hrest as (_ & _ & sent & Hi & _ & _).
      exists sent. rewrite Hi, Hsent, <- app_assoc. reflexivity.
Qed.

Lemma grows_refl (s : state) : grows s s.
Proof. exists []. now rewrite app_nil_r. Qed.

Lemma grows_trans (s1 s2 s3 : state) : grows s1 s2 -> grows s2 s3 -> grows s1 s3.
Proof.
  intros (e1 & H1) (e2 & H2). exists (e1 ++ e2)%list. now rewrite H2, H1, app_assoc.
Qed.

Lemma bind_grows {A B : Type} (m : M A) (f : A -> M B) :
  (forall s, grows s (snd (m s))) ->
  (forall a s, grows s (snd (f a s))) ->
  forall s, grows s (snd (bind m f s)).
Proof.
  intros Hm Hf s. unfold bind. specialize (Hm s).
  destruct (m s) as [[a | e] s1]; simpl in *; [| exact Hm].
  eapply grows_trans; [exact Hm | apply Hf].
Qed.

Lemma backoff_sleep_grows (attempt : nat) (s : state) :
  grows s (snd (backoff_sleep delay_seconds sleep_max oversleep attempt s)).
Proof.
  unfold backoff_sleep. apply bind_grows.
  - intros s0. unfold backoff. destruct (float_max_exp <=? attempt)%nat; apply grows_refl.
  - intros wait_time s0.
    destruct (time_sleep_cases wait_time s0) as [(t & _ & _ & E) | (e & E & _)];
      rewrite E; cbn [snd]; [| apply grows_refl].
    exists [EvSleep t]. reflexivity.
Qed.

(** The first thing the retry loop does is a request. *)
Lemma attempts_grows (url : string) (remaining attempt : nat)
    (last_exception : option request_exception) (s : state) :
  grows s
    (snd (attempts delay_seconds max_retries sleep_max server oversleep url
            remaining attempt last_exception s)) /\
  (remaining <> 0%nat ->
   exists events,
     trace (snd (attempts delay_seconds max_retries sleep_max server oversleep url
                   remaining attempt last_exception s))
     = (trace s ++ EvGet url :: events)%list).
Proof.
  revert attempt last_exception s.
  induction remaining as [| remaining IH]; intros attempt last_exception s.
  - split; [apply grows_refl | contradiction].
  - cbn [attempts]. rewrite !bind_session_get.
    assert (Hget : trace (snd (session_get server url s))
                   = (trace s ++ [EvGet url])%list).
    { unfold session_get. destruct (server (length (issued s))). reflexivity. }
    set (r := fst (server (length (issued s)))).
    set (s1 := snd (session_get server url s)) in *.
    match goal with |- grows _ (snd ?c) /\ _ =>
      assert (Hrest : grows s1 (snd c)) end.
    { assert (Hsleep : forall last s0,
                grows s0
                  (snd ((_ <- backoff_sleep delay_seconds sleep_max oversleep attempt ;;
                         attempts delay_seconds max_retries sleep_max server oversleep
                           url remaining (S attempt) last) s0))).
      { intros last s0.
        apply bind_grows; [intros; apply backoff_sleep_grows | intros; apply IH]. }
      assert (Hopt : forall last s0,
                grows s0
                  (snd ((_ <- (if Z.of_nat attempt <? max_retries - 1
                               then backoff_sleep delay_seconds sleep_max oversleep
                                      attempt
                               else ret tt) ;;
                         attempts delay_seconds max_retries sleep_max server oversleep
                           url remaining (S attempt) last) s0))).
      { intros last s0. apply bind_grows; [| intros; apply IH].
        intros s2. destruct (Z.of_nat attempt <? max_retries - 1);
          [apply backoff_sleep_grows | apply grows_refl]. }
      destruct r as [status text | | |]; try apply Hsleep; try apply Hopt.
      destruct (status =? 429); [apply Hsleep |].
      destruct (status =? 404); [apply grows_refl |].
      destruct (500 <=? status); [apply Hsleep |].
      destruct (is_error_status status); [apply Hopt |].
      apply grows_refl. }
    destruct Hrest as (events & Hevents).
    split; [| intros _]; exists ([EvGet url] ++ events)%list + exists events;
      rewrite Hevents, Hget, <- app_assoc; reflexivity.
Qed.

(** [_rate_limit] either lets the call through, leaving the clock where
    the delay asks and remembering that time, or fails on a sleep that
    [time.sleep] refuses, with nothing changed. *)
Lemma rate_limit_spec (s : state) :
  (fst (_rate_limit delay_seconds sleep_max oversleep s) = Ok tt /\
   last_request_time (snd (_rate_limit delay_seconds sleep_max oversleep s))
   = now (snd (_rate_limit delay_seconds sleep_max oversleep s)) /\
   now s <= now (snd (_rate_limit delay_seconds sleep_max oversleep s)) /\
   issued (snd (_rate_limit delay_seconds sleep_max oversleep s)) = issued s /\
   (forall d, delay_seconds = Finite d ->
      last_request_time s + d
      <= now (snd (_rate_limit delay_seconds sleep_max oversleep s))) /\
   (less (now s - last_request_time s) delay_seconds = false ->
    now (snd (_rate_limit delay_seconds sleep_max oversleep s)) = now s /\
    trace (snd (_rate_limit delay_seconds sleep_max oversleep s)) = trace s)) \/
  (_rate_limit delay_seconds sleep_max oversleep s = (Raise OverflowError, s) /\
   refused delay_seconds sleep_max s).
Proof.
  unfold _rate_limit, bind, time_time, get_last_request_time, set_last_request_time,
    refused.
  cbn [fst snd].
  destruct delay_seconds as [d | | |]; cbn [less minus].
  - destruct (Z.ltb_spec (now s - last_request_time s) d) as [Hlt | Hge].
    + unfold time_sleep.
      destruct (Z.ltb_spec sleep_max (Z.abs (d - (now s - last_request_time s))))
        as [Hbig | Hfit].
      * right. split; [reflexivity |]. right. exists d. split; [reflexivity | lia].
      * destruct (Z.ltb_spec (d - (now s - last_request_time s)) 0); [lia |].
        left. cbn. repeat split; try lia; try discriminate.
        intros d' [= <-]. lia.
    + left. cbn. repeat split; try lia. intros d' [= <-]. lia.
  - right. split; [reflexivity | now left].
  - left. cbn. repeat split; try lia; discriminate.
  - left. cbn. repeat split; try lia; discriminate.
Qed.

(** C7, as the claim states it, fails: with a delay of 1000 and a
    server that needs 3000 to answer, the first fetch returns at time
    8000, and the second fetch, called at once, sends its request at time
    8000 as well: no time at all lies between the end of the first call
    and the next request. *)
Lemma fetch_gap_counterexample :
  now after_first_fetch = 8000 /\
  issued after_second_fetch = (issued after_first_fetch ++ [8000])%list /\
  ~ (now after_first_fetch + 1000 <= 8000).
Proof. vm_compute. repeat split. intros H. apply H. reflexivity. Qed.

(** C7, amended.  The gap is kept between the points at which the
    rate limiter lets consecutive calls through, not from the end of the
    previous call.  A call to [fetch_problem] that gets past the rate
    limiter remembers a time that is at least [delay_seconds] after the
    time the previous call remembered, when the delay is a number, and
    sends every one of its requests (at most [max_retries]) at or after
    the time it remembers, the first one at that time; when at least the
    delay has passed since the time remembered before, that time is the
    time of the call and the call starts with its request, without any
    wait.  The only other case is that [time.sleep] refuses the wait (an
    infinite delay, or a wait longer than the longest sleep): the call
    then raises [OverflowError] and has sent nothing and remembered
    nothing. *)
Theorem fetch_problem_spacing (contest_id : Z) (problem_index : string) (s : state) :
  let_through delay_seconds max_retries
    (base_url ++ "/problemset/problem/" ++ str_of_Z contest_id ++ "/" ++ problem_index)
    s
    (fetch_problem delay_seconds max_retries sleep_max server oversleep
       contest_id problem_index s).2 \/
  (fetch_problem delay_seconds max_retries sleep_max server oversleep
     contest_id problem_index s = (Raise OverflowError, s) /\
   refused delay_seconds sleep_max s).
Proof.
  unfold fetch_problem, bind.
  destruct (rate_limit_spec s) as [(Hok & Hlast & Hnow & Hi0 & Hgap & Hfree) | [E Href]];
    [| right; rewrite E; split; [reflexivity | exact Href]].
  left.
  destruct (_rate_limit delay_seconds sleep_max oversleep s) as [[[] | e] s1];
    [| discriminate Hok].
  cbn [fst snd] in Hlast, Hnow, Hi0, Hgap, Hfree.
  set (url := (base_url ++ "/problemset/problem/" ++ str_of_Z contest_id
                 ++ "/" ++ problem_index)%string).
  destruct (attempts_advances url (Z.to_nat max_retries) 0 None s1)
    as ((Hn & Hl & sent & Hi & Hf & Hlen) & Hfirst).
  destruct (attempts_grows url (Z.to_nat max_retries) 0 None s1) as (_ & Hevent).
  unfold _retry_request.
  assert (Hgoal : forall s2,
            s2 = snd (attempts delay_seconds max_retries sleep_max server oversleep url
                        (Z.to_nat max_retries) 0 None s1) ->
            let_through delay_seconds max_retries url s s2).
  { intros s2 ->. unfold let_through. rewrite Hl, Hlast.
    split; [exact Hnow |]. split; [exact Hgap |]. split.
    - intros Hless. destruct (Hfree Hless) as (Hsame & Htrace).
      split; [exact Hsame |]. intros Hpos.
      destruct Hevent as (events & Hevents); [lia |].
      exists events. now rewrite Hevents, Htrace.
    - exists sent. split; [congruence |]. split; [exact Hf |]. split; [exact Hlen |].
      intros Hpos. destruct Hfirst as (rest & Hrest); [lia |].
      exists rest. rewrite Hi in Hrest. now apply app_inv_head in Hrest. }
  destruct (attempts delay_seconds max_retries sleep_max server oversleep url
              (Z.to_nat max_retries) 0 None s1) as [[resp | e] s2];
    cbn [fst snd] in *; unfold ret; cbn [fst snd]; now apply Hgoal.
Qed.

(** *** The retry loop *)

(** A 404 ends the call at once, whatever turn it comes in: the request
    of the turn, no sleep, no further turn, and the failure that names the
    page. *)
Lemma attempts_not_found (url text : string) (took : N) (remaining attempt : nat)
    (last_exception : option request_exception) (s : state) :
  server (length (issued s)) = (Response 404 text, took) ->
  attempts delay_seconds max_retries sleep_max server oversleep url (S remaining) attempt
    last_exception s
  = (Raise (ProblemNotFound url),
     {| now := now s + Z.of_N took;
        last_request_time := last_request_time s;
        trace := Py.append (trace s) (EvGet url);
        issued := Py.append (issued s) (now s) |}).
Proof.
  intros Hsrv. cbn [attempts]. unfold bind, session_get. rewrite Hsrv. reflexivity.
Qed.

Lemma retry_not_found (url text : string) (took : N) (s : state) :
  0 < max_retries ->
  server (length (issued s)) = (Response 404 text, took) ->
  _retry_request delay_seconds max_retries sleep_max server oversleep url s
  = (Raise (ProblemNotFound url),
     {| now := now s + Z.of_N took;
        last_request_time := last_request_time s;
        trace := Py.append (trace s) (EvGet url);
        issued := Py.append (issued s) (now s) |}).
Proof.
  intros Hpos Hsrv. unfold _retry_request.
  destruct (Z.to_nat max_retries) as [| n] eqn:En; [lia |].
  now apply (attempts_not_found url text).
Qed.

Lemma session_get_issued (url : string) (s : state) :
  length (issued (snd (session_get server url s))) = S (length (issued s)).
Proof.
  unfold session_get. destruct (server _). simpl. unfold Py.append.
  rewrite length_app. simpl. lia.
Qed.

(** A backoff that [time.sleep] accepts is slept. *)
Lemma backoff_sleep_accepted (d : Z) (n attempt : nat) (s : state) :
  delay_seconds = Finite d -> accepted sleep_max d n -> (attempt < n)%nat ->
  backoff_sleep delay_seconds sleep_max oversleep attempt s
  = (Ok tt,
     {| now := now s + backoff_of d attempt + Z.of_N (oversleep (length (trace s)));
        last_request_time := last_request_time s;
        trace := Py.append (trace s) (EvSleep (backoff_of d attempt));
        issued := issued s |}).
Proof.
  intros Hd (Hpos & Hexp & Hfit) Hlt. unfold backoff_sleep, backoff, bind.
  destruct (Nat.leb_spec float_max_exp attempt) as [Hbig | _]; [lia |].
  unfold ret. rewrite Hd. cbn [times]. fold (backoff_of d attempt).
  assert (H0 : 0 <= backoff_of d attempt).
  { unfold backoff_of. apply Z.mul_nonneg_nonneg; [| exact Hpos].
    apply Z.pow_nonneg. lia. }
  specialize (Hfit attempt Hlt). unfold time_sleep.
  destruct (Z.ltb_spec sleep_max (Z.abs (backoff_of d attempt))); [lia |].
  destruct (Z.ltb_spec (backoff_of d attempt) 0); [lia | reflexivity].
Qed.

(** While every reply is retriable and every backoff is accepted, every
    turn is a request followed by the backoff of the turn,
    [2 ^ attempt * delay_seconds]; when the turns are used up the call
    fails with what the loop remembered, which is nothing at all for a
    status code. *)
Lemma retry_backoff (d : Z) (url : string) (n attempt : nat)
    (last : option request_exception) (s : state) :
  delay_seconds = Finite d -> accepted sleep_max d (attempt + n) ->
  (forall k, retriable (fst (server k))) ->
  fst (attempts delay_seconds max_retries sleep_max server oversleep url n attempt last s)
  = Raise (FailedAfter max_retries (last_cause server (length (issued s)) n last)) /\
  trace (snd (attempts delay_seconds max_retries sleep_max server oversleep url n
                attempt last s))
  = (trace s ++ backoff_trace d url n attempt)%list.
Proof.
  intros Hdelay Hacc Hretry. revert attempt last s Hacc.
  induction n as [| n IH]; intros attempt last s Hacc.
  - cbn. now rewrite app_nil_r.
  - cbn [last_cause backoff_trace].
    remember (attempts delay_seconds max_retries sleep_max server oversleep url (S n)
                attempt last s) as res eqn:Eres.
    cbn [attempts] in Eres. unfold bind at 1 in Eres.
    pose proof (session_get_issued url s) as Hlen.
    assert (Htrace : trace (snd (session_get server url s))
                     = (trace s ++ [EvGet url])%list).
    { unfold session_get. destruct (server _). reflexivity. }
    assert (Hfst : fst (session_get server url s)
                   = Ok (fst (server (length (issued s))))).
    { unfold session_get. destruct (server _). reflexivity. }
    specialize (Hretry (length (issued s))).
    destruct (session_get server url s) as [r1 s1]. cbn [fst snd] in *.
    subst r1.
    assert (Hsleep : forall last',
              fst ((_ <- backoff_sleep delay_seconds sleep_max oversleep attempt ;;
                    attempts delay_seconds max_retries sleep_max server oversleep url n
                      (S attempt) last') s1)
              = Raise (FailedAfter max_retries
                         (last_cause server (S (length (issued s))) n last')) /\
              trace (snd ((_ <- backoff_sleep delay_seconds sleep_max oversleep attempt ;;
                           attempts delay_seconds max_retries sleep_max server oversleep
                             url n (S attempt) last') s1))
              = (trace s ++ EvGet url :: EvSleep (backoff_of d attempt)
                   :: backoff_trace d url n (S attempt))%list).
    { intros last'. unfold bind.
      rewrite (backoff_sleep_accepted d (attempt + S n) attempt s1 Hdelay Hacc)
        by lia.
      match goal with |- context [attempts _ _ _ _ _ _ _ _ _ ?s2] =>
        destruct (IH (S attempt) last' s2) as [E1 E2] end.
      { replace (S attempt + n)%nat with (attempt + S n)%nat by lia. exact Hacc. }
      rewrite E1, E2. cbn [issued trace]. rewrite Hlen, Htrace.
      unfold Py.append. split; [reflexivity |].
      now rewrite <- !app_assoc. }
    destruct (fst (server (length (issued s)))) as [status text | | |];
      cbn [retriable remembered] in *; try contradiction;
      try (subst res; apply Hsleep).
    destruct (Z.eqb_spec status 429); [subst res; apply Hsleep |].
    assert (H500 : 500 <= status) by (destruct Hretry; [contradiction | assumption]).
    destruct (Z.eqb_spec status 404); [lia |].
    destruct (Z.leb_spec 500 status); [subst res; apply Hsleep | lia].
Qed.

(** C6, the defect.  Three turns against a server that answers 429
    every time: three requests, the sleeps 1000, 2000 and 4000 after them,
    and then the failure, whose remembered cause is [None]: the error of
    the exhausted loop carries no cause. *)
Theorem retry_busy_exhausted_no_cause :
  _retry_request (Finite 1000) 3 sleep_limit busy_server punctual "u" fresh
  = (Raise (FailedAfter 3 None),
     {| now := 12000;
        last_request_time := 0;
        trace := [EvGet "u"; EvSleep 1000; EvGet "u"; EvSleep 2000;
                  EvGet "u"; EvSleep 4000];
        issued := [5000; 6000; 8000] |}).
Proof. vm_compute. reflexivity. Qed.

(** A 429 and then a 200: one sleep of [delay_seconds] between the two
    requests, and the page is returned. *)
Example retry_busy_once :
  _retry_request (Finite 1000) 3 sleep_limit busy_once_server punctual "u" fresh
  = (Ok (200, "page"),
     {| now := 6000;
        last_request_time := 0;
        trace := [EvGet "u"; EvSleep 1000; EvGet "u"];
        issued := [5000; 6000] |}).
Proof. vm_compute. reflexivity. Qed.

(** A delay that is infinite passes [Config.validate], and then no
    fetch sends anything: the rate limiter's sleep is refused. *)
Example fetch_infinite_delay :
  fetch_problem Infinity 3 sleep_limit slow_server punctual 1 "A" fresh
  = (Raise OverflowError, fresh).
Proof. reflexivity. Qed.

End Fetcher.

(** ** Rich-text segmentation *)

Section Segmentation.

Import Re ScrapeLeetcodeComplete SegmentSpec.








Lemma take_app_length (a b : string) :
  take (String.length (a ++ b) - String.length b) (a ++ b) = a.
Proof.
  rewrite str_app_length. replace (String.length a + String.length b - String.length b) with (String.length a) by lia.
  induction a as [| c a IH]; [destruct b; reflexivity |].
  rewrite str_app_cons. cbn [String.length take]. now rewrite IH.
Qed.


Lemma m_seq n r1 r2 st k :
  m n (Seq r1 r2) st k = m n r1 st (fun st' => m n r2 st' k).
Proof. reflexivity. Qed.




Lemma search_from_hit n r s st' :
  m n r {| rest := s; group1 := None |} Some = Some st' ->
  search_from n r s = Some {| from_start := s; after := rest st'; group := group1 st' |}.
Proof. intros H. destruct s; cbn [search_from]; now rewrite H. Qed.
















Lemma plus_unfold n r1 st k :
  m n (Plus r1) st k = plus_more n r1 k (String.length (rest st)) st.
Proof. reflexivity. Qed.

Lemma reads_lit (label a : string) : same_text label a -> reads (lit label) a.
Proof.
  unfold same_text. revert a.
  induction label as [| c label IH]; intros [| c' a] H n tail g k;
    try discriminate H.
  - reflexivity.
  - cbn [Py.lower] in H. injection H as Hc Hl.
    cbn [lit]. rewrite m_seq. rewrite str_app_cons. cbn [m rest].
    unfold same_letter. rewrite Hc, Ascii.eqb_refl. cbn [step group1].
    apply (IH a Hl).
Qed.

Lemma reads_seq (r1 r2 : regex) (a1 a2 : string) :
  reads r1 a1 -> reads r2 a2 -> reads (Seq r1 r2) (a1 ++ a2).
Proof.
  intros H1 H2 n tail g k. rewrite m_seq, str_app_assoc, H1. apply H2.
Qed.

(** A greedy [\d+] before a continuation that refuses a digit: it reads
    the whole run of digits. *)
Lemma plus_digit_scan (n : nat) (K : mstate -> option mstate) (ds tail : string) :
  ds <> "" -> all_digits ds = true -> starts_with_digit tail = false ->
  (forall s g, starts_with_digit s = true -> K {| rest := s; group1 := g |} = None) ->
  forall g,
    m n (Plus Digit) {| rest := ds ++ tail; group1 := g |} K
    = K {| rest := tail; group1 := g |}.
Proof.
  intros Hne Hds Htail HK g. rewrite plus_unfold. cbn [rest].
  induction ds as [| d ds IH]; [contradiction |].
  cbn [all_digits] in Hds. apply andb_true_iff in Hds as [Hd Hds].
  rewrite !str_app_cons. cbn [String.length plus_more]. cbn [m rest]. rewrite Hd.
  unfold step. cbn [rest group1].
  assert (Hp : progressed {| rest := String d (ds ++ tail); group1 := g |}
                 {| rest := ds ++ tail; group1 := g |} = true).
  { unfold progressed. cbn [rest String.length]. apply Nat.ltb_lt. lia. }
  rewrite Hp.
  destruct ds as [| d' ds'].
  - rewrite !str_app_nil_l.
    assert (Hnone : forall f, plus_more n Digit K f {| rest := tail; group1 := g |} = None).
    { intros f. destruct f; cbn [plus_more m rest];
        (destruct tail as [| c s]; [reflexivity |]); cbn in Htail; now rewrite Htail. }
    now rewrite Hnone.
  - rewrite (IH ltac:(discriminate) Hds).
    destruct (K {| rest := tail; group1 := g |}) eqn:E; [reflexivity |].
    apply HK. rewrite str_app_cons. cbn [starts_with_digit].
    cbn [all_digits] in Hds. now apply andb_true_iff in Hds as [Hd' _].
Qed.

Lemma same_letter_colon_digit (d : ascii) : is_digit d = true -> same_letter ":" d = false.
Proof.
  intros Hd. unfold same_letter. apply Ascii.eqb_neq. intros E.
  destruct d as [[] [] [] [] [] [] [] []]; vm_compute in Hd, E; congruence.
Qed.

(** [\d+:] reads a run of digits and the colon after it. *)
Lemma reads_digits_colon (ds : string) :
  ds <> "" -> all_digits ds = true ->
  reads (Seq (Plus Digit) (Chr ":")) (ds ++ ":").
Proof.
  intros Hne Hds n tail g k. rewrite m_seq, str_app_assoc.
  rewrite (plus_digit_scan n _ ds (":" ++ tail) Hne Hds eq_refl).
  - rewrite str_app_cons, str_app_nil_l. cbn [m rest].
    unfold same_letter. now rewrite Ascii.eqb_refl.
  - intros s g' Hs. destruct s as [| c s]; [discriminate Hs |]. cbn [m rest].
    cbn in Hs. now rewrite (same_letter_colon_digit c Hs).
Qed.

(** The anchor [Example \d+:] reads the word, a space, a number and a
    colon, in either case. *)
Lemma reads_example_anchor (word ds : string) :
  same_text "Example " word -> ds <> "" -> all_digits ds = true ->
  reads example_anchor (word ++ ds ++ ":").
Proof.
  intros Hw Hne Hds. change example_anchor with
    (Seq (lit "Example ") (Seq (Plus Digit) (Chr ":"))).
  apply reads_seq; [now apply reads_lit | now apply reads_digits_colon].
Qed.





Lemma search_from_skip n r pre s :
  (forall a b, pre = a ++ b -> b <> "" ->
     m n r {| rest := b ++ s; group1 := None |} Some = None) ->
  search_from n r (pre ++ s) = search_from n r s.
Proof.
  induction pre as [| c pre IH]; intros Hskip; [reflexivity |].
  rewrite str_app_cons. cbn [search_from]. rewrite <- str_app_cons.
  rewrite (Hskip "" (String c pre) eq_refl ltac:(discriminate)).
  apply IH. intros a b Hab Hb. apply (Hskip (String c a) b); [| exact Hb].
  rewrite str_app_cons. now rewrite Hab.
Qed.






Lemma suffixes_In (x y : string) : y <> "" -> In y (suffixes (x ++ y)).
Proof.
  intros Hy. induction x as [| c x IH].
  - rewrite str_app_nil_l. destruct y; [contradiction | now left].
  - rewrite str_app_cons. right. exact IH.
Qed.

Lemma nowhere_in_spec (r : regex) (pre tail : string) :
  nowhere_in r pre tail = true ->
  forall x y, pre = x ++ y -> y <> "" -> matches_at r (y ++ tail) = false.
Proof.
  unfold nowhere_in. rewrite forallb_forall. intros H x y -> Hy.
  apply negb_true_iff. apply H. now apply suffixes_In.
Qed.

(** In the text of scenario C the first example anchor is
    [Example 1:], and its block runs up to [Constraints:]. *)
Example scenario_c_first_example :
  first_field example_anchor example_stop scenario_c_text
    "Example 1:"
    (Py.nl ++ "Input: [1,2]" ++ Py.nl ++ "Output: 3" ++ Py.nl)
    ("Constraints:" ++ Py.nl ++ "- 1<=n<=100").
Proof.
  exists "Find X". split; [reflexivity |]. split; [| split; [| split]].
  - apply (reads_example_anchor "Example " "1"); [reflexivity | discriminate | reflexivity].
  - apply nowhere_in_spec. vm_compute. reflexivity.
  - vm_compute. reflexivity.
  - apply nowhere_in_spec. vm_compute. reflexivity.
Qed.

Lemma finditer_first (r : regex) (text : string) (mo : match_obj) :
  search_from (String.length text) r text = Some mo ->
  exists more, finditer r text = mo :: more.
Proof. intros H. unfold finditer. cbn [finditer_from]. rewrite H. eauto. Qed.


Lemma group_free_lit (s : string) : group_free (lit s) = true.
Proof. induction s as [| c s IH]; [reflexivity | exact IH]. Qed.

(** *** Where a pattern matches first *)





(** *** What the anchors read *)













(** *** The description *)


(** *** The example blocks *)








(** *** The fields of a block *)










(** *** The constraints *)






End Segmentation.

(** ** Splitting, joining and trimming *)

Section Text.

Import TextSpec.

Lemma split_not_nil (c : ascii) (s : string) : Py.split c s <> [].
Proof.
  induction s as [| x s IH]; cbn [Py.split]; [discriminate |].
  destruct (Ascii.eqb x c); [discriminate |].
  destruct (Py.split c s); [contradiction | discriminate].
Qed.

(** A text without the separator is one piece. *)
Lemma split_no_sep (c : ascii) (s : string) :
  no_char c s -> Py.split c s = [s].
Proof.
  induction s as [| x s IH]; cbn [Py.split no_char]; [reflexivity |].
  intros [Hx Hs]. rewrite (proj2 (Ascii.eqb_neq x c) Hx), (IH Hs). reflexivity.
Qed.

(** The first separator ends the first piece. *)
Lemma split_app (c : ascii) (a b : string) :
  no_char c a -> Py.split c (a ++ String c b) = a :: Py.split c b.
Proof.
  induction a as [| x a IH]; cbn [no_char].
  - intros _. rewrite str_app_nil_l. cbn [Py.split]. now rewrite Ascii.eqb_refl.
  - intros [Hx Ha]. rewrite str_app_cons. cbn [Py.split].
    rewrite (proj2 (Ascii.eqb_neq x c) Hx), (IH Ha). reflexivity.
Qed.

(** No piece holds the separator. *)
Lemma split_pieces (c : ascii) (s : string) :
  Forall (no_char c) (Py.split c s).
Proof.
  induction s as [| x s IH]; cbn [Py.split].
  - repeat constructor.
  - destruct (Ascii.eqb_spec x c) as [-> | Hx].
    + constructor; [exact I | exact IH].
    + destruct (Py.split c s) as [| p ps]; [repeat constructor; assumption |].
      inversion IH as [| ? ? Hp Hps]; subst.
      constructor; [split; assumption | exact Hps].
Qed.

(** The last piece starts after the last separator. *)
Lemma split_last_app (c : ascii) (a b d : string) :
  List.last (Py.split c (a ++ String c b)) d = List.last (Py.split c b) d.
Proof.
  induction a as [| x a IH].
  - rewrite str_app_nil_l. cbn [Py.split]. rewrite Ascii.eqb_refl.
    pose proof (split_not_nil c b). destruct (Py.split c b); [contradiction | reflexivity].
  - rewrite str_app_cons. cbn [Py.split].
    assert (Hlen : exists p q qs, Py.split c (a ++ String c b) = p :: q :: qs).
    { clear IH. induction a as [| y a IHa].
      - rewrite str_app_nil_l. cbn [Py.split]. rewrite Ascii.eqb_refl.
        pose proof (split_not_nil c b). destruct (Py.split c b) as [| q qs];
          [contradiction | eauto]. 
      - rewrite str_app_cons. cbn [Py.split].
        destruct IHa as (p & q & qs & ->).
        destruct (Ascii.eqb y c); eauto. }
    destruct Hlen as (p & q & qs & E). rewrite E in IH |- *.
    destruct (Ascii.eqb x c); exact IH.
Qed.

(** The first piece is a prefix of the text. *)
Lemma split_hd_prefix (c : ascii) (s : string) :
  exists rest, s = List.hd EmptyString (Py.split c s) ++ rest.
Proof.
  induction s as [| x s IH]; cbn [Py.split].
  - exists "". reflexivity.
  - destruct (Ascii.eqb x c).
    + exists (String x s). reflexivity.
    + destruct IH as (rest & E). pose proof (split_not_nil c s) as Hne.
      destruct (Py.split c s) as [| p ps]; [contradiction |].
      cbn [List.hd] in *. exists rest. rewrite str_app_cons. now rewrite <- E.
Qed.

Lemma no_char_app (c : ascii) (a b : string) :
  no_char c (a ++ b) <-> no_char c a /\ no_char c b.
Proof.
  induction a as [| x a IH].
  - rewrite str_app_nil_l. cbn. tauto.
  - rewrite str_app_cons. cbn [no_char]. tauto.
Qed.

(** Joining pieces that hold no newline and splitting again gives the
    pieces back. *)
Lemma split_join (c : ascii) (pieces : list string) :
  pieces <> [] -> Forall (no_char c) pieces ->
  Py.split c (Py.join (String c "") pieces) = pieces.
Proof.
  intros Hne Hall. induction Hall as [| p ps Hp Hps IH]; [contradiction |].
  destruct ps as [| q qs].
  - cbn [Py.join]. now apply split_no_sep.
  - change (Py.join (String c "") (p :: q :: qs))
      with (p ++ String c "" ++ Py.join (String c "") (q :: qs)).
    rewrite str_app_cons, str_app_nil_l, (split_app c p _ Hp).
    rewrite IH by discriminate. reflexivity.
Qed.

(** *** White space *)

Lemma lstrip_blank (s : string) : Py.lstrip s = "" <-> blank s = true.
Proof.
  induction s as [| x s IH]; cbn [Py.lstrip blank]; [tauto |].
  destruct (Py.is_space x); cbn [andb]; [exact IH |].
  split; discriminate.
Qed.

Lemma rstrip_blank (s : string) : Py.rstrip s = "" <-> blank s = true.
Proof.
  induction s as [| x s IH]; cbn [Py.rstrip blank]; [tauto |].
  destruct (Py.rstrip s) as [| y r] eqn:E.
  - rewrite (proj1 IH eq_refl), andb_true_r.
    destruct (Py.is_space x); split; congruence.
  - assert (Hb : blank s = false).
    { destruct (blank s); [| reflexivity]. discriminate (proj2 IH eq_refl). }
    rewrite Hb, andb_false_r. split; discriminate.
Qed.

Lemma blank_lstrip (s : string) : blank (Py.lstrip s) = blank s.
Proof.
  induction s as [| x s IH]; cbn [Py.lstrip blank]; [reflexivity |].
  destruct (Py.is_space x) eqn:E; cbn [andb]; [exact IH |].
  cbn [blank]. now rewrite E.
Qed.

Lemma blank_rstrip (s : string) : blank (Py.rstrip s) = blank s.
Proof.
  induction s as [| x s IH]; cbn [Py.rstrip blank]; [reflexivity |].
  destruct (Py.rstrip s) as [| y r] eqn:E.
  - rewrite <- IH. cbn [blank]. rewrite andb_true_r.
    destruct (Py.is_space x) eqn:Ex; cbn [blank]; [reflexivity |].
    now rewrite Ex.
  - cbn [blank]. now rewrite <- IH.
Qed.

(** [strip] gives the empty text exactly on blank texts. *)
Lemma strip_blank (s : string) : Py.strip s = "" <-> blank s = true.
Proof.
  unfold Py.strip. rewrite rstrip_blank, blank_lstrip. tauto.
Qed.

Lemma truthy_strip (s : string) : Py.truthy (Py.strip s) = negb (blank s).
Proof.
  destruct (blank s) eqn:E.
  - now rewrite (proj2 (strip_blank s) E).
  - destruct (Py.strip s) eqn:Es; [| reflexivity].
    apply strip_blank in Es. congruence.
Qed.

Lemma rstrip_cons (x : ascii) (s : string) :
  Py.rstrip (String x s)
  = match Py.rstrip s with
    | EmptyString => if Py.is_space x then EmptyString else String x EmptyString
    | r => String x r
    end.
Proof. reflexivity. Qed.

Lemma rstrip_idem (s : string) : Py.rstrip (Py.rstrip s) = Py.rstrip s.
Proof.
  induction s as [| x s IH]; [reflexivity |].
  rewrite (rstrip_cons x s).
  destruct (Py.rstrip s) as [| y r] eqn:E.
  - destruct (Py.is_space x) eqn:Ex; [reflexivity |].
    cbn [Py.rstrip]. now rewrite Ex.
  - rewrite rstrip_cons, IH. reflexivity.
Qed.

(** A text that starts with a visible character keeps its start under
    [rstrip], so [lstrip] has nothing to remove from the result. *)
Lemma lstrip_rstrip_lstrip (s : string) :
  Py.lstrip (Py.rstrip (Py.lstrip s)) = Py.rstrip (Py.lstrip s).
Proof.
  induction s as [| x s IH]; cbn [Py.lstrip]; [reflexivity |].
  destruct (Py.is_space x) eqn:Ex; [exact IH |].
  rewrite rstrip_cons. destruct (Py.rstrip s); rewrite ?Ex; cbn [Py.lstrip]; now rewrite Ex.
Qed.

(** [strip] is idempotent. *)
Lemma strip_idem (s : string) : Py.strip (Py.strip s) = Py.strip s.
Proof.
  unfold Py.strip. rewrite lstrip_rstrip_lstrip. apply rstrip_idem.
Qed.

Lemma no_char_lstrip (c : ascii) (s : string) : no_char c s -> no_char c (Py.lstrip s).
Proof.
  induction s as [| x s IH]; cbn [Py.lstrip no_char]; [tauto |].
  intros [Hx Hs]. destruct (Py.is_space x); [auto | split; assumption].
Qed.

Lemma no_char_rstrip (c : ascii) (s : string) : no_char c s -> no_char c (Py.rstrip s).
Proof.
  induction s as [| x s IH]; cbn [Py.rstrip no_char]; [tauto |].
  intros [Hx Hs]. specialize (IH Hs).
  destruct (Py.rstrip s).
  - destruct (Py.is_space x); cbn [no_char]; tauto.
  - split; assumption.
Qed.

Lemma no_char_strip (c : ascii) (s : string) : no_char c s -> no_char c (Py.strip s).
Proof. intros H. unfold Py.strip. now apply no_char_rstrip, no_char_lstrip. Qed.

End Text.

(** ** The Codeforces API pipeline *)

Section ApiPipeline.

Import PyMongo Builtins SeedProblemsApiPipeline ApiPipelineSpec.

(** The generated description is long enough for the validator whatever
    the metadata: its fixed text alone has more than 500 characters. *)
Lemma generate_description_length (name : string) (tags : list string)
    (rating : option Z) (contest_id : Z) (index : string) :
  500 <= String.length (_generate_description name tags rating contest_id index).
Proof.
  unfold _generate_description, Py.append.
  destruct rating as [r |];
    [destruct (negb (r =? 0)%Z);
       [destruct (r <? 1200)%Z; [| destruct (r <=? 1600)%Z] |] |];
    cbn [app Py.join]; rewrite !str_app_length; cbn [String.length Py.nl]; lia.
Qed.

(** *** Transformed problems and the validator *)

Lemma fields_lookup (pd : problem_data) :
  fields pd !! "title" = Some (title pd) /\
  fields pd !! "description" = Some (description pd) /\
  fields pd !! "difficulty" = Some (difficulty pd) /\
  fields pd !! "externalId" = Some (externalId pd).
Proof. repeat split; reflexivity. Qed.

Lemma api_map_rating_known (rating : option Z) :
  Py.contains ["easy"; "medium"; "hard"] (SeedProblemsApi.map_rating rating) = true.
Proof.
  destruct rating as [r |]; [| reflexivity]. unfold SeedProblemsApi.map_rating.
  destruct (r <? 1200)%Z; [reflexivity |]. destruct (r <=? 1600)%Z; reflexivity.
Qed.

Lemma truthy_app_r (a b : string) : Py.truthy b = true -> Py.truthy (a ++ b) = true.
Proof.
  destruct a as [| c a]; [now rewrite str_app_nil_l | now rewrite str_app_cons].
Qed.

(** What [transform] returns when it returns a record. *)
Lemma transform_some (verbose : bool) (p : Api.problem)
    (st : option Api.problem_statistics) (w w' : world) (pd : problem_data) :
  transform verbose p st w = (Some pd, w') ->
  exists c i,
    Api.contestId p = Some c /\ Api.index p = Some i /\ c <> 0%Z /\ i <> "" /\
    default "PROGRAMMING" (Api.type p) = "PROGRAMMING" /\
    title pd = default "Untitled Problem" (Api.name p) /\
    description pd
    = _generate_description (title pd) (default [] (Api.tags p)) (Api.rating p) c i /\
    difficulty pd = SeedProblemsApi.map_rating (Api.rating p) /\
    externalId pd = SeedProblems.str_of_Z c ++ i /\
    problems w' = problems w.
Proof.
  unfold transform. intros H.
  assert (Hp : forall v m w0, problems (logger_debug v m w0) = problems w0)
    by (intros [] ? ?; reflexivity).
  destruct (String.eqb_spec (default "PROGRAMMING" (Api.type p)) "PROGRAMMING")
    as [Etype | Ntype]; cbn [negb] in H; [| discriminate H].
  destruct (Api.contestId p) as [c |]; [| discriminate H].
  destruct (Api.index p) as [i |]; [| discriminate H].
  destruct (Z.eqb_spec c 0) as [| Hc]; cbn [negb andb] in H; [discriminate H |].
  destruct i as [| x i]; cbn [Py.truthy] in H; [discriminate H |].
  injection H as <- <-. exists c, (String x i). cbn.
  rewrite Hp. repeat split; try reflexivity; try assumption; discriminate.
Qed.

(** X1. A transformed problem can fail validation on its title only: the
    difficulty is one of the three levels, the description is long enough
    and the external id is not empty.  It passes exactly when the title is
    not empty and has at most 200 characters. *)
Theorem api_transform_validate (verbose : bool) (p : Api.problem)
    (st : option Api.problem_statistics) (w w' : world) (pd : problem_data) :
  transform verbose p st w = (Some pd, w') ->
  SeedProblemsApi.validate (fields pd)
  = (Py.truthy (title pd) && (String.length (title pd) <=? 200)%nat,
     app (if Py.truthy (title pd) then [] else ["Missing required field: title"])
         (if (200 <? String.length (title pd))%nat
          then ["Title too long: " ++ Py.str_of_nat (String.length (title pd))
                ++ " chars (maximum 200)"]
          else [])).
Proof.
  intros H. apply transform_some in H.
  destruct H as (c & i & _ & _ & Hc & Hi & _ & _ & Hdesc & Hdiff & Hext & _).
  destruct (fields_lookup pd) as (Lt & Ld & Lf & Le).
  unfold SeedProblemsApi.validate, SeedProblemsApi.missing. cbn [fold_left].
  rewrite Lt, Ld, Lf, Le.
  assert (Edesc : Py.truthy (description pd) = true).
  { pose proof (generate_description_length (title pd) (default [] (Api.tags p))
                  (Api.rating p) c i) as Hlen.
    rewrite <- Hdesc in Hlen. destruct (description pd); [simpl in Hlen; lia | reflexivity]. }
  assert (Edesc' : (String.length (description pd) <? 500)%nat = false).
  { apply Nat.ltb_ge. rewrite Hdesc. apply generate_description_length. }
  assert (Ediff : Py.contains ["easy"; "medium"; "hard"] (difficulty pd) = true)
    by (rewrite Hdiff; apply api_map_rating_known).
  assert (Ediff' : Py.truthy (difficulty pd) = true).
  { rewrite Hdiff. destruct (Api.rating p) as [r |]; [| reflexivity].
    unfold SeedProblemsApi.map_rating.
    destruct (r <? 1200)%Z; [reflexivity |]. destruct (r <=? 1600)%Z; reflexivity. }
  assert (Eext : Py.truthy (externalId pd) = true).
  { rewrite Hext. apply truthy_app_r. destruct i; [contradiction | reflexivity]. }
  rewrite Edesc, Edesc', Ediff, Ediff', Eext. cbn [negb].
  destruct (title pd) as [| x t] eqn:Et; cbn [Py.truthy negb andb String.length].
  - reflexivity.
  - unfold Py.append. cbn [app].
    destruct (Nat.ltb_spec 200 (S (String.length t))) as [Hlong | Hshort].
    + cbn [app length Nat.eqb]. f_equal. symmetry. apply Nat.leb_gt. exact Hlong.
    + cbn [app length Nat.eqb]. f_equal. symmetry. apply Nat.leb_le. exact Hshort.
Qed.

(** X1, witness.  The theorem at problem 4A, which passes. *)
Lemma api_transform_validate_witness :
  exists pd,
    transform false watermelon None (world_of fresh_run) = (Some pd, world_of fresh_run) /\
    title pd = "Watermelon" /\
    SeedProblemsApi.validate (fields pd) = (true, []).
Proof.
  eexists. split; [reflexivity |]. split; [reflexivity |].
  rewrite (api_transform_validate false watermelon None (world_of fresh_run)
             (world_of fresh_run) _ eq_refl).
  reflexivity.
Defined.

(** *** The loop of [main] *)

Section ApiMain.

Variable config : Config.t.
Variable db_client : client.
Variable statistics : gmap string Api.problem_statistics.
Variable percent : nat -> nat -> string.
Variable turns : nat -> turn.

Local Open Scope Z_scope.

Lemma counted_stats (status : string) (w : world) (r : run) :
  status = "success" \/ status = "failed" \/ status = "skipped" ->
  total (stats_of (counted status w r)) = total (stats_of r) + 1 /\
  outcomes (stats_of (counted status w r)) = outcomes (stats_of r) + 1.
Proof.
  unfold outcomes. intros [-> | [-> | ->]]; cbn; lia.
Qed.

(** One turn of the loop counts its problem once, under one of the
    three outcomes. *)
Lemma process_counts (n i : nat) (problem : Api.problem) (r : run) :
  total (stats_of (process config db_client statistics percent turns n i problem r))
  = total (stats_of r) + 1 /\
  outcomes (stats_of (process config db_client statistics percent turns n i problem r))
  = outcomes (stats_of r) + 1.
Proof.
  unfold process.
  destruct (transform _ _ _ _) as [[pd |] w]; [| apply counted_stats; tauto].
  destruct (SeedProblemsApi.validate (fields pd)) as [is_valid errors].
  destruct is_valid; cbn [negb]; [| apply counted_stats; tauto].
  destruct (Config.dry_run config); [cbn [stats_of]; apply counted_stats; tauto |].
  destruct (find_failure (turns i)); [apply counted_stats; tauto |].
  destruct (problem_exists _ _); [apply counted_stats; tauto |].
  destruct (SeedProblemsApi.insert_problem _ _ _ _) as [[result pd'] w'].
  cbn [stats_of].
  destruct result as [inserted |]; [destruct (Py.truthy inserted) |];
    apply counted_stats; tauto.
Qed.

Lemma process_from_counts (n : nat) (problems : list Api.problem) (i : nat) (r : run) :
  total (stats_of (process_from config db_client statistics percent turns n i problems r))
  = total (stats_of r) + Z.of_nat (length problems) /\
  outcomes (stats_of (process_from config db_client statistics percent turns n i problems r))
  = outcomes (stats_of r) + Z.of_nat (length problems).
Proof.
  revert i r. induction problems as [| p ps IH]; intros i r.
  - cbn. lia.
  - cbn [process_from length]. destruct (IH (S i) (process config db_client statistics percent turns n i p r)) as [E1 E2].
    destruct (process_counts n i p r) as [F1 F2]. lia.
Qed.

(** X2. Every selected problem is counted exactly once: the loop raises
    [total] by the number of problems it was given, and the three outcome
    counters together by the same number, so a run that starts from zero
    ends with [total = success + failed + skipped]. *)
Theorem api_main_accounting (problems : list Api.problem) (r : run) :
  let r' := process_all config db_client statistics percent turns problems r in
  let n := Z.of_nat (length (problems_to_process config problems)) in
  total (stats_of r') = total (stats_of r) + n /\
  success (stats_of r') + failed (stats_of r') + skipped (stats_of r')
  = success (stats_of r) + failed (stats_of r) + skipped (stats_of r) + n.
Proof.
  cbv zeta. unfold process_all. apply process_from_counts.
Qed.

(** What the loggers leave alone. *)
Lemma logger_problems (w : world) :
  (forall v msg, problems (logger_debug v msg w) = problems w) /\
  (forall msg, problems (logger_info msg w) = problems w) /\
  (forall msg, problems (logger_warning msg w) = problems w) /\
  (forall msg exc, problems (logger_error msg exc w) = problems w) /\
  (forall i n, problems (progress percent i n w) = problems w).
Proof.
  repeat split; try reflexivity.
  - intros [] ?; reflexivity.
  - intros i n. unfold progress. destruct (_ =? _)%nat; reflexivity.
Qed.

Lemma transform_problems (verbose : bool) (p : Api.problem)
    (st : option Api.problem_statistics) (w : world) :
  problems (transform verbose p st w).2 = problems w.
Proof.
  unfold transform.
  repeat match goal with
         | |- context [if ?b then _ else _] => destruct b
         | |- context [match ?x with Some _ => _ | None => _ end] => destruct x
         end; cbn [snd]; apply logger_problems.
Qed.

(** The dry run leaves the collection as it is. *)
Lemma process_dry (n i : nat) (problem : Api.problem) (r : run) :
  Config.dry_run config = true ->
  problems (world_of (process config db_client statistics percent turns n i problem r))
  = problems (world_of r).
Proof.
  intros Hdry. unfold process. rewrite Hdry.
  pose proof (transform_problems (Config.verbose config) problem
                (statistics !! problem_key (Api.contestId problem) (Api.index problem))
                (world_of r)) as Hw.
  destruct (transform _ _ _ _) as [[pd |] w]; cbn [snd] in Hw; [| exact Hw].
  destruct (SeedProblemsApi.validate (fields pd)) as [is_valid errors].
  destruct is_valid; cbn [negb world_of counted]; [| exact Hw].
  destruct (logger_problems
              (logger_info ("✅ " ++ position i n ++ " Would insert: " ++ title pd
                            ++ " (" ++ difficulty pd ++ ")") w))
    as (_ & _ & _ & _ & Hp).
  rewrite Hp. exact Hw.
Qed.

Lemma fields_no_stamp (pd : problem_data) :
  fields pd !! "createdBy" = None /\ fields pd !! "createdAt" = None /\
  fields pd !! "updatedAt" = None /\ fields pd !! "_id" = None.
Proof. repeat split; reflexivity. Qed.

(** Inserting a transformed problem: nothing is stored and nothing is
    returned, or the document is stored at the end, with the entries of
    the record, signed, and the call returns its id. *)
Lemma api_insert_live (e : env) (pd : problem_data) (w : world) :
  Py.truthy (generated_id e) = true ->
  let '(result, _, w') :=
    SeedProblemsApi.insert_problem db_client e (to_document pd) w in
  (result = None /\ problems w' = problems w) \/
  (exists s d,
     result = Some s /\ Py.truthy s = true /\
     problems w' = (problems w ++ [d])%list /\
     data d = fields pd /\ createdBy d = Some (system_user_id db_client) /\
     existsb (conflicts d) (problems w) = false).
Proof.
  intros Hid. unfold SeedProblemsApi.insert_problem.
  set (doc0 := set_updatedAt (now_second e)
                 (set_createdAt (now_first e)
                    (set_createdBy (system_user_id db_client) (to_document pd)))).
  destruct (fields_no_stamp pd) as (N1 & N2 & N3 & N4).
  assert (Hdata : delete "_id" (data doc0) = fields pd).
  { cbn. rewrite (delete_id (fields pd) "createdBy") by exact N1.
    rewrite (delete_id (fields pd) "createdAt") by exact N2.
    rewrite (delete_id (fields pd) "updatedAt") by exact N3.
    apply delete_id. exact N4. }
  unfold insert_one. change (_id doc0) with (@None ObjectId). cbv iota.
  set (d := set_id (generated_id e) doc0).
  assert (Hd : data d = fields pd) by exact Hdata.
  assert (Hby : createdBy d = Some (system_user_id db_client)) by reflexivity.
  assert (Hoid : default "" (_id d) = generated_id e) by reflexivity.
  clearbody d.
  destruct (failure e) as [err |].
  - left. split; reflexivity.
  - destruct (existsb _ (problems w)) eqn:Econf.
    + left. split; reflexivity.
    + rewrite Hd. destruct (fields_lookup pd) as (Lt & _). rewrite Lt.
      right. exists (default "" (_id d)), d.
      split; [reflexivity |]. split; [now rewrite Hoid |].
      assert (Hp : forall v m w0, problems (logger_debug v m w0) = problems w0)
        by (intros [] ? ?; reflexivity).
      rewrite Hp. cbn [problems with_problems]. unfold Py.append.
      split; [reflexivity |]. split; [exact Hd |]. split; [exact Hby | exact Econf].
Qed.

Lemma api_validate_true (m : gmap string string) (errors : list string) :
  SeedProblemsApi.validate m = (true, errors) -> errors = [].
Proof.
  unfold SeedProblemsApi.validate. intros H. injection H as H1 H2. rewrite <- H2.
  apply Nat.eqb_eq in H1. now apply nil_length_inv.
Qed.

Lemma stores_same (r r' : run) :
  problems (world_of r') = problems (world_of r) ->
  success (stats_of r') = success (stats_of r) ->
  stores db_client r r'.
Proof.
  intros Hp Hs. exists []. rewrite app_nil_r, Hp, Hs.
  repeat split; [simpl; lia | constructor | tauto].
Qed.

Lemma stores_trans (r1 r2 r3 : run) :
  stores db_client r1 r2 -> stores db_client r2 r3 -> stores db_client r1 r3.
Proof.
  intros (a1 & P1 & L1 & F1 & N1) (a2 & P2 & L2 & F2 & N2).
  exists (a1 ++ a2)%list. split; [| split; [| split]].
  - rewrite P2, P1. now rewrite app_assoc.
  - rewrite length_app. lia.
  - now apply Forall_app.
  - tauto.
Qed.

Lemma conflicts_fresh (d : document) (coll : list document) :
  existsb (conflicts d) coll = false ->
  data d !! "externalId" ∉ external_ids coll.
Proof.
  intros Hc Hin. unfold external_ids in Hin.
  apply list_elem_of_fmap in Hin as (d0 & E & Hd0).
  assert (Ht : existsb (conflicts d) coll = true); [| congruence].
  apply existsb_exists. exists d0. split; [now apply list_elem_of_In |].
  unfold conflicts. rewrite (bool_decide_eq_true_2 _ (eq_sym E)). apply orb_true_r.
Qed.

(** One turn of a live run. *)
Lemma process_live (n i : nat) (problem : Api.problem) (r : run) :
  Config.dry_run config = false ->
  Py.truthy (generated_id (insert_env (turns i))) = true ->
  stores db_client r (process config db_client statistics percent turns n i problem r).
Proof.
  intros Hlive Hid. unfold process. rewrite Hlive.
  pose proof (transform_problems (Config.verbose config) problem
                (statistics !! problem_key (Api.contestId problem) (Api.index problem))
                (world_of r)) as Hw.
  destruct (transform _ _ _ _) as [[pd |] w]; cbn [snd] in Hw;
    [| apply stores_same; [exact Hw | reflexivity]].
  destruct (SeedProblemsApi.validate (fields pd)) as [is_valid errors] eqn:Evalid.
  destruct (logger_problems w) as (_ & Hinfo & Hwarn & Herr & _).
  destruct is_valid; cbn [negb];
    [| apply stores_same; [cbn [world_of counted]; now rewrite Hwarn | reflexivity]].
  destruct (find_failure (turns i));
    [apply stores_same; [cbn [world_of counted]; now rewrite Herr | reflexivity] |].
  destruct (problem_exists _ _);
    [apply stores_same; [cbn [world_of counted]; now rewrite Hinfo | reflexivity] |].
  pose proof (api_insert_live (insert_env (turns i)) pd w Hid) as Hins.
  destruct (SeedProblemsApi.insert_problem _ _ _ _) as [[result pd'] w'].
  destruct Hins as [[-> Hp] | (s & d & -> & Hs & Hp & Hd & Hby & Hc)].
  - apply stores_same; [| reflexivity]. cbn [world_of counted].
    destruct (logger_problems w') as (_ & _ & _ & _ & Hprog). rewrite Hprog.
    congruence.
  - rewrite Hs. exists [d]. cbn [world_of stats_of counted].
    destruct (logger_problems
                (logger_info ("✅ " ++ position i n ++ " Inserted: " ++ title pd
                              ++ " (" ++ difficulty pd ++ ")") w'))
      as (_ & _ & _ & _ & Hprog).
    rewrite Hprog. cbn [problems logger_info]. rewrite Hp, Hw.
    split; [reflexivity |]. split; [cbn; lia |]. split.
    + constructor; [| constructor]. split; [| exact Hby].
      rewrite Hd, Evalid. f_equal. now apply (api_validate_true (fields pd)).
    + intros Hnd. unfold external_ids. rewrite map_app.
      apply NoDup_app. split; [exact Hnd |]. split; [| apply NoDup_singleton].
      intros x Hx Hx'. apply list_elem_of_singleton in Hx'. subst x.
      apply (conflicts_fresh d (problems w)); [exact Hc |]. rewrite Hw. exact Hx.
Qed.

Lemma process_from_live (n : nat) (problems : list Api.problem) (i : nat) (r : run) :
  Config.dry_run config = false ->
  (forall k, Py.truthy (generated_id (insert_env (turns k))) = true) ->
  stores db_client r
    (process_from config db_client statistics percent turns n i problems r).
Proof.
  intros Hlive Hid. revert i r.
  induction problems as [| p ps IH]; intros i r.
  - apply stores_same; reflexivity.
  - cbn [process_from]. eapply stores_trans; [| apply IH].
    apply process_live; [exact Hlive | apply Hid].
Qed.

Lemma process_from_dry (n : nat) (problems : list Api.problem) (i : nat) (r : run) :
  Config.dry_run config = true ->
  PyMongo.problems
    (world_of (process_from config db_client statistics percent turns n i problems r))
  = PyMongo.problems (world_of r).
Proof.
  intros Hdry. revert i r.
  induction problems as [| p ps IH]; intros i r; [reflexivity |].
  cbn [process_from]. rewrite IH. now apply process_dry.
Qed.

(** X3. A dry run leaves the collection as it found it. *)
Theorem api_main_dry_run (problems : list Api.problem) (r : run) :
  Config.dry_run config = true ->
  PyMongo.problems
    (world_of (process_all config db_client statistics percent turns problems r))
  = PyMongo.problems (world_of r).
Proof. intros Hdry. unfold process_all. now apply process_from_dry. Qed.

(** X4. A live run only adds to the collection, at its end, exactly as many
    documents as it counts successes; every document it adds passes the
    validator and is signed by the system user; and external ids that
    were pairwise distinct before the run still are after it.  The ids
    the driver generates are not empty. *)
Theorem api_main_stores (problems : list Api.problem) (r : run) :
  Config.dry_run config = false ->
  (forall k, Py.truthy (generated_id (insert_env (turns k))) = true) ->
  stores db_client r
    (process_all config db_client statistics percent turns problems r).
Proof. intros Hlive Hid. unfold process_all. now apply process_from_live. Qed.

End ApiMain.

(** X3, witness.  The dry run over three problems of the API: the collection
    stays empty. *)
Lemma api_main_dry_run_witness :
  let dry := {| Config.mongo_uri := Config.mongo_uri live;
                Config.problem_limit := 100; Config.min_rating := 800;
                Config.max_rating := 2000; Config.dry_run := true;
                Config.verbose := false; Config.log_file := Config.log_file live |} in
  Config.dry_run dry = true /\
  problems (world_of (process_all dry seeder ∅ no_percent calm
                        [watermelon; quiz; unrated] fresh_run))
  = [].
Proof.
  cbv zeta. split; [reflexivity |].
  apply (api_main_dry_run _ seeder ∅ no_percent calm [watermelon; quiz; unrated] fresh_run).
  reflexivity.
Defined.

(** X4, witness.  The live run over the same three problems. *)
Lemma api_main_stores_witness :
  Config.dry_run live = false /\
  (forall k, Py.truthy (generated_id (insert_env (calm k))) = true) /\
  stores seeder fresh_run
    (process_all live seeder ∅ no_percent calm [watermelon; quiz; unrated] fresh_run).
Proof.
  split; [reflexivity |]. split; [intros k; reflexivity |].
  apply (api_main_stores live seeder ∅ no_percent calm); [reflexivity |].
  intros k; reflexivity.
Defined.

(** The same run, evaluated: problem 4A is stored, the quiz is skipped,
    and the unrated problem is not selected at all. *)
Example api_main_three_problems :
  let r := process_all live seeder ∅ no_percent calm [watermelon; quiz; unrated] fresh_run in
  (total (stats_of r), success (stats_of r), failed (stats_of r), skipped (stats_of r))
  = (2, 1, 0, 1)%Z /\
  external_ids (problems (world_of r)) = [Some "4A"] /\
  map snd (log (world_of r)) = ["✅ [1/2] Inserted: Watermelon (easy)"].
Proof. vm_compute. repeat split. Qed.

End ApiPipeline.

(** ** Configurations and counters of the API seeders *)

Section ApiConfig.

Import Builtins.

Local Open Scope Z_scope.

(** What a configuration of seed_problems_api.py that passes meets. *)
Lemma api_config_rules (c : SeedProblemsApiPipeline.Config.t) :
  (SeedProblemsApiPipeline.Config.validate c).1 = true
  <-> ApiPipelineSpec.api_configured c.
Proof.
  unfold SeedProblemsApiPipeline.Config.validate, ApiPipelineSpec.api_configured,
    Py.append.
  destruct (SeedProblemsApiPipeline.Config.mongo_uri c) as [| x u];
    cbn [Py.truthy negb];
    destruct (Z.ltb_spec (SeedProblemsApiPipeline.Config.problem_limit c) 1)
      as [L1 | L1];
    destruct (Z.ltb_spec (SeedProblemsApiPipeline.Config.min_rating c) 0)
      as [L2 | L2];
    destruct (Z.ltb_spec (SeedProblemsApiPipeline.Config.max_rating c)
                (SeedProblemsApiPipeline.Config.min_rating c)) as [L3 | L3];
    cbn [app length Nat.eqb fst];
    (split; [intros Hv; try discriminate Hv; repeat split; try lia; discriminate
            | intros (H1 & H2 & H3 & H4);
              try reflexivity; try lia; try contradiction]).
Qed.

(** The same for seed_leetcode.py. *)
Lemma leetcode_config_rules (c : SeedLeetcodePipeline.Config.t) :
  (SeedLeetcodePipeline.Config.validate c).1 = true
  <-> LeetcodePipelineSpec.leetcode_configured c.
Proof.
  unfold SeedLeetcodePipeline.Config.validate,
    LeetcodePipelineSpec.leetcode_configured, Py.append.
  assert (Hd : truthy_str (SeedLeetcodePipeline.Config.difficulty c)
               && negb (Py.contains ["Easy"; "Medium"; "Hard"]
                          (default "" (SeedLeetcodePipeline.Config.difficulty c)))
               = false
               <-> match SeedLeetcodePipeline.Config.difficulty c with
                   | None => True
                   | Some d => d = "" \/ d = "Easy" \/ d = "Medium" \/ d = "Hard"
                   end).
  { destruct (SeedLeetcodePipeline.Config.difficulty c) as [d |];
      cbn [truthy_str default andb]; [| tauto].
    unfold Py.contains, Datatypes.id. cbn [existsb].
    destruct (String.eqb_spec d "Easy") as [-> | N1]; [cbn; tauto |].
    destruct (String.eqb_spec d "Medium") as [-> | N2]; [cbn; tauto |].
    destruct (String.eqb_spec d "Hard") as [-> | N3]; [cbn; tauto |].
    destruct d as [| x d]; cbn [Py.truthy orb negb andb]; [tauto |].
    split; [discriminate |]. intros [E | [E | [E | E]]];
      [discriminate E | contradiction | contradiction | contradiction]. }
  destruct (truthy_str (SeedLeetcodePipeline.Config.difficulty c)
            && negb (Py.contains ["Easy"; "Medium"; "Hard"]
                       (default "" (SeedLeetcodePipeline.Config.difficulty c))));
    destruct (SeedLeetcodePipeline.Config.mongo_uri c) as [| x u];
    cbn [Py.truthy negb];
    destruct (Z.ltb_spec (SeedLeetcodePipeline.Config.problem_limit c) 1)
      as [L1 | L1];
    cbn [app length Nat.eqb fst];
    (split; [intros Hv; try discriminate Hv; repeat split; try lia;
             try discriminate; apply Hd; reflexivity
            | intros (H1 & H2 & H3);
              try reflexivity; try lia; try contradiction;
              apply Hd in H3; discriminate H3]).
Qed.

(** X5. The two seeders that use an API accept a configuration exactly when
    it meets their rules, and exactly then report no error: for
    seed_problems_api.py a MongoDB address, a limit of at least 1 and a
    rating range that starts at 0 or above and is not empty; for
    seed_leetcode.py an address, a limit of at least 1 and a difficulty
    that is absent, empty or one of Easy, Medium and Hard. *)
Theorem pipeline_configs_validate :
  (forall c : SeedProblemsApiPipeline.Config.t,
     ((SeedProblemsApiPipeline.Config.validate c).1 = true
      <-> ApiPipelineSpec.api_configured c) /\
     ((SeedProblemsApiPipeline.Config.validate c).1 = true
      <-> (SeedProblemsApiPipeline.Config.validate c).2 = [])) /\
  (forall c : SeedLeetcodePipeline.Config.t,
     ((SeedLeetcodePipeline.Config.validate c).1 = true
      <-> LeetcodePipelineSpec.leetcode_configured c) /\
     ((SeedLeetcodePipeline.Config.validate c).1 = true
      <-> (SeedLeetcodePipeline.Config.validate c).2 = [])).
Proof.
  split; intros c; (split; [first [apply api_config_rules | apply leetcode_config_rules] |]).
  - unfold SeedProblemsApiPipeline.Config.validate. cbn [fst snd].
    match goal with |- (Nat.eqb (length ?e) 0 = true) <-> _ => destruct e end;
      cbn; split; intros Hv; try reflexivity; discriminate Hv.
  - unfold SeedLeetcodePipeline.Config.validate. cbn [fst snd].
    match goal with |- (Nat.eqb (length ?e) 0 = true) <-> _ => destruct e end;
      cbn; split; intros Hv; try reflexivity; discriminate Hv.
Qed.

(** *** The selection of [main] *)

Import SeedProblemsApiPipeline ApiPipelineSpec.

(** X6. With a configuration that passes, [main] processes the first
    [problem_limit] problems of the response whose rating lies in the
    range, a problem without a rating counting as rated 0; so a minimum
    rating above 0 keeps the unrated problems out. *)
Theorem api_selection (config : Config.t) (problems : list Api.problem) :
  (Config.validate config).1 = true ->
  let selected := problems_to_process config problems in
  selected = take (Z.to_nat (Config.problem_limit config))
               (List.filter (in_rating_range config) problems) /\
  (length selected <= Z.to_nat (Config.problem_limit config))%nat /\
  Forall (fun p =>
            Config.min_rating config <= default 0 (Api.rating p)
            <= Config.max_rating config) selected /\
  (0 < Config.min_rating config ->
   Forall (fun p => exists r, Api.rating p = Some r /\ 0 < r) selected).
Proof.
  intros Hvalid. cbv zeta.
  apply api_config_rules in Hvalid as (_ & Hlimit & _ & _).
  unfold problems_to_process, slice_to.
  destruct (Z.ltb_spec (Config.problem_limit config) 0) as [Hneg | _]; [lia |].
  split; [reflexivity |]. split; [rewrite length_take; lia |].
  assert (Hrange : Forall (fun p =>
                     Config.min_rating config <= default 0 (Api.rating p)
                     <= Config.max_rating config)
                     (List.filter (in_rating_range config) problems)).
  { apply Forall_forall. intros p Hin.
    apply list_elem_of_In, filter_In in Hin as [_ Hr]. unfold in_rating_range in Hr.
    apply andb_true_iff in Hr as [H1 H2]. apply Z.leb_le in H1, H2.
    cbv zeta in H1, H2. lia. }
  split; [now apply Forall_take |].
  intros Hmin. apply Forall_take. eapply Forall_impl; [exact Hrange |].
  intros p Hp. cbv beta in Hp. destruct (Api.rating p) as [r |];
    cbn [from_option] in Hp; unfold Datatypes.id in Hp.
  - exists r. split; [reflexivity | lia].
  - lia.
Qed.

(** X6, witness.  The theorem at the live configuration and the three
    problems: the unrated one is left out. *)
Lemma api_selection_witness :
  (Config.validate live).1 = true /\
  problems_to_process live [watermelon; quiz; unrated] = [watermelon; quiz].
Proof.
  split; [reflexivity |].
  destruct (api_selection live [watermelon; quiz; unrated] eq_refl) as [E _].
  rewrite E. reflexivity.
Defined.

(** *** The statistics map *)

Lemma statistics_fold (l : list Api.problem_statistics)
    (m : gmap string Api.problem_statistics) (key : string) :
  fold_left
    (fun m p => <[problem_key (Api.stat_contestId p) (Api.stat_index p) := p]> m) l m
  !! key
  = match last (filed_under key l) with
    | Some p => Some p
    | None => m !! key
    end.
Proof.
  revert m. induction l as [| p l IH]; intros m; [reflexivity |].
  cbn [fold_left]. rewrite IH. unfold filed_under. cbn [List.filter].
  destruct (String.eqb_spec (problem_key (Api.stat_contestId p) (Api.stat_index p)) key)
    as [E | N].
  - rewrite last_cons.
    destruct (last (List.filter _ l)); [reflexivity |].
    rewrite E. apply lookup_insert_eq.
  - destruct (last (List.filter _ l)); [reflexivity |].
    now apply lookup_insert_ne.
Qed.

(** X7. The map [main] builds from [problemStatistics] holds, under each
    key, the last entry of the list with that key, and nothing under a
    key no entry has: of two entries for one problem the later one is
    the one [transform] receives. *)
Theorem statistics_map_latest (l : list Api.problem_statistics) (key : string) :
  statistics_map l !! key = last (filed_under key l) /\
  (statistics_map l !! key = None
   <-> Forall (fun p => problem_key (Api.stat_contestId p) (Api.stat_index p) <> key) l).
Proof.
  assert (E : statistics_map l !! key = last (filed_under key l)).
  { unfold statistics_map. rewrite statistics_fold.
    destruct (last (filed_under key l)); [reflexivity | apply lookup_empty]. }
  split; [exact E |]. rewrite E, last_None. unfold filed_under.
  rewrite Forall_forall. split.
  - intros Hnil p Hin Hkey.
    assert (Hp : In p (List.filter
                         (fun p => String.eqb
                                     (problem_key (Api.stat_contestId p) (Api.stat_index p))
                                     key) l)).
    { apply filter_In. split; [now apply list_elem_of_In |]. now apply String.eqb_eq. }
    rewrite Hnil in Hp. destruct Hp.
  - intros Hall.
    destruct (List.filter _ l) as [| p rest] eqn:Ef; [reflexivity |].
    assert (Hp : In p (p :: rest)) by (left; reflexivity).
    rewrite <- Ef in Hp. apply filter_In in Hp as [Hin Hkey].
    apply String.eqb_eq in Hkey. apply list_elem_of_In in Hin.
    destruct (Hall p Hin Hkey).
Qed.

(** *** The counters *)

(** X8. [update_stats] counts every call in [total]; a status other than
    the three it knows changes nothing else, so [total] exceeds the sum
    of the three counters by the number of such calls. *)
Theorem update_stats_tally (statuses : list string) (s : stats) :
  let s' := fold_left (fun s status => update_stats status s) statuses s in
  total s' = total s + Z.of_nat (length statuses) /\
  outcomes s' = outcomes s + Z.of_nat (length (List.filter known_status statuses)).
Proof.
  cbv zeta. revert s. induction statuses as [| status statuses IH]; intros s.
  - cbn. lia.
  - cbn [fold_left List.filter length]. destruct (IH (update_stats status s)) as [E1 E2].
    rewrite E1, E2. unfold update_stats, known_status, outcomes.
    destruct (String.eqb status "success"); cbn [orb];
      [cbn [length total success failed skipped]; lia |].
    destruct (String.eqb status "failed"); cbn [orb];
      [cbn [length total success failed skipped]; lia |].
    destruct (String.eqb status "skipped"); cbn [orb];
      cbn [length total success failed skipped]; lia.
Qed.

End ApiConfig.

(** ** The LeetCode pipeline *)

Section LeetcodePipeline.

Import PyMongo Builtins SeedLeetcodePipeline LeetcodePipelineSpec.

Variable soup_text : string -> string.
Variable markup_error : string.

Lemma backfill_length (desc title difficulty : string) :
  500 <= String.length (SeedLeetcode.backfill desc title difficulty).
Proof.
  unfold SeedLeetcode.backfill, SeedLeetcode._pad_description.
  destruct (Nat.ltb_spec (String.length desc) 500) as [Hlt | Hge]; [| exact Hge].
  destruct (pad_loop_spec (SeedLeetcode.header title difficulty ++ desc
                           ++ SeedLeetcode.footer)) as (k & _ & Hlen & _).
  exact Hlen.
Qed.

(** What [transform_body] returns when it returns a record. *)
Lemma transform_body_record (q : Api.question) (pd : problem_data) :
  transform_body soup_text q = inl pd ->
  (exists d, Api.difficulty q = Value d /\ difficulty pd = Py.lower d) /\
  (exists desc, description pd
                = SeedLeetcode.backfill desc (fmt_str (title pd)) (difficulty pd)) /\
  (exists f, externalId pd = "leetcode_" ++ f) /\
  title pd = match Api.title q with Value t => Some t | _ => None end.
Proof.
  unfold transform_body, subscript. intros H.
  destruct (Api.title q) as [| | t]; try discriminate H;
    destruct (Api.titleSlug q) as [| | ts]; try discriminate H;
    destruct (Api.difficulty q) as [| | d]; try discriminate H;
    destruct (Api.content q) as [| | html]; try discriminate H;
    (destruct (Api.topicTags q) as [| | topic_tags]; try discriminate H;
     [| destruct (tag_names topic_tags); try discriminate H]);
    destruct (Api.questionFrontendId q) as [| | fid]; try discriminate H;
    injection H as <-; cbn;
    (split; [eexists; split; reflexivity |]);
    (split; [eexists; reflexivity |]);
    (split; [eexists; reflexivity | reflexivity]).
Qed.

Lemma leetcode_fields_lookup (pd : problem_data) :
  fields pd !! "title" = title pd /\
  fields pd !! "description" = Some (description pd) /\
  fields pd !! "difficulty" = Some (difficulty pd) /\
  fields pd !! "externalId" = Some (externalId pd).
Proof. unfold fields. destruct (title pd); repeat split; reflexivity. Qed.

(** X9. A transformed problem has a description of at least 500 characters
    and an external id, so it can fail validation on its title and on its
    difficulty only: it passes exactly when the title is a non-empty
    string and the lower-cased difficulty is one of the three levels. *)
Theorem leetcode_transform_validate (verbose : bool) (q : Api.question)
    (w w' : world) (pd : problem_data) :
  transform soup_text markup_error verbose q w = (Some pd, w') ->
  500 <= String.length (description pd) /\
  SeedLeetcode.validate (fields pd)
  = (truthy_str (title pd) && Py.contains levels (difficulty pd),
     app (if truthy_str (title pd) then [] else ["Missing: title"])
       (app (if Py.truthy (difficulty pd) then [] else ["Missing: difficulty"])
          (if Py.contains levels (difficulty pd) then []
           else ["Invalid difficulty: " ++ difficulty pd]))).
Proof.
  unfold transform. intros H.
  destruct (transform_body soup_text q) as [pd0 | e] eqn:Eb; [| discriminate H].
  injection H as -> _.
  destruct (transform_body_record q pd Eb) as (_ & (desc & Hdesc) & (f & Hext) & _).
  assert (Hlen : 500 <= String.length (description pd))
    by (rewrite Hdesc; apply backfill_length).
  split; [exact Hlen |].
  destruct (leetcode_fields_lookup pd) as (Lt & Ld & Lf & Le).
  unfold SeedLeetcode.validate, SeedLeetcode.missing. cbn [fold_left].
  rewrite Lt, Ld, Lf, Le.
  assert (Edesc : Py.truthy (description pd) = true)
    by (destruct (description pd); [simpl in Hlen; lia | reflexivity]).
  assert (Edesc' : (String.length (description pd) <? 500)%nat = false)
    by (now apply Nat.ltb_ge).
  assert (Eext : Py.truthy (externalId pd) = true) by (rewrite Hext; reflexivity).
  rewrite Edesc, Edesc', Eext. cbn [negb]. unfold levels, Py.append.
  destruct (title pd) as [[| x t] |]; cbn [truthy_str Py.truthy negb andb app];
    destruct (difficulty pd) as [| y d] eqn:Ed; cbn [Py.truthy negb app];
    try reflexivity;
    destruct (Py.contains ["easy"; "medium"; "hard"] (String y d));
    reflexivity.
Qed.

(** *** The logger's counters *)

Local Open Scope Z_scope.

(** X10. With a status that is one of the three counters the call counts the
    problem in [total] and under the status, and raises nothing; with any
    other status it raises, unless the status is [total], and the call
    has been counted in [total] all the same. *)
Theorem leetcode_update_stats (status : string) (s : stats) :
  let '(s', raised) := update_stats status s in
  (status = "success" \/ status = "failed" \/ status = "skipped" ->
   raised = None /\ total s' = total s + 1 /\ outcomes s' = outcomes s + 1) /\
  (status <> "success" -> status <> "failed" -> status <> "skipped" ->
   outcomes s' = outcomes s /\
   (status = "total" -> raised = None /\ total s' = total s + 2) /\
   (status <> "total" -> raised <> None /\ total s' = total s + 1)).
Proof.
  unfold update_stats, outcomes.
  destruct (String.eqb_spec status "total") as [-> | Ntotal].
  { cbn. split; [intros [H | [H | H]]; discriminate H |].
    intros _ _ _. split; [lia |]. split; [intros _; split; [reflexivity | lia] |].
    intros H. contradiction. }
  destruct (String.eqb_spec status "success") as [-> | Nsuccess].
  { cbn. split; [intros _; split; [reflexivity | lia] | intros H; contradiction]. }
  destruct (String.eqb_spec status "failed") as [-> | Nfailed].
  { cbn. split; [intros _; split; [reflexivity | lia] | intros _ H; contradiction]. }
  destruct (String.eqb_spec status "skipped") as [-> | Nskipped].
  { cbn. split; [intros _; split; [reflexivity | lia] | intros _ _ H; contradiction]. }
  destruct (String.eqb status "start_time" || String.eqb status "end_time");
    cbn; (split; [intros [H | [H | H]]; contradiction |]);
    intros _ _ _; (split; [lia |]); (split; [intros H; contradiction |]);
    intros _; (split; [discriminate | lia]).
Qed.

(** *** The loop of [main] *)

Section LeetcodeMain.

Variable config : Config.t.
Variable db_client : client.
Variable percent : nat -> nat -> string.
Variable turns : nat -> turn.

Lemma leetcode_counted_stats (status : string) (w : world) (r : run) :
  status = "success" \/ status = "failed" \/ status = "skipped" ->
  total (stats_of (counted status w r)) = total (stats_of r) + 1 /\
  outcomes (stats_of (counted status w r)) = outcomes (stats_of r) + 1.
Proof.
  unfold outcomes. intros [-> | [-> | ->]]; cbn; lia.
Qed.

Lemma leetcode_process_counts (n i : nat) (problem : Api.list_entry) (r : run) :
  let r' := process config db_client soup_text markup_error percent turns n i problem r in
  total (stats_of r') = total (stats_of r) + 1 /\
  outcomes (stats_of r') = outcomes (stats_of r) + 1.
Proof.
  cbv zeta. unfold process, failed_turn.
  destruct (subscript "titleSlug" _) as [title_slug | e];
    [| apply leetcode_counted_stats; tauto].
  destruct (subscript "title" _) as [title | e];
    [| apply leetcode_counted_stats; tauto].
  destruct (fetch_problem_detail _ _ _ _) as [[q |] w];
    [| apply leetcode_counted_stats; tauto].
  destruct (transform _ _ _ _ _) as [[pd |] w1];
    [| apply leetcode_counted_stats; tauto].
  destruct (SeedLeetcode.validate (fields pd)) as [is_valid errors].
  destruct is_valid; cbn [negb]; [| apply leetcode_counted_stats; tauto].
  destruct (Config.dry_run config);
    [cbn [stats_of]; apply leetcode_counted_stats; tauto |].
  destruct (find_failure (turns i)); [apply leetcode_counted_stats; tauto |].
  destruct (problem_exists _ _); [apply leetcode_counted_stats; tauto |].
  destruct (SeedLeetcode.insert_problem _ _ _ _) as [[result pd'] w'].
  cbn [stats_of].
  destruct result as [inserted |]; [destruct (Py.truthy inserted) |];
    apply leetcode_counted_stats; tauto.
Qed.

Lemma leetcode_process_from_counts (n : nat) (problems : list Api.list_entry)
    (i : nat) (r : run) :
  let r' := process_from config db_client soup_text markup_error percent turns
              n i problems r in
  total (stats_of r') = total (stats_of r) + Z.of_nat (length problems) /\
  outcomes (stats_of r') = outcomes (stats_of r) + Z.of_nat (length problems).
Proof.
  cbv zeta. revert i r. induction problems as [| p ps IH]; intros i r.
  - cbn. lia.
  - cbn [process_from length].
    destruct (IH (S i) (process config db_client soup_text markup_error percent
                          turns n i p r)) as [E1 E2].
    destruct (leetcode_process_counts n i p r) as [F1 F2]. lia.
Qed.

(** X11. Every problem of the list is counted exactly once, whatever happens
    to it: [total] grows by the length of the list, and so do the three
    outcome counters together. *)
Theorem leetcode_main_accounting (problems : list Api.list_entry) (r : run) :
  let r' := process_all config db_client soup_text markup_error percent turns problems r in
  let n := Z.of_nat (length problems) in
  total (stats_of r') = total (stats_of r) + n /\
  success (stats_of r') + failed (stats_of r') + skipped (stats_of r')
  = success (stats_of r) + failed (stats_of r) + skipped (stats_of r) + n.
Proof.
  cbv zeta. unfold process_all. apply leetcode_process_from_counts.
Qed.

Lemma leetcode_logger_problems (w : world) :
  (forall v msg, problems (logger_debug v msg w) = problems w) /\
  (forall msg, problems (logger_info msg w) = problems w) /\
  (forall msg, problems (logger_warning msg w) = problems w) /\
  (forall msg exc, problems (logger_error msg exc w) = problems w) /\
  (forall i n, problems (progress percent i n w) = problems w).
Proof.
  repeat split; try reflexivity.
  - intros [] ?; reflexivity.
  - intros i n. unfold progress. destruct (_ =? _)%nat; reflexivity.
Qed.

Lemma leetcode_transform_problems (verbose : bool) (q : Api.question) (w : world) :
  problems (transform soup_text markup_error verbose q w).2 = problems w.
Proof.
  unfold transform. destruct (transform_body soup_text q); cbn [snd];
    apply leetcode_logger_problems.
Qed.

Lemma fetch_problem_detail_problems (verbose : bool) (slug : option string)
    (reply : detail_reply) (w : world) :
  problems (fetch_problem_detail verbose slug reply w).2 = problems w.
Proof.
  unfold fetch_problem_detail. destruct reply; cbn [snd].
  - destruct verbose; reflexivity.
  - destruct verbose; reflexivity.
Qed.

Lemma leetcode_process_dry (n i : nat) (problem : Api.list_entry) (r : run) :
  Config.dry_run config = true ->
  problems (world_of (process config db_client soup_text markup_error percent turns
                        n i problem r))
  = problems (world_of r).
Proof.
  intros Hdry. unfold process, failed_turn. rewrite Hdry.
  destruct (leetcode_logger_problems (world_of r)) as (_ & Hinfo0 & _ & Herr0 & _).
  destruct (subscript "titleSlug" _) as [title_slug | e];
    [| cbn [world_of counted]; apply Herr0].
  destruct (subscript "title" _) as [title | e];
    [| cbn [world_of counted]; apply Herr0].
  match goal with
  | |- context [fetch_problem_detail ?v ?sl ?re ?w0] =>
      pose proof (fetch_problem_detail_problems v sl re w0) as Hf;
      destruct (fetch_problem_detail v sl re w0) as [[q |] w]
  end; cbn [snd] in Hf; rewrite Hinfo0 in Hf; [| exact Hf].
  pose proof (leetcode_transform_problems (Config.verbose config) q w) as Ht.
  destruct (transform _ _ _ _ _) as [[pd |] w1]; cbn [snd] in Ht;
    [| cbn [world_of counted]; congruence].
  destruct (SeedLeetcode.validate (fields pd)) as [is_valid errors].
  destruct (leetcode_logger_problems w1) as (_ & Hinfo & Hwarn & _ & _).
  destruct is_valid; cbn [negb world_of counted]; [| rewrite Hwarn; congruence].
  match goal with
  | |- problems (progress _ _ _ ?w2) = _ =>
      destruct (leetcode_logger_problems w2) as (_ & _ & _ & _ & Hprog)
  end.
  rewrite Hprog, Hinfo. congruence.
Qed.

Lemma leetcode_process_from_dry (n : nat) (problems : list Api.list_entry)
    (i : nat) (r : run) :
  Config.dry_run config = true ->
  PyMongo.problems
    (world_of (process_from config db_client soup_text markup_error percent turns
                 n i problems r))
  = PyMongo.problems (world_of r).
Proof.
  intros Hdry. revert i r.
  induction problems as [| p ps IH]; intros i r; [reflexivity |].
  cbn [process_from]. rewrite IH. now apply leetcode_process_dry.
Qed.

(** X12. A dry run leaves the collection as it found it. *)
Theorem leetcode_main_dry_run (problems : list Api.list_entry) (r : run) :
  Config.dry_run config = true ->
  PyMongo.problems
    (world_of (process_all config db_client soup_text markup_error percent turns
                 problems r))
  = PyMongo.problems (world_of r).
Proof. intros Hdry. unfold process_all. now apply leetcode_process_from_dry. Qed.

Lemma leetcode_fields_no_stamp (pd : problem_data) :
  fields pd !! "createdBy" = None /\ fields pd !! "createdAt" = None /\
  fields pd !! "updatedAt" = None /\ fields pd !! "_id" = None.
Proof. unfold fields. destruct (title pd); repeat split; reflexivity. Qed.

Lemma leetcode_insert_live (e : env) (pd : problem_data) (w : world) :
  Py.truthy (generated_id e) = true ->
  let '(result, _, w') :=
    SeedLeetcode.insert_problem db_client e (to_document pd) w in
  (result = None /\ problems w' = problems w) \/
  (exists s d,
     result = Some s /\ Py.truthy s = true /\
     problems w' = (problems w ++ [d])%list /\
     data d = fields pd /\ createdBy d = Some (system_user_id db_client) /\
     existsb (conflicts d) (problems w) = false).
Proof.
  intros Hid. unfold SeedLeetcode.insert_problem.
  set (doc0 := set_updatedAt (now_second e)
                 (set_createdAt (now_first e)
                    (set_createdBy (system_user_id db_client) (to_document pd)))).
  destruct (leetcode_fields_no_stamp pd) as (N1 & N2 & N3 & N4).
  assert (Hdata : delete "_id" (data doc0) = fields pd).
  { cbn. rewrite (delete_id (fields pd) "createdBy") by exact N1.
    rewrite (delete_id (fields pd) "createdAt") by exact N2.
    rewrite (delete_id (fields pd) "updatedAt") by exact N3.
    apply delete_id. exact N4. }
  unfold insert_one. change (_id doc0) with (@None ObjectId). cbv iota.
  set (d := set_id (generated_id e) doc0).
  assert (Hd : data d = fields pd) by exact Hdata.
  assert (Hby : createdBy d = Some (system_user_id db_client)) by reflexivity.
  assert (Hoid : default "" (_id d) = generated_id e) by reflexivity.
  clearbody d.
  destruct (failure e) as [err |].
  - left. split; reflexivity.
  - destruct (existsb _ (problems w)) eqn:Econf.
    + left. split; reflexivity.
    + right. exists (default "" (_id d)), d.
      split; [reflexivity |]. split; [now rewrite Hoid |].
      cbn [problems with_problems]. unfold Py.append.
      split; [reflexivity |]. split; [exact Hd |]. split; [exact Hby | exact Econf].
Qed.

Lemma leetcode_validate_true (m : gmap string string) (errors : list string) :
  SeedLeetcode.validate m = (true, errors) -> errors = [].
Proof.
  unfold SeedLeetcode.validate. intros H. injection H as H1 H2. rewrite <- H2.
  apply Nat.eqb_eq in H1. now apply nil_length_inv.
Qed.

Lemma leetcode_stores_same (r r' : run) :
  problems (world_of r') = problems (world_of r) ->
  success (stats_of r') = success (stats_of r) ->
  stores db_client r r'.
Proof.
  intros Hp Hs. exists []. rewrite app_nil_r, Hp, Hs.
  repeat split; [simpl; lia | constructor | tauto].
Qed.

Lemma leetcode_stores_trans (r1 r2 r3 : run) :
  stores db_client r1 r2 -> stores db_client r2 r3 -> stores db_client r1 r3.
Proof.
  intros (a1 & P1 & L1 & F1 & N1) (a2 & P2 & L2 & F2 & N2).
  exists (a1 ++ a2)%list. split; [| split; [| split]].
  - rewrite P2, P1. now rewrite app_assoc.
  - rewrite length_app. lia.
  - now apply Forall_app.
  - tauto.
Qed.

Lemma leetcode_conflicts_fresh (d : document) (coll : list document) :
  existsb (conflicts d) coll = false ->
  data d !! "externalId" ∉ external_ids coll.
Proof.
  intros Hc Hin. unfold external_ids in Hin.
  apply list_elem_of_fmap in Hin as (d0 & E & Hd0).
  assert (Ht : existsb (conflicts d) coll = true); [| congruence].
  apply existsb_exists. exists d0. split; [now apply list_elem_of_In |].
  unfold conflicts. rewrite (bool_decide_eq_true_2 _ (eq_sym E)). apply orb_true_r.
Qed.

Lemma leetcode_process_live (n i : nat) (problem : Api.list_entry) (r : run) :
  Config.dry_run config = false ->
  Py.truthy (generated_id (insert_env (turns i))) = true ->
  stores db_client r
    (process config db_client soup_text markup_error percent turns n i problem r).
Proof.
  intros Hlive Hid. unfold process, failed_turn. rewrite Hlive.
  destruct (leetcode_logger_problems (world_of r)) as (_ & Hinfo0 & _ & Herr0 & _).
  destruct (subscript "titleSlug" _) as [title_slug | e];
    [| apply leetcode_stores_same; [cbn [world_of counted]; apply Herr0 | reflexivity]].
  destruct (subscript "title" _) as [title | e];
    [| apply leetcode_stores_same; [cbn [world_of counted]; apply Herr0 | reflexivity]].
  match goal with
  | |- context [fetch_problem_detail ?v ?sl ?re ?w0] =>
      pose proof (fetch_problem_detail_problems v sl re w0) as Hf;
      destruct (fetch_problem_detail v sl re w0) as [[q |] w]
  end; cbn [snd] in Hf; rewrite Hinfo0 in Hf;
    [| apply leetcode_stores_same; [exact Hf | reflexivity]].
  pose proof (leetcode_transform_problems (Config.verbose config) q w) as Ht.
  destruct (transform _ _ _ _ _) as [[pd |] w1]; cbn [snd] in Ht;
    [| apply leetcode_stores_same; [cbn [world_of counted]; congruence | reflexivity]].
  assert (Hw : problems w1 = problems (world_of r)) by congruence.
  destruct (SeedLeetcode.validate (fields pd)) as [is_valid errors] eqn:Evalid.
  destruct (leetcode_logger_problems w1) as (_ & Hinfo & Hwarn & Herr & _).
  destruct is_valid; cbn [negb];
    [| apply leetcode_stores_same;
       [cbn [world_of counted]; now rewrite Hwarn | reflexivity]].
  destruct (find_failure (turns i));
    [apply leetcode_stores_same;
       [cbn [world_of counted]; now rewrite Herr | reflexivity] |].
  destruct (problem_exists _ _);
    [apply leetcode_stores_same;
       [cbn [world_of counted]; now rewrite Hinfo | reflexivity] |].
  pose proof (leetcode_insert_live (insert_env (turns i)) pd w1 Hid) as Hins.
  destruct (SeedLeetcode.insert_problem _ _ _ _) as [[result pd'] w'].
  destruct Hins as [[-> Hp] | (s & d & -> & Hs & Hp & Hd & Hby & Hc)].
  - apply leetcode_stores_same; [| reflexivity]. cbn [world_of counted].
    destruct (leetcode_logger_problems w') as (_ & _ & _ & _ & Hprog). rewrite Hprog.
    congruence.
  - rewrite Hs. exists [d]. cbn [world_of stats_of counted].
    match goal with
    | |- problems (progress _ _ _ ?w2) = _ /\ _ =>
        destruct (leetcode_logger_problems w2) as (_ & _ & _ & _ & Hprog)
    end.
    rewrite Hprog. cbn [problems logger_info]. rewrite Hp, Hw.
    split; [reflexivity |]. split; [cbn; lia |]. split.
    + constructor; [| constructor]. split; [| exact Hby].
      rewrite Hd, Evalid. f_equal. now apply (leetcode_validate_true (fields pd)).
    + intros Hnd. unfold external_ids. rewrite map_app.
      apply NoDup_app. split; [exact Hnd |]. split; [| apply NoDup_singleton].
      intros x Hx Hx'. apply list_elem_of_singleton in Hx'. subst x.
      apply (leetcode_conflicts_fresh d (problems w1)); [exact Hc |].
      rewrite Hw. exact Hx.
Qed.

Lemma leetcode_process_from_live (n : nat) (problems : list Api.list_entry)
    (i : nat) (r : run) :
  Config.dry_run config = false ->
  (forall k, Py.truthy (generated_id (insert_env (turns k))) = true) ->
  stores db_client r
    (process_from config db_client soup_text markup_error percent turns
       n i problems r).
Proof.
  intros Hlive Hid. revert i r.
  induction problems as [| p ps IH]; intros i r.
  - apply leetcode_stores_same; reflexivity.
  - cbn [process_from]. eapply leetcode_stores_trans; [| apply IH].
    apply leetcode_process_live; [exact Hlive | apply Hid].
Qed.

(** X13. A live run only adds to the collection, at its end, exactly as many
    documents as it counts successes; every document it adds passes the
    validator and is signed by the system user; and external ids that
    were pairwise distinct before the run still are after it.  The ids
    the driver generates are not empty. *)
Theorem leetcode_main_stores (problems : list Api.list_entry) (r : run) :
  Config.dry_run config = false ->
  (forall k, Py.truthy (generated_id (insert_env (turns k))) = true) ->
  stores db_client r
    (process_all config db_client soup_text markup_error percent turns problems r).
Proof. intros Hlive Hid. unfold process_all. now apply leetcode_process_from_live. Qed.

End LeetcodeMain.

End LeetcodePipeline.

Section LeetcodePipelineRuns.

Import PyMongo Builtins SeedLeetcodePipeline LeetcodePipelineSpec.

(** X9, witness.  The theorem at the question Two Sum, which passes. *)
Lemma leetcode_transform_validate_witness :
  exists pd,
    transform plain_text "" false two_sum (world_of fresh_run)
    = (Some pd, world_of fresh_run) /\
    500 <= String.length (description pd) /\
    SeedLeetcode.validate (fields pd) = (true, []).
Proof.
  eexists. split; [reflexivity |].
  match goal with
  | |- _ <= String.length (description ?pd) /\ _ =>
      destruct (leetcode_transform_validate plain_text "" false two_sum
                  (world_of fresh_run) (world_of fresh_run) pd eq_refl)
        as [Hlen Hval]
  end.
  split; [exact Hlen |]. rewrite Hval. reflexivity.
Defined.

(** X12, witness.  The dry run over three entries: the collection stays
    empty. *)
Lemma leetcode_main_dry_run_witness :
  Config.dry_run dry = true /\
  problems (world_of (process_all dry seeder plain_text "" no_percent calm
                        [two_sum_entry; lost_entry; broken_entry] fresh_run))
  = [].
Proof.
  split; [reflexivity |].
  apply (leetcode_main_dry_run plain_text "" dry seeder no_percent calm
           [two_sum_entry; lost_entry; broken_entry] fresh_run).
  reflexivity.
Defined.

(** X13, witness.  The live run over the same entries. *)
Lemma leetcode_main_stores_witness :
  Config.dry_run live = false /\
  (forall k, Py.truthy (generated_id (insert_env (calm k))) = true) /\
  stores seeder fresh_run
    (process_all live seeder plain_text "" no_percent calm
       [two_sum_entry; lost_entry; broken_entry] fresh_run).
Proof.
  split; [reflexivity |]. split; [intros k; reflexivity |].
  apply (leetcode_main_stores plain_text "" live seeder no_percent calm);
    [reflexivity |].
  intros k; reflexivity.
Defined.

(** The same run, evaluated: Two Sum is stored, the two other entries
    fail, one at the request and one at its missing slug. *)
Example leetcode_main_three_entries :
  let r := process_all live seeder plain_text "" no_percent calm
             [two_sum_entry; lost_entry; broken_entry] fresh_run in
  (total (stats_of r), success (stats_of r), failed (stats_of r), skipped (stats_of r))
  = (3, 1, 2, 0)%Z /\
  external_ids (problems (world_of r)) = [Some "leetcode_1"] /\
  map snd (log (world_of r))
  = ["[1/3] Fetching: Two Sum";
     "✅ Inserted: Two Sum (easy)";
     "[2/3] Fetching: Lost";
     "Failed to fetch lost: timed out";
     "Error processing problem 3: 'titleSlug'"].
Proof. vm_compute. repeat split. Qed.

End LeetcodePipelineRuns.

(** ** The text of a LeetCode statement *)

Section LeetcodeText.

Import TextSpec SeedLeetcodePipeline.

(** The lines [clean_text] keeps: trimmed, not empty, without a
    newline. *)
Lemma kept_lines (text : string) :
  Forall (fun l => no_char Py.newline l /\ Py.truthy l = true /\ Py.strip l = l)
    (List.filter Py.truthy (map Py.strip (Py.split Py.newline text))).
Proof.
  pose proof (split_pieces Py.newline text) as Hpieces.
  induction Hpieces as [| p ps Hp Hps IH]; cbn [map List.filter]; [constructor |].
  destruct (Py.truthy (Py.strip p)) eqn:E; [| exact IH].
  constructor; [| exact IH].
  split; [now apply no_char_strip |]. split; [exact E | apply strip_idem].
Qed.

(** Cleaning the paragraphs of a cleaned text gives the same lines. *)
Lemma clean_lines_again (lines : list string) :
  Forall (fun l => no_char Py.newline l /\ Py.truthy l = true /\ Py.strip l = l) lines ->
  List.filter Py.truthy
    (map Py.strip (Py.split Py.newline (Py.join (Py.nl ++ Py.nl) lines)))
  = lines.
Proof.
  intros Hall. induction Hall as [| l ls (Hnl & Ht & Hs) Hls IH]; [reflexivity |].
  destruct ls as [| q qs].
  - cbn [Py.join]. rewrite (split_no_sep _ _ Hnl). cbn [map List.filter].
    now rewrite Hs, Ht.
  - change (Py.join (Py.nl ++ Py.nl) (l :: q :: qs))
      with (l ++ String Py.newline
                   (String Py.newline (Py.join (Py.nl ++ Py.nl) (q :: qs)))).
    rewrite (split_app _ _ _ Hnl).
    change (Py.split Py.newline
              (String Py.newline (Py.join (Py.nl ++ Py.nl) (q :: qs))))
      with ("" :: Py.split Py.newline (Py.join (Py.nl ++ Py.nl) (q :: qs))).
    cbn [map List.filter]. rewrite Hs, Ht. change (Py.truthy (Py.strip "")) with false.
    cbv iota. f_equal. exact IH.
Qed.

(** X14. The text [_html_to_markdown] returns is a list of paragraphs
    separated by blank lines, each a single line that is not empty and
    has no white space at either end; cleaning it again changes
    nothing. *)
Theorem html_to_markdown_paragraphs (soup_text : string -> string) (html : string) :
  exists paragraphs,
    _html_to_markdown soup_text html = Py.join (Py.nl ++ Py.nl) paragraphs /\
    Forall (fun l => l <> "" /\ trimmed l /\ no_char Py.newline l) paragraphs /\
    clean_text (_html_to_markdown soup_text html) = _html_to_markdown soup_text html.
Proof.
  unfold _html_to_markdown.
  exists (List.filter Py.truthy (map Py.strip (Py.split Py.newline (soup_text html)))).
  pose proof (kept_lines (soup_text html)) as Hkept.
  split; [reflexivity |]. split.
  - eapply Forall_impl; [exact Hkept |]. intros l (Hnl & Ht & Hs).
    split; [intros ->; discriminate Ht |]. split; [exact Hs | exact Hnl].
  - unfold clean_text at 1 3. f_equal. now apply clean_lines_again.
Qed.

End LeetcodeText.

(** ** The database name *)

Section DatabaseName.

Import TextSpec Builtins.

Lemma last_in {A : Type} (l : list A) (d : A) : l <> [] -> List.last l d ∈ l.
Proof.
  induction l as [| x l IH]; [contradiction |]. intros _.
  destruct l as [| y l]; [left |]. right. apply IH. discriminate.
Qed.

Lemma last_piece_no_sep (c : ascii) (s : string) : no_char c (last_piece c s).
Proof.
  unfold last_piece. pose proof (split_pieces c s) as H.
  rewrite Forall_forall in H. apply H, last_in, split_not_nil.
Qed.

Lemma first_piece_no_sep (c : ascii) (s : string) : no_char c (first_piece c s).
Proof.
  unfold first_piece. pose proof (split_pieces c s) as H.
  pose proof (split_not_nil c s) as Hne.
  destruct (Py.split c s); [contradiction |]. now inversion H.
Qed.

Lemma first_piece_keeps (c d : ascii) (s : string) :
  no_char d s -> no_char d (first_piece c s).
Proof.
  unfold first_piece. intros H. destruct (split_hd_prefix c s) as (rest & E).
  rewrite E in H. now apply no_char_app in H.
Qed.

(** X15. Both seeders take the same database name from the URI.  It is never
    empty and holds neither a slash nor a question mark. *)
Theorem db_name_well_formed (mongo_uri : string) :
  SeedLeetcodePipeline.db_name mongo_uri = SeedProblemsApiPipeline.db_name mongo_uri /\
  SeedProblemsApiPipeline.db_name mongo_uri <> "" /\
  no_char "/" (SeedProblemsApiPipeline.db_name mongo_uri) /\
  no_char "?" (SeedProblemsApiPipeline.db_name mongo_uri).
Proof.
  split; [reflexivity |]. unfold SeedProblemsApiPipeline.db_name.
  destruct (first_piece "?" (last_piece "/" mongo_uri)) as [| x s] eqn:E;
    cbn [Py.truthy].
  - split; [discriminate |]. split; cbn; repeat split; discriminate.
  - rewrite <- E. split; [rewrite E; discriminate |]. split.
    + apply first_piece_keeps, last_piece_no_sep.
    + apply first_piece_no_sep.
Qed.

(** X16. The name is what stands between the last slash of the URI and the
    options, when there is such a name; the options, if any, hold no
    slash. *)
Theorem db_name_of_uri (base name options : string) :
  name <> "" -> no_char "/" name -> no_char "?" name -> no_char "/" options ->
  SeedProblemsApiPipeline.db_name (base ++ "/" ++ name) = name /\
  SeedProblemsApiPipeline.db_name (base ++ "/" ++ name ++ "?" ++ options) = name.
Proof.
  intros Hne Hslash Hq Hopts. unfold SeedProblemsApiPipeline.db_name, last_piece, first_piece.
  rewrite !str_app_cons, !str_app_nil_l, !split_last_app.
  assert (Htruthy : Py.truthy name = true) by (destruct name; [contradiction | reflexivity]).
  split.
  - rewrite (split_no_sep "/" name Hslash). cbn [List.last].
    rewrite (split_no_sep "?" name Hq). cbn [List.hd]. now rewrite Htruthy.
  - rewrite (split_no_sep "/" (name ++ String "?" options)).
    + cbn [List.last]. rewrite (split_app "?" name options Hq). cbn [List.hd].
      now rewrite Htruthy.
    + apply no_char_app. split; [exact Hslash |]. split; [discriminate | exact Hopts].
Qed.

(** X16, witness.  The theorem at the default URI and at one with options. *)
Lemma db_name_of_uri_witness :
  SeedProblemsApiPipeline.db_name "mongodb://localhost:27017/coding-platform"
  = "coding-platform" /\
  SeedProblemsApiPipeline.db_name
    "mongodb://localhost:27017/coding-platform?retryWrites=true"
  = "coding-platform".
Proof.
  apply (db_name_of_uri "mongodb://localhost:27017" "coding-platform" "retryWrites=true").
  - discriminate.
  - cbn. repeat split; discriminate.
  - cbn. repeat split; discriminate.
  - cbn. repeat split; discriminate.
Defined.

(** A URI that ends in a slash falls back to the default name, and a URI
    without a path gives its host and port. *)
Example db_name_edges :
  SeedProblemsApiPipeline.db_name "mongodb://localhost:27017/" = "coding-platform" /\
  SeedProblemsApiPipeline.db_name "mongodb://localhost:27017" = "localhost:27017".
Proof. split; reflexivity. Qed.

End DatabaseName.

(** ** More on the retry loop *)

Section Retry.

Import SeedProblems FetcherSpec RetrySpec.

(** The delay is a number [d] here. *)
Variable d : Z.
Variable max_retries : Z.
Variable sleep_max : Z.
Variable server : nat -> reply * N.
Variable oversleep : nat -> N.

Local Open Scope Z_scope.

Lemma accepted_fewer (n n' : nat) :
  (n' <= n)%nat -> accepted sleep_max d n -> accepted sleep_max d n'.
Proof.
  intros Hle (Hpos & Hexp & Hfit). split; [exact Hpos |]. split; [lia |].
  intros attempt Ha. apply Hfit. lia.
Qed.

(** A backoff sleep that is accepted goes through, and the loop goes on
    after it. *)
Lemma after_backoff {A : Type} (n attempt : nat) (k : M A) (s : state) :
  accepted sleep_max d n -> (attempt < n)%nat ->
  exists s',
    (_ <- backoff_sleep (Finite d) sleep_max oversleep attempt ;; k) s = k s' /\
    trace s' = (trace s ++ [EvSleep (backoff_of d attempt)])%list /\
    issued s' = issued s.
Proof.
  intros Hacc Hlt. unfold bind.
  rewrite (backoff_sleep_accepted (Finite d) sleep_max oversleep d n attempt s
             eq_refl Hacc Hlt).
  eexists. split; [reflexivity |]. split; reflexivity.
Qed.

Lemma after_optional_backoff {A : Type} (b : bool) (n attempt : nat) (k : M A)
    (s : state) :
  accepted sleep_max d n -> (attempt < n)%nat ->
  exists s',
    (_ <- (if b then backoff_sleep (Finite d) sleep_max oversleep attempt else ret tt) ;;
     k) s
    = k s'.
Proof.
  intros Hacc Hlt. destruct b.
  - destruct (after_backoff n attempt k s Hacc Hlt) as (s' & E & _). eauto.
  - exists s. reflexivity.
Qed.

Lemma attempts_expected (url : string) (remaining attempt : nat)
    (last : option request_exception) (s : state) :
  accepted sleep_max d (attempt + remaining) ->
  expected max_retries server url
    (fst (attempts (Finite d) max_retries sleep_max server oversleep url
            remaining attempt last s)).
Proof.
  revert attempt last s. induction remaining as [| remaining IH];
    intros attempt last s Hacc.
  - reflexivity.
  - assert (Hlt : (attempt < attempt + S remaining)%nat) by lia.
    assert (Hnext : accepted sleep_max d (S attempt + remaining))
      by (replace (S attempt + remaining)%nat with (attempt + S remaining)%nat by lia;
          exact Hacc).
    cbn [attempts]. unfold bind at 1, session_get.
    destruct (server (length (issued s))) as [r took] eqn:Eserver.
    destruct r as [status text | | |].
    + destruct (Z.eqb_spec status 429).
      { match goal with |- context [bind ?m ?k ?s0] =>
          destruct (after_backoff _ attempt
                      (attempts (Finite d) max_retries sleep_max server oversleep url
                         remaining (S attempt) last) s0 Hacc Hlt) as (s' & -> & _) end.
        now apply IH. }
      destruct (Z.eqb_spec status 404); [reflexivity |].
      destruct (Z.leb_spec 500 status).
      { match goal with |- context [bind ?m ?k ?s0] =>
          destruct (after_backoff _ attempt
                      (attempts (Finite d) max_retries sleep_max server oversleep url
                         remaining (S attempt) last) s0 Hacc Hlt) as (s' & -> & _) end.
        now apply IH. }
      unfold is_error_status.
      destruct (Z.leb_spec 400 status); cbn [andb].
      { destruct (Z.ltb_spec status 600); [| lia].
        match goal with |- context [bind (if ?b then _ else _) ?k ?s0] =>
          destruct (after_optional_backoff b _ attempt
                      (attempts (Finite d) max_retries sleep_max server oversleep url
                         remaining (S attempt) (Some (ExcHTTPError status))) s0
                      Hacc Hlt)
            as (s' & ->) end.
        now apply IH. }
      cbn. split; [lia | eauto].
    + match goal with |- context [bind ?m ?k ?s0] =>
        destruct (after_backoff _ attempt
                    (attempts (Finite d) max_retries sleep_max server oversleep url
                       remaining (S attempt) (Some ExcTimeout)) s0 Hacc Hlt)
          as (s' & -> & _) end.
      now apply IH.
    + match goal with |- context [bind ?m ?k ?s0] =>
        destruct (after_backoff _ attempt
                    (attempts (Finite d) max_retries sleep_max server oversleep url
                       remaining (S attempt) (Some ExcConnectionError)) s0 Hacc Hlt)
          as (s' & -> & _) end.
      now apply IH.
    + match goal with |- context [bind (if ?b then _ else _) ?k ?s0] =>
        destruct (after_optional_backoff b _ attempt
                    (attempts (Finite d) max_retries sleep_max server oversleep url
                       remaining (S attempt) (Some ExcRequestException)) s0 Hacc Hlt)
          as (s' & ->) end.
      now apply IH.
Qed.

(** X17. When the delay is a number that [time.sleep] accepts, with
    every backoff of the [max_retries] turns, and the clock is not behind
    the time remembered, [fetch_problem] returns the text of a response
    the server gave with a status below 400, or fails in one of two ways:
    the page was not found, or the attempts are used up.  In particular a
    response with an error status is never returned, and no sleep is
    refused. *)
Theorem fetch_problem_outcomes (contest_id : Z) (problem_index : string) (s : state) :
  accepted sleep_max d (Z.to_nat max_retries) ->
  d <= sleep_max ->
  last_request_time s <= now s ->
  fetched max_retries server (problem_url contest_id problem_index)
    (fst (fetch_problem (Finite d) max_retries sleep_max server oversleep
            contest_id problem_index s)).
Proof.
  intros Hacc Hfit Hclock. unfold fetch_problem, bind.
  destruct (rate_limit_spec (Finite d) sleep_max oversleep s)
    as [(Hok & _) | (_ & [Hinf | (d' & [= <-] & Hlong)])];
    [| discriminate Hinf | lia].
  destruct (_rate_limit (Finite d) sleep_max oversleep s) as [[[] | e] s1];
    [| discriminate Hok].
  fold (problem_url contest_id problem_index). unfold _retry_request.
  pose proof (attempts_expected (problem_url contest_id problem_index)
                (Z.to_nat max_retries) 0 None s1 Hacc) as H.
  destruct (attempts _ _ _ _ _ _ _ _ _ s1) as [[[status text] | e] s2];
    cbn [fst snd expected fetched ret] in *.
  - destruct H as (Hlt & k & took & Hk). eauto.
  - exact H.
Qed.

(** One turn that gets a retriable answer: the request, the backoff of
    the turn, and the loop goes on with one turn less. *)
Lemma retriable_turn (url : string) (n remaining attempt : nat)
    (last : option request_exception) (s : state) :
  accepted sleep_max d n -> (attempt < n)%nat ->
  retriable (fst (server (length (issued s)))) ->
  exists s',
    attempts (Finite d) max_retries sleep_max server oversleep url (S remaining)
      attempt last s
    = attempts (Finite d) max_retries sleep_max server oversleep url remaining
        (S attempt) (remembered last (fst (server (length (issued s))))) s' /\
    trace s' = (trace s ++ [EvGet url; EvSleep (backoff_of d attempt)])%list /\
    length (issued s') = S (length (issued s)).
Proof.
  intros Hacc Hlt Hretry. cbn [attempts]. unfold bind at 1, session_get.
  destruct (server (length (issued s))) as [r took]. cbn [fst] in *.
  assert (Hgo : forall last',
            exists s',
              (_ <- backoff_sleep (Finite d) sleep_max oversleep attempt ;;
               attempts (Finite d) max_retries sleep_max server oversleep url remaining
                 (S attempt) last')
                {| now := now s + Z.of_N took;
                   last_request_time := last_request_time s;
                   trace := Py.append (trace s) (EvGet url);
                   issued := Py.append (issued s) (now s) |}
              = attempts (Finite d) max_retries sleep_max server oversleep url remaining
                  (S attempt) last' s' /\
              trace s'
              = (trace s ++ [EvGet url; EvSleep (backoff_of d attempt)])%list /\
              length (issued s') = S (length (issued s))).
  { intros last'.
    match goal with |- context [bind ?m ?k ?s0] =>
      destruct (after_backoff n attempt
                  (attempts (Finite d) max_retries sleep_max server oversleep url
                     remaining (S attempt) last') s0 Hacc Hlt)
        as (s' & E & Ht & Hi) end.
    exists s'. split; [exact E |]. rewrite Ht, Hi. cbn [trace issued]. unfold Py.append.
    rewrite <- app_assoc, length_app. cbn. split; [reflexivity | lia]. }
  destruct r as [status text | | |]; cbn [retriable remembered] in *;
    try contradiction; try apply Hgo.
  destruct (Z.eqb_spec status 429); [apply Hgo |].
  assert (H500 : 500 <= status) by (destruct Hretry; [contradiction | assumption]).
  destruct (Z.eqb_spec status 404); [lia |].
  destruct (Z.leb_spec 500 status); [apply Hgo | lia].
Qed.

Lemma attempts_succeed (url : string) (j : nat) :
  forall (remaining attempt : nat) (last : option request_exception) (s : state)
         (status : Z) (text : string) (took : N),
    (j < remaining)%nat ->
    accepted sleep_max d (attempt + j) ->
    (forall k, (k < j)%nat -> retriable (fst (server (length (issued s) + k)))) ->
    server (length (issued s) + j) = (Response status text, took) ->
    status < 400 ->
    fst (attempts (Finite d) max_retries sleep_max server oversleep url remaining
           attempt last s)
    = Ok (status, text) /\
    trace (snd (attempts (Finite d) max_retries sleep_max server oversleep url
                  remaining attempt last s))
    = (trace s ++ backoff_trace d url j attempt ++ [EvGet url])%list.
Proof.
  induction j as [| j IH];
    intros remaining attempt last s status text took Hj Hacc Hretry Hsrv Hst.
  - destruct remaining as [| remaining]; [lia |].
    rewrite Nat.add_0_r in Hsrv.
    cbn [attempts backoff_trace app]. unfold bind, session_get. rewrite Hsrv.
    destruct (Z.eqb_spec status 429); [lia |].
    destruct (Z.eqb_spec status 404); [lia |].
    destruct (Z.leb_spec 500 status); [lia |].
    unfold is_error_status. destruct (Z.leb_spec 400 status); [lia |].
    cbn. split; reflexivity.
  - destruct remaining as [| remaining]; [lia |].
    assert (H0 : retriable (fst (server (length (issued s))))).
    { rewrite <- (Nat.add_0_r (length (issued s))). apply Hretry. lia. }
    destruct (retriable_turn url (attempt + S j) remaining attempt last s Hacc
                ltac:(lia) H0) as (s' & E & Ht & Hi).
    rewrite E.
    destruct (IH remaining (S attempt)
                (remembered last (fst (server (length (issued s))))) s' status text took)
      as [R1 R2].
    + lia.
    + replace (S attempt + j)%nat with (attempt + S j)%nat by lia. exact Hacc.
    + intros k Hk. rewrite Hi. replace (S (length (issued s)) + k)%nat
        with (length (issued s) + S k)%nat by lia. apply Hretry. lia.
    + rewrite Hi. replace (S (length (issued s)) + j)%nat
        with (length (issued s) + S j)%nat by lia. exact Hsrv.
    + exact Hst.
    + split; [exact R1 |]. rewrite R2, Ht. cbn [backoff_trace].
      rewrite <- !app_assoc. reflexivity.
Qed.

(** X18. With a delay that is a number [d] whose first [j] backoffs
    [time.sleep] accepts, a request that gets [j] retriable answers (429,
    a status of 500 or more, a timeout, a connection error) and then a
    response below 400 returns that response, provided [j < max_retries]:
    before it the loop sent [j] requests and slept [d], [2 d], ...,
    [2^(j-1) d] after them. *)
Theorem retry_succeeds_after (url : string) (j : nat) (s : state)
    (status : Z) (text : string) (took : N) :
  Z.of_nat j < max_retries ->
  accepted sleep_max d j ->
  (forall k, (k < j)%nat -> retriable (fst (server (length (issued s) + k)))) ->
  server (length (issued s) + j) = (Response status text, took) ->
  status < 400 ->
  fst (_retry_request (Finite d) max_retries sleep_max server oversleep url s)
  = Ok (status, text) /\
  trace (snd (_retry_request (Finite d) max_retries sleep_max server oversleep url s))
  = (trace s ++ backoff_trace d url j 0 ++ [EvGet url])%list.
Proof.
  intros Hj Hacc. unfold _retry_request. apply attempts_succeed; [lia | exact Hacc].
Qed.

Lemma slept_app (t1 t2 : list event) : slept (t1 ++ t2) = slept t1 + slept t2.
Proof.
  induction t1 as [| [url | seconds] t1 IH]; cbn [app slept]; lia.
Qed.

Lemma requests_app (t1 t2 : list event) :
  requests (t1 ++ t2) = (requests t1 + requests t2)%nat.
Proof.
  induction t1 as [| [url | seconds] t1 IH]; cbn [app requests]; lia.
Qed.

Lemma backoff_trace_totals (url : string) (n attempt : nat) :
  slept (backoff_trace d url n attempt)
  = (2 ^ Z.of_nat (attempt + n) - 2 ^ Z.of_nat attempt) * d /\
  requests (backoff_trace d url n attempt) = n.
Proof.
  revert attempt. induction n as [| n IH]; intros attempt.
  - cbn [backoff_trace slept requests]. rewrite Nat.add_0_r. split; [lia | reflexivity].
  - cbn [backoff_trace slept requests]. destruct (IH (S attempt)) as [E1 E2].
    rewrite E1, E2. split; [| reflexivity]. unfold backoff_of.
    replace (S attempt + n)%nat with (attempt + S n)%nat by lia.
    rewrite (Nat2Z.inj_succ attempt), Z.pow_succ_r by lia. lia.
Qed.

(** X19. With a delay that is a number [d] whose backoffs [time.sleep]
    accepts for all [max_retries] turns, and with every answer retriable,
    the loop uses all its attempts: it sends [max_retries] requests,
    sleeps after each of them, the last one included,
    [(2 ^ max_retries - 1) * d] in all, and then fails. *)
Theorem retry_exhausted_totals (url : string) (s : state) :
  accepted sleep_max d (Z.to_nat max_retries) ->
  (forall k, retriable (fst (server k))) ->
  let r := _retry_request (Finite d) max_retries sleep_max server oversleep url s in
  let n := Z.to_nat max_retries in
  (exists last, fst r = Raise (FailedAfter max_retries last)) /\
  requests (trace (snd r)) = (requests (trace s) + n)%nat /\
  slept (trace (snd r)) = slept (trace s) + (2 ^ Z.of_nat n - 1) * d.
Proof.
  intros Hacc Hretry. cbv zeta. unfold _retry_request.
  destruct (retry_backoff (Finite d) max_retries sleep_max server oversleep d url
              (Z.to_nat max_retries) 0 None s eq_refl Hacc Hretry) as [E1 E2].
  split; [eauto |]. rewrite E2, slept_app, requests_app.
  destruct (backoff_trace_totals url (Z.to_nat max_retries) 0) as [T1 T2].
  rewrite T1, T2. cbn [Nat.add Z.of_nat]. rewrite Z.pow_0_r. split; reflexivity.
Qed.

End Retry.

Section RetryRuns.

Import SeedProblems FetcherSpec RetrySpec.

Local Open Scope Z_scope.

(** In the examples three backoffs of a delay of 1000 are accepted. *)
Lemma accepted_three : accepted sleep_limit 1000 3.
Proof.
  split; [lia |]. split; [unfold float_max_exp; lia |].
  intros [| [| [| attempt]]] Ha; [vm_compute; discriminate .. | lia].
Defined.

(** X17, witness.  The theorem at problem 1A, a delay of 1000 and the
    server that answers every request. *)
Lemma fetch_problem_outcomes_witness :
  accepted sleep_limit 1000 (Z.to_nat 3) /\
  1000 <= sleep_limit /\
  last_request_time fresh <= now fresh /\
  fetched 3 slow_server (problem_url 1 "A")
    (fst (fetch_problem (Finite 1000) 3 sleep_limit slow_server punctual 1 "A" fresh)).
Proof.
  assert (H1 : 1000 <= sleep_limit) by (vm_compute; discriminate).
  assert (H2 : last_request_time fresh <= now fresh) by (vm_compute; discriminate).
  split; [exact accepted_three |]. split; [exact H1 |]. split; [exact H2 |].
  exact (fetch_problem_outcomes 1000 3 sleep_limit slow_server punctual 1 "A" fresh
           accepted_three H1 H2).
Defined.

(** X18, witness.  Two timeouts, then the page: three requests, and
    sleeps of 1000 and 2000 between them. *)
Lemma retry_succeeds_after_witness :
  accepted sleep_limit 1000 2 /\
  fst (_retry_request (Finite 1000) 3 sleep_limit flaky_server punctual "u" fresh)
  = Ok (200, "page") /\
  trace (snd (_retry_request (Finite 1000) 3 sleep_limit flaky_server punctual "u"
                fresh))
  = [EvGet "u"; EvSleep 1000; EvGet "u"; EvSleep 2000; EvGet "u"].
Proof.
  assert (Hacc : accepted sleep_limit 1000 2).
  { split; [lia |]. split; [unfold float_max_exp; lia |].
    intros [| [| attempt]] Ha; [vm_compute; discriminate .. | lia]. }
  split; [exact Hacc |].
  apply (retry_succeeds_after 1000 3 sleep_limit flaky_server punctual "u" 2 fresh
           200 "page" 100%N).
  - lia.
  - exact Hacc.
  - intros [| [| k]] Hk; [exact I | exact I | lia].
  - reflexivity.
  - lia.
Defined.

(** X19, witness.  Three attempts against the server that always answers
    429: three requests and 7000 asleep. *)
Lemma retry_exhausted_totals_witness :
  accepted sleep_limit 1000 (Z.to_nat 3) /\
  (forall k, retriable (fst (busy_server k))) /\
  requests (trace (snd (_retry_request (Finite 1000) 3 sleep_limit busy_server punctual
                          "u" fresh))) = 3%nat /\
  slept (trace (snd (_retry_request (Finite 1000) 3 sleep_limit busy_server punctual
                       "u" fresh))) = 7000.
Proof.
  split; [exact accepted_three |].
  split; [intros k; left; reflexivity |].
  apply (retry_exhausted_totals 1000 3 sleep_limit busy_server punctual "u" fresh
           accepted_three).
  intros k; left; reflexivity.
Defined.

End RetryRuns.

(** ** The Codeforces page scraper *)

Section CodeforcesFullScraper.

Import Builtins SeedProblems.
Import ScrapeCodeforcesFullRun ScrapeCodeforcesFullSpec RetrySpec.

Variable limit : Z.
Variable min_rating max_rating : option Z.
Variable stats_map : gmap string problem_statistics.
Variable scrape_problem_details : Z -> string -> details * list string.

Local Open Scope Z_scope.

Lemma slept_snoc (t : list event) (e : event) :
  slept (Py.append t e) = slept t + slept [e] /\
  requests (Py.append t e) = (requests t + requests [e])%nat.
Proof.
  unfold Py.append. split.
  - induction t as [| [url | seconds] t IH]; cbn [app slept] in *; lia.
  - induction t as [| [url | seconds] t IH]; cbn [app requests] in *; lia.
Qed.

(** The loop, from any state it can be in: what it adds to the scraped
    problems, and what it adds to the trace. *)
Lemma scrape_loop_result (problems : list problem) (scraped : list full_problem)
    (count : Z) (p : progress) :
  let r := scrape_loop limit stats_map scrape_problem_details problems scraped count p in
  r.1 = (scraped ++ take (Z.to_nat (limit - count))
                      (omap (scraped_of stats_map scrape_problem_details) problems))%list /\
  (requests (trace r.2) <= requests (trace p) + length problems)%nat /\
  slept (trace r.2) - slept (trace p)
  = 2 * (Z.of_nat (requests (trace r.2)) - Z.of_nat (requests (trace p))) /\
  (length r.1 - length scraped <= requests (trace r.2) - requests (trace p))%nat /\
  (requests (trace p) <= requests (trace r.2))%nat.
Proof.
  cbv zeta. revert scraped count p.
  induction problems as [| x xs IH]; intros scraped count p.
  - cbn. rewrite take_nil, app_nil_r. repeat split; lia.
  - cbn [scrape_loop omap list_omap length].
    destruct (Z.leb_spec limit count) as [Hfull | Hroom].
    + replace (Z.to_nat (limit - count)) with 0%nat by lia.
      cbn. rewrite app_nil_r. repeat split; lia.
    + unfold scraped_of at 1.
      assert (Hskip :
        (scrape_loop limit stats_map scrape_problem_details xs scraped count p).1 =
        (scraped ++ take (Z.to_nat (limit - count))
                      (omap (scraped_of stats_map scrape_problem_details) xs))%list /\
        (requests (trace (scrape_loop limit stats_map scrape_problem_details xs
                            scraped count p).2)
         <= requests (trace p) + S (length xs))%nat /\
        slept (trace (scrape_loop limit stats_map scrape_problem_details xs
                        scraped count p).2) - slept (trace p)
        = 2 * (Z.of_nat (requests (trace (scrape_loop limit stats_map
                                            scrape_problem_details xs scraped count p).2))
               - Z.of_nat (requests (trace p))) /\
        (length (scrape_loop limit stats_map scrape_problem_details xs scraped count p).1
         - length scraped
         <= requests (trace (scrape_loop limit stats_map scrape_problem_details xs
                               scraped count p).2) - requests (trace p))%nat /\
        (requests (trace p)
         <= requests (trace (scrape_loop limit stats_map scrape_problem_details xs
                               scraped count p).2))%nat).
      { destruct (IH scraped count p) as (E1 & E2 & E3 & E4 & E5).
        repeat split; [exact E1 | lia | exact E3 | exact E4 | exact E5]. }
      destruct (contestId x) as [contest_id |]; [| exact Hskip].
      destruct (index x) as [index |]; [| exact Hskip].
      destruct (negb (contest_id =? 0) && Py.truthy index); [| exact Hskip].
      clear Hskip.
      destruct (scrape_problem_details contest_id index) as [details printed].
      cbn [fst].
      destruct (truthy_details details).
      * match goal with
        | |- context [scrape_loop _ _ _ xs ?sc ?c ?q] =>
            destruct (IH sc c q) as (E1 & E2 & E3 & E4 & E5);
            destruct (scrape_loop limit stats_map scrape_problem_details xs sc c q)
              as [scraped' p']
        end.
        cbn [fst snd trace happened print] in *.
        repeat match goal with
               | H : context [Py.append (Py.append ?t ?a) ?b] |- _ =>
                   let S1 := fresh in let R1 := fresh in
                   destruct (slept_snoc (Py.append t a) b) as [S1 R1];
                   rewrite ?S1, ?R1 in *; clear S1 R1
               | H : context [trace p] |- _ =>
                   match type of H with
                   | context [Py.append (trace p) ?a] =>
                       let S1 := fresh in let R1 := fresh in
                       destruct (slept_snoc (trace p) a) as [S1 R1];
                       rewrite ?S1, ?R1 in *; clear S1 R1
                   end
               end.
        cbn [slept requests] in *.
        unfold Py.append in E1, E4. rewrite length_app in E4. cbn [length] in E4.
        split.
        { rewrite E1, <- app_assoc. cbn [app]. f_equal.
          replace (Z.to_nat (limit - count))
            with (S (Z.to_nat (limit - (count + 1)))) by lia.
          reflexivity. }
        repeat split; lia.
      * match goal with
        | |- context [scrape_loop _ _ _ xs ?sc ?c ?q] =>
            destruct (IH sc c q) as (E1 & E2 & E3 & E4 & E5);
            destruct (scrape_loop limit stats_map scrape_problem_details xs sc c q)
              as [scraped' p']
        end.
        cbn [fst snd trace happened print] in *.
        repeat match goal with
               | H : context [Py.append (Py.append ?t ?a) ?b] |- _ =>
                   let S1 := fresh in let R1 := fresh in
                   destruct (slept_snoc (Py.append t a) b) as [S1 R1];
                   rewrite ?S1, ?R1 in *; clear S1 R1
               | H : context [trace p] |- _ =>
                   match type of H with
                   | context [Py.append (trace p) ?a] =>
                       let S1 := fresh in let R1 := fresh in
                       destruct (slept_snoc (trace p) a) as [S1 R1];
                       rewrite ?S1, ?R1 in *; clear S1 R1
                   end
               end.
        cbn [slept requests] in *.
        split; [exact E1 |]. repeat split; lia.
Qed.

Lemma scrape_loop_full (problems : list problem) (scraped : list full_problem)
    (count : Z) (p : progress) :
  limit <= count ->
  scrape_loop limit stats_map scrape_problem_details problems scraped count p
  = (scraped, p).
Proof.
  intros Hfull. destruct problems; [reflexivity |]. cbn [scrape_loop].
  now rewrite (proj2 (Z.leb_le limit count) Hfull).
Qed.

Lemma slice_to_length {A : Type} (n : Z) (l : list A) :
  0 <= n -> (length (slice_to n l) <= Z.to_nat n)%nat.
Proof.
  intros Hn. unfold slice_to. destruct (Z.ltb_spec n 0); [lia |].
  rewrite length_take. lia.
Qed.

(** X21. [scrape_problems] looks at the first [2 * limit] problems of the
    list that pass the rating filter and returns the first [limit] of
    them that have an id and whose page gave something: never more than
    [limit] problems, never more than [2 * limit] pages requested, and a
    pause of 2 after every page requested, whether it gave something or
    not. *)
Theorem scrape_problems_bounds (api_problems : list problem)
    (listing_out : list string) :
  let r := scrape_problems limit min_rating max_rating stats_map
             scrape_problem_details api_problems listing_out in
  let candidates := fetch_problem_list (limit * 2) min_rating max_rating api_problems in
  r.1 = take (Z.to_nat limit)
          (omap (scraped_of stats_map scrape_problem_details) candidates) /\
  (length r.1 <= Z.to_nat limit)%nat /\
  (length r.1 <= requests (trace r.2))%nat /\
  (requests (trace r.2) <= Z.to_nat (2 * limit))%nat /\
  slept (trace r.2) = 2 * Z.of_nat (requests (trace r.2)).
Proof.
  cbv zeta. unfold scrape_problems.
  set (candidates := fetch_problem_list (limit * 2) min_rating max_rating api_problems).
  set (p0 := print (rule ++ Py.nl) _).
  assert (Hp0 : trace p0 = []).
  { subst p0. destruct (truthy_int min_rating || truthy_int max_rating); reflexivity. }
  destruct candidates as [| c cs] eqn:Ecand.
  - cbn [truthy_list negb fst snd trace omap list_omap]. rewrite Hp0, take_nil.
    cbn. repeat split; lia.
  - cbn [truthy_list negb]. rewrite <- Ecand.
    set (p1 := print (Py.nl ++ "📚 Scraping detailed information..." ++ Py.nl) _).
    assert (Hp1 : trace p1 = []) by (subst p1; exact Hp0).
    pose proof (scrape_loop_result candidates [] 0 p1) as H. cbv zeta in H.
    pose proof (scrape_loop_full candidates [] 0 p1) as Hfull.
    destruct (scrape_loop limit stats_map scrape_problem_details candidates [] 0 p1)
      as [scraped p2].
    cbn [fst snd trace print] in *. rewrite Hp1 in H. cbn [slept requests app length] in H.
    rewrite Z.sub_0_r in H. destruct H as (E1 & E2 & E3 & E4 & _).
    split; [exact E1 |]. split; [rewrite E1, length_take; lia |].
    split; [lia |]. split; [| lia].
    destruct (Z.le_gt_cases limit 0) as [Hle | Hpos].
    + injection (Hfull Hle) as _ <-. rewrite Hp1. cbn. lia.
    + assert (Hc : (length candidates <= Z.to_nat (limit * 2))%nat).
      { subst candidates. unfold fetch_problem_list. apply slice_to_length. lia. }
      replace (2 * limit) with (limit * 2) by lia. lia.
Qed.

End CodeforcesFullScraper.

(** A limit of 2 over four listed problems, of which the second page
    gives nothing: the first and the third problem are scraped, three
    pages are requested, and the fourth problem is never looked at. *)
Example scrape_problems_four :
  let r := ScrapeCodeforcesFullRun.scrape_problems 2 None None ∅
             ScrapeCodeforcesFullSpec.pages ScrapeCodeforcesFullSpec.listed [] in
  map ScrapeCodeforcesFullRun.fp_name r.1
  = [Some "Watermelon"; Some "Alice, Bob and Chocolate"] /\
  ScrapeCodeforcesFullRun.trace r.2
  = [SeedProblems.EvGet "https://codeforces.com/contest/4/problem/A";
     SeedProblems.EvSleep 2;
     SeedProblems.EvGet "https://codeforces.com/contest/5/problem/B";
     SeedProblems.EvSleep 2;
     SeedProblems.EvGet "https://codeforces.com/contest/6/problem/C";
     SeedProblems.EvSleep 2].
Proof. vm_compute. split; reflexivity. Qed.

(** ** The Codeforces list fetcher *)

Section CodeforcesFetcher.

Import Builtins ScrapeCodeforces ScrapeCodeforcesSpec.

Variable limit : Z.
Variable min_rating max_rating : option Z.
Variable tags : option (list string).
Variable stats_map : gmap string problem_statistics.

Local Open Scope Z_scope.

(** The loop, from any state it can be in. *)
Lemma fetch_loop_result (problems : list problem) (fetched : list problem_data)
    (count : Z) (out : list string) :
  (fetch_loop limit min_rating max_rating tags stats_map problems fetched count out).1
  = (fetched ++ take (Z.to_nat (limit - count))
                  (omap (candidate min_rating max_rating tags stats_map) problems))%list.
Proof.
  revert fetched count out.
  induction problems as [| p ps IH]; intros fetched count out.
  - cbn. rewrite take_nil. now rewrite app_nil_r.
  - cbn [fetch_loop omap list_omap]. destruct (Z.leb_spec limit count) as [Hfull | Hroom].
    + replace (Z.to_nat (limit - count)) with 0%nat by lia.
      cbn. now rewrite app_nil_r.
    + unfold candidate at 1.
      destruct (filtered_out min_rating max_rating tags p); [apply IH |].
      destruct (process_problem p stats_map) as [pd |]; [| apply IH].
      rewrite IH. unfold Py.append. rewrite <- app_assoc. cbn [app]. f_equal.
      replace (Z.to_nat (limit - count)) with (S (Z.to_nat (limit - (count + 1)))) by lia.
      reflexivity.
Qed.

Lemma filtered_out_within (p : problem) (pd : problem_data) :
  filtered_out min_rating max_rating tags p = false ->
  process_problem p stats_map = Some pd ->
  within min_rating max_rating pd.
Proof.
  unfold filtered_out, process_problem. intros Hf Hp.
  assert (Hr : pd_rating pd = rating p).
  { destruct (contestId p) as [c |]; [| discriminate Hp].
    destruct (index p) as [i |]; [| discriminate Hp].
    destruct (negb (c =? 0) && Py.truthy i); [| discriminate Hp].
    injection Hp as <-. reflexivity. }
  unfold within. rewrite Hr. clear Hp Hr.
  destruct (truthy_int min_rating
            && (negb (truthy_int (rating p))
                || (default 0 (rating p) <? default 0 min_rating))) eqn:Emin;
    [discriminate Hf |].
  destruct (truthy_int max_rating
            && (negb (truthy_int (rating p))
                || (default 0 max_rating <? default 0 (rating p)))) eqn:Emax;
    [discriminate Hf |].
  clear Hf. split.
  - intros m -> Hm. cbn [truthy_int default] in Emin.
    destruct (Z.eqb_spec m 0) as [| _]; [contradiction |]. cbn [negb andb] in Emin.
    destruct (rating p) as [r |]; cbn [truthy_int default negb orb] in Emin;
      [| discriminate Emin].
    destruct (Z.eqb_spec r 0); cbn [negb orb] in Emin; [discriminate Emin |].
    exists r. split; [reflexivity |]. split; [assumption |].
    now apply Z.ltb_ge.
  - intros m -> Hm. cbn [truthy_int default] in Emax.
    destruct (Z.eqb_spec m 0) as [| _]; [contradiction |]. cbn [negb andb] in Emax.
    destruct (rating p) as [r |]; cbn [truthy_int default negb orb] in Emax;
      [| discriminate Emax].
    destruct (Z.eqb_spec r 0); cbn [negb orb] in Emax; [discriminate Emax |].
    exists r. split; [reflexivity |]. split; [assumption |].
    now apply Z.ltb_ge.
Qed.

(** X20. [fetch_problems] returns the first [limit] problems of the list, in
    the order of the list, that the filters let through and that have an
    id; so never more than [limit], and none at all when [limit] is zero
    or negative.  A rating bound that is set (and not zero) holds for
    every problem returned, so it keeps unrated problems out. *)
Theorem fetch_problems_result (listed : list problem) (listing_out : list string) :
  let fetched :=
    (fetch_problems limit min_rating max_rating tags stats_map listed listing_out).1 in
  fetched = take (Z.to_nat limit)
              (omap (candidate min_rating max_rating tags stats_map) listed) /\
  (length fetched <= Z.to_nat limit)%nat /\
  Forall (within min_rating max_rating) fetched.
Proof.
  cbv zeta.
  assert (E : (fetch_problems limit min_rating max_rating tags stats_map listed
                 listing_out).1
              = take (Z.to_nat limit)
                  (omap (candidate min_rating max_rating tags stats_map) listed)).
  { unfold fetch_problems. destruct listed as [| p ps];
      [cbn [truthy_list negb fst omap list_omap]; now rewrite take_nil |].
    cbn [truthy_list negb].
    match goal with
    | |- context [fetch_loop _ _ _ _ _ ?l ?f ?c ?o] =>
        pose proof (fetch_loop_result l f c o) as H;
        destruct (fetch_loop limit min_rating max_rating tags stats_map l f c o)
          as [fetched out]
    end.
    cbn [fst] in *. rewrite H. cbn [app]. now rewrite Z.sub_0_r. }
  rewrite E. split; [reflexivity |]. split.
  - rewrite length_take. lia.
  - apply Forall_take. apply Forall_forall. intros pd Hin.
    apply list_elem_of_omap in Hin as (p & _ & Hp). unfold candidate in Hp.
    destruct (filtered_out min_rating max_rating tags p) eqn:Hf; [discriminate Hp |].
    now apply (filtered_out_within p).
Qed.

End CodeforcesFetcher.

(** With a minimum rating of 1000 and a limit of 5, of the three
    problems only the one rated 1500 is fetched; a minimum of zero is no
    filter at all. *)
Example fetch_problems_three :
  map ScrapeCodeforces.pd_name
    (ScrapeCodeforces.fetch_problems 5 (Some 1000%Z) None None ∅
       [ScrapeCodeforcesSpec.watermelon; ScrapeCodeforcesSpec.unrated;
        ScrapeCodeforcesSpec.harder] []).1
  = [Some "Harder"] /\
  map ScrapeCodeforces.pd_name
    (ScrapeCodeforces.fetch_problems 2 (Some 0%Z) None None ∅
       [ScrapeCodeforcesSpec.watermelon; ScrapeCodeforcesSpec.unrated;
        ScrapeCodeforcesSpec.harder] []).1
  = [Some "Watermelon"; Some "Unrated"].
Proof. split; vm_compute; reflexivity. Qed.

(** ** The configuration of the HTML scraper *)

Section SeedConfig.

Import SeedProblemsConfig SeedProblemsSpec.

Local Open Scope Z_scope.

(** X22. [Config.validate] accepts a configuration exactly when it meets the
    six rules, and then reports no error; when it rejects one it reports
    at least one error.  The comparison of the delay is the one of
    floats, so a delay that is not a number is let through. *)
Theorem seed_config_validate (c : t) :
  ((validate c).1 = true <-> well_configured c) /\
  ((validate c).1 = true <-> (validate c).2 = []).
Proof.
  unfold validate, well_configured, Py.append.
  split.
  - destruct (mongo_uri c) as [| x u]; cbn [Py.truthy negb];
      destruct (Z.ltb_spec (problem_start c) 1) as [L1 | L1];
      destruct (Z.ltb_spec (problem_end c) (problem_start c)) as [L2 | L2];
      destruct (float_lt (delay_seconds c) (Finite (QArith_base.Qmake 1 1)));
      destruct (Z.ltb_spec (max_retries c) 1) as [L3 | L3];
      destruct (Z.ltb_spec (max_problems_per_run c) 1) as [L4 | L4];
      cbn [app length Nat.eqb fst];
      (split; [intros Hv; try discriminate Hv; repeat split; try lia; discriminate
              | intros (H1 & H2 & H3 & H4 & H5 & H6);
                try reflexivity; try lia; try discriminate H4; try contradiction]).
  - cbn [fst snd].
    match goal with |- (Nat.eqb (length ?e) 0 = true) <-> _ => destruct e end;
      cbn; split; intros Hv; try reflexivity; discriminate Hv.
Qed.

(** The defaults with a database URI pass; [Config()] alone, whose URI
    is empty, does not; a delay that is not a number passes, and a
    negative number of retries and an empty range are both reported. *)
Example seed_config_defaults :
  validate from_defaults = (true, []) /\
  validate init = (false, ["MONGO_URI is required"]) /\
  validate (not_a_number from_defaults) = (true, []) /\
  validate (backwards from_defaults)
  = (false, ["PROBLEM_END must be >= PROBLEM_START"; "MAX_RETRIES must be >= 1"]).
Proof. repeat split; reflexivity. Qed.

End SeedConfig.

(** ** The Markdown clean-up and the parser's extractors *)

Section SeedParser.

Import TextSpec Builtins SeedProblemsParser SeedProblemsSpec.

(** The lines of the first pass survive the second: a line that has
    lost its trailing white space is empty or has something to show. *)
Lemma rstripped_line_kept (x : string) :
  Py.truthy (Py.strip (Py.rstrip x)) || String.eqb (Py.rstrip x) "" = true.
Proof.
  rewrite truthy_strip, blank_rstrip.
  destruct (blank x) eqn:E; [| reflexivity].
  rewrite (proj2 (rstrip_blank x) E). reflexivity.
Qed.

(** X23. The second pass of the clean-up of [convert] never removes a line:
    after the first pass a line that is all white space has become the
    empty line, which the second pass keeps.  So the clean-up comes to
    trimming every line on the right and then the whole text. *)
Theorem clean_up_second_pass (markdown : string) :
  drop_blank_lines (rstrip_lines markdown) = rstrip_lines markdown /\
  clean_up markdown = Py.strip (rstrip_lines markdown).
Proof.
  assert (H : drop_blank_lines (rstrip_lines markdown) = rstrip_lines markdown).
  { unfold drop_blank_lines, rstrip_lines.
    change Py.nl with (String Py.newline "").
    rewrite split_join.
    - f_equal. induction (Py.split Py.newline markdown) as [| x xs IH]; [reflexivity |].
      cbn [map List.filter]. rewrite rstripped_line_kept. now rewrite IH.
    - pose proof (split_not_nil Py.newline markdown).
      destruct (Py.split Py.newline markdown); [contradiction | discriminate].
    - pose proof (split_pieces Py.newline markdown) as Hp.
      induction Hp as [| x xs Hx Hxs IH]; cbn [map]; constructor;
        [now apply no_char_rstrip | exact IH]. }
  split; [exact H |]. unfold clean_up. now rewrite H.
Qed.

(** *** The title *)

Lemma strip_prefix_app (p s : string) : strip_prefix p (p ++ s) = Some s.
Proof.
  induction p as [| c p IH]; [now rewrite str_app_nil_l; destruct s |].
  rewrite str_app_cons. cbn [strip_prefix]. now rewrite Ascii.eqb_refl.
Qed.

Lemma after_first_dot (a b : string) :
  no_char "." a -> after_first ". " (a ++ ". " ++ b) = Some b.
Proof.
  induction a as [| x a IH]; cbn [no_char].
  - intros _. rewrite str_app_nil_l.
    destruct b; reflexivity.
  - intros [Hx Ha]. rewrite str_app_cons. cbn [after_first strip_prefix].
    rewrite (proj2 (Ascii.eqb_neq "." x)) by congruence.
    now apply IH.
Qed.

(** X24. The index of the problem is cut off the title: of a text that reads
    [index ". " rest] once trimmed, with no dot in the index, the title
    is [rest], dots and all. *)
Theorem extract_title_cuts_index (text a b : string) (contest_id : Z)
    (problem_index : string) :
  Py.strip text = a ++ ". " ++ b -> no_char "." a ->
  _extract_title (Some text) contest_id problem_index = b.
Proof.
  intros Htext Ha. unfold _extract_title. rewrite Htext.
  now rewrite (after_first_dot a b Ha).
Qed.

(** X24, witness.  The theorem at a title whose rest holds dots of its own. *)
Lemma extract_title_cuts_index_witness :
  _extract_title (Some (Py.nl ++ "  A. Mr. Smith and the ... problem ")) 1 "A"
  = "Mr. Smith and the ... problem".
Proof.
  apply (extract_title_cuts_index _ "A" "Mr. Smith and the ... problem").
  - reflexivity.
  - cbn. repeat split; discriminate.
Defined.

(** Without a title block the title is made of the ids; an empty title
    block gives the empty title, not that fallback; and a title without
    [". "] is taken whole. *)
Example extract_title_edges :
  _extract_title None 1 "A" = "Problem 1A" /\
  _extract_title (Some "   ") 1 "A" = "" /\
  _extract_title (Some "Theatre Square") 1 "A" = "Theatre Square".
Proof. repeat split; reflexivity. Qed.

(** *** The rating *)

Lemma no_digit_app (a b : string) : no_digit (a ++ b) = no_digit a && no_digit b.
Proof.
  induction a as [| c a IH]; [now rewrite str_app_nil_l |].
  rewrite str_app_cons. cbn [no_digit]. rewrite IH. now rewrite andb_assoc.
Qed.

(** [\d+] matches nowhere in front of the first digit. *)
Lemma no_digit_skip (n : nat) (pre s : string) :
  no_digit pre = true ->
  Re.search_from n (Re.Plus Re.Digit) (pre ++ s) = Re.search_from n (Re.Plus Re.Digit) s.
Proof.
  intros Hpre. apply search_from_skip. intros a b -> Hb.
  rewrite no_digit_app in Hpre. apply andb_true_iff in Hpre as [_ Hb'].
  destruct b as [| c b]; [contradiction |]. cbn [no_digit] in Hb'.
  apply andb_true_iff in Hb' as [Hc _]. apply negb_true_iff in Hc.
  rewrite plus_unfold, str_app_cons. cbn [Re.rest String.length SegmentSpec.plus_more].
  cbn [Re.m Re.rest]. now rewrite Hc.
Qed.

(** At a run of digits [\d+] takes the whole run. *)
Lemma plus_digit_greedy (n : nat) (ds tail : string) (g : option string) :
  ds <> "" -> SegmentSpec.all_digits ds = true ->
  SegmentSpec.starts_with_digit tail = false ->
  Re.m n (Re.Plus Re.Digit) {| Re.rest := ds ++ tail; Re.group1 := g |} Some
  = Some {| Re.rest := tail; Re.group1 := g |}.
Proof.
  intros Hne Hds Htail. rewrite plus_unfold. cbn [Re.rest].
  induction ds as [| d ds IH]; [contradiction |].
  cbn [SegmentSpec.all_digits] in Hds. apply andb_true_iff in Hds as [Hd Hds].
  rewrite !str_app_cons. cbn [String.length SegmentSpec.plus_more].
  cbn [Re.m Re.rest]. rewrite Hd. unfold Re.step. cbn [Re.rest Re.group1].
  assert (Hp : Re.progressed {| Re.rest := String d (ds ++ tail); Re.group1 := g |}
                 {| Re.rest := ds ++ tail; Re.group1 := g |} = true).
  { unfold Re.progressed. cbn [Re.rest String.length]. apply Nat.ltb_lt. lia. }
  rewrite Hp.
  destruct ds as [| d' ds'].
  - rewrite !str_app_nil_l.
    assert (Hnone : forall f,
              SegmentSpec.plus_more n Re.Digit Some f
                {| Re.rest := tail; Re.group1 := g |} = None).
    { intros f. destruct f; cbn [SegmentSpec.plus_more Re.m Re.rest];
        (destruct tail as [| c s]; [reflexivity |]); cbn in Htail; now rewrite Htail. }
    now rewrite Hnone.
  - now rewrite (IH ltac:(discriminate) Hds).
Qed.

(** X26. The rating is the number the first run of digits of the text
    spells, whatever stands before and after it, as long as the run has
    no more digits than [int] converts; a longer run gives no rating,
    because the [ValueError] of [int] is swallowed. *)
Theorem extract_difficulty_rating_first_number (text pre ds tail : string) :
  Py.strip text = pre ++ ds ++ tail ->
  no_digit pre = true -> ds <> "" -> SegmentSpec.all_digits ds = true ->
  SegmentSpec.starts_with_digit tail = false ->
  _extract_difficulty_rating (Some text)
  = if (int_max_str_digits <? String.length ds)%nat then None
    else Some (int_of_digits ds).
Proof.
  intros Htext Hpre Hne Hds Htail. unfold _extract_difficulty_rating, Re.search.
  rewrite Htext. rewrite (no_digit_skip _ pre (ds ++ tail) Hpre).
  rewrite (search_from_hit _ _ _ _ (plus_digit_greedy _ ds tail None Hne Hds Htail)).
  unfold group_0. cbn [Re.from_start Re.after Re.rest]. rewrite take_app_length.
  unfold int_. destruct (int_max_str_digits <? String.length ds)%nat; reflexivity.
Qed.

(** X26, witness.  The theorem at a text with a second number after the
    rating. *)
Lemma extract_difficulty_rating_first_number_witness :
  _extract_difficulty_rating (Some " *1500 (rated 2 times) ") = Some 1500%Z.
Proof.
  apply (extract_difficulty_rating_first_number _ "*" "1500" " (rated 2 times)");
    try reflexivity.
  discriminate.
Defined.

(** Without the element, and without a digit in it, there is no
    rating. *)
Example extract_difficulty_rating_none :
  _extract_difficulty_rating None = None /\
  _extract_difficulty_rating (Some "unrated") = None.
Proof. split; reflexivity. Qed.

(** *** Tags *)

Lemma extract_tags_fold (tag_elements acc : list string) :
  fold_left
    (fun tags tag_elem =>
       let tag_text := Py.strip tag_elem in
       if Py.truthy tag_text then Py.append tags tag_text else tags)
    tag_elements acc
  = app acc (List.filter Py.truthy (List.map Py.strip tag_elements)).
Proof.
  revert acc. induction tag_elements as [| e l IH]; intros acc; cbn [fold_left List.map List.filter].
  - now rewrite app_nil_r.
  - rewrite IH. cbv zeta. destruct (Py.truthy (Py.strip e)); [| reflexivity].
    unfold Py.append. now rewrite <- app_assoc.
Qed.

(** X25. [_extract_tags] returns the texts of the tag elements in their
    order, each with the white space around it removed, and leaves out
    the ones that are blank: no tag it returns is empty or begins or
    ends with white space. *)
Theorem extract_tags_trimmed (tag_elements : list string) :
  _extract_tags tag_elements
  = List.map Py.strip (List.filter (fun e => negb (blank e)) tag_elements) /\
  Forall (fun tag => tag <> "" /\ Py.strip tag = tag) (_extract_tags tag_elements).
Proof.
  assert (E : _extract_tags tag_elements
              = List.filter Py.truthy (List.map Py.strip tag_elements))
    by (unfold _extract_tags; now rewrite extract_tags_fold).
  split.
  - rewrite E. clear E. induction tag_elements as [| e l IH]; [reflexivity |].
    cbn [List.map List.filter]. rewrite IH, truthy_strip.
    destruct (blank e); reflexivity.
  - rewrite E. apply Forall_forall. intros tag Hin.
    apply list_elem_of_In, filter_In in Hin as [Hin Ht].
    apply in_map_iff in Hin as (e & <- & _).
    split; [intros Hn; rewrite Hn in Ht; discriminate Ht | apply strip_idem].
Qed.

End SeedParser.

(** ** The LeetCode list fetcher *)

Section LeetcodeFetcher.

Import Builtins ScrapeLeetcode ScrapeLeetcodeSpec.

Variable number : Type.
Variable round2 : number -> number.
Variable show : number -> string.
Variable limit : Z.
Variable skip_premium : bool.
Variable fetch_problem_list : Z -> option string -> list (question number) * Z * list string.

Local Open Scope Z_scope.

Lemma leetcode_fetch_loop_result (problems : list (question number))
    (result : list (problem number)) (count : Z) (out : list string) :
  (fetch_loop number round2 show limit skip_premium problems result count out).1
  = (result ++ take (Z.to_nat (limit - count))
                 (map (problem_of number round2)
                    (List.filter (kept skip_premium) problems)))%list.
Proof.
  revert result count out.
  induction problems as [| p ps IH]; intros result count out.
  - cbn. rewrite take_nil. now rewrite app_nil_r.
  - cbn [fetch_loop List.filter]. destruct (Z.leb_spec limit count) as [Hfull | Hroom].
    + replace (Z.to_nat (limit - count)) with 0%nat by lia.
      cbn. now rewrite app_nil_r.
    + unfold kept at 1.
      destruct (skip_premium && paidOnly number p); cbn [negb]; [apply IH |].
      rewrite IH. unfold Py.append. rewrite <- app_assoc. cbn [app map]. f_equal.
      replace (Z.to_nat (limit - count)) with (S (Z.to_nat (limit - (count + 1)))) by lia.
      reflexivity.
Qed.

(** X27. [fetch_problems] asks for three times as many questions as it
    wants when it skips premium ones, and returns the first [limit] of
    the questions it got that it does not skip, in their order: never
    more than [limit], and no premium one when they are skipped. *)
Theorem leetcode_fetch_problems_result (difficulty : option string) :
  let asked := if skip_premium then limit * 3 else limit in
  let listed := (fetch_problem_list asked difficulty).1.1 in
  let result :=
    (fetch_problems number round2 show limit skip_premium fetch_problem_list
       difficulty).1 in
  result = take (Z.to_nat limit)
             (map (problem_of number round2) (List.filter (kept skip_premium) listed)) /\
  (length result <= Z.to_nat limit)%nat /\
  (skip_premium = true -> Forall (fun p => isPremium number p = false) result).
Proof.
  cbv zeta.
  assert (E : (fetch_problems number round2 show limit skip_premium fetch_problem_list
                 difficulty).1
              = take (Z.to_nat limit)
                  (map (problem_of number round2)
                     (List.filter (kept skip_premium)
                        (fetch_problem_list (if skip_premium then limit * 3 else limit)
                           difficulty).1.1))).
  { unfold fetch_problems.
    destruct (fetch_problem_list (if skip_premium then limit * 3 else limit) difficulty)
      as [[listed total] printed].
    cbn [fst snd]. destruct listed as [| p ps];
      [cbn [truthy_list negb fst List.filter map]; now rewrite take_nil |].
    cbn [truthy_list negb].
    match goal with
    | |- context [fetch_loop _ _ _ _ _ ?l ?f ?c ?o] =>
        pose proof (leetcode_fetch_loop_result l f c o) as H;
        destruct (fetch_loop number round2 show limit skip_premium l f c o)
          as [result out]
    end.
    cbn [fst] in *. rewrite H. cbn [app]. now rewrite Z.sub_0_r. }
  rewrite E. split; [reflexivity |]. split.
  - rewrite length_take. lia.
  - intros ->. apply Forall_take. apply Forall_forall. intros pr Hin.
    apply list_elem_of_fmap in Hin as (q & -> & Hq).
    apply list_elem_of_In, filter_In in Hq as [_ Hk].
    unfold kept in Hk. cbn [andb] in Hk. cbn [problem_of isPremium].
    now apply negb_true_iff in Hk.
Qed.

(** X28. The counts of [display_summary]: a difficulty is a key of the dict
    exactly when a problem has it, and its value is the number of
    problems that have it. *)
Theorem difficulties_counts (problems : list (problem number)) (d : string) :
  difficulties number problems !! d
  = if occurrences d problems =? 0 then None else Some (occurrences d problems).
Proof.
  unfold difficulties.
  assert (H : forall (m : gmap string Z),
            fold_left
              (fun difficulties p =>
                 <[p_difficulty number p :=
                     default 0 (difficulties !! p_difficulty number p) + 1]> difficulties)
              problems m !! d
            = if occurrences d problems =? 0 then m !! d
              else Some (default 0 (m !! d) + occurrences d problems)).
  { unfold occurrences. induction problems as [| p ps IH]; intros m; [reflexivity |].
    cbn [fold_left List.filter]. rewrite IH.
    destruct (String.eqb_spec (p_difficulty number p) d) as [-> | Hne].
    - rewrite lookup_insert_eq. cbn [length default].
      generalize (length (List.filter
                            (fun p0 => String.eqb (p_difficulty number p0) d) ps)).
      intros n. destruct (Z.eqb_spec (Z.of_nat n) 0) as [E | E];
        destruct (Z.eqb_spec (Z.of_nat (S n)) 0); try lia; apply (f_equal Some); unfold Datatypes.id; lia.
    - rewrite lookup_insert_ne by exact Hne. reflexivity. }
  rewrite H. rewrite lookup_empty. cbn [default].
  destruct (occurrences d problems =? 0); [reflexivity |]. apply (f_equal Some). lia.
Qed.

End LeetcodeFetcher.

(** ** The LeetCode page scraper *)

Section LeetcodeCompleteScraper.

Import Builtins SeedProblems.
Import ScrapeLeetcodeCompleteRun ScrapeLeetcodeCompleteSpec RetrySpec.

Variable limit : Z.
Variable skip_premium : bool.
Variable scrape_problem : string -> option problem * list string.
Variable get_problem_list : Z -> list problem_meta * list string.

Local Open Scope Z_scope.

Lemma happened_totals (e : event) (p : progress) :
  slept (trace (happened e p)) = slept (trace p) + slept [e] /\
  requests (trace (happened e p)) = (requests (trace p) + requests [e])%nat.
Proof. unfold happened. cbn [trace]. apply slept_snoc. Qed.

(** The loop, from any state it can be in. *)
Lemma leetcode_scrape_loop_result (problem_list : list problem_meta)
    (scraped : list problem) (count : Z) (p : progress) :
  let r := scrape_loop limit skip_premium scrape_problem problem_list scraped count p in
  r.1 = (scraped ++ take (Z.to_nat (limit - count))
                      (omap (scraped_of skip_premium scrape_problem) problem_list))%list /\
  (requests (trace r.2)
   <= requests (trace p) + length (List.filter (wanted skip_premium) problem_list))%nat /\
  slept (trace r.2) - slept (trace p)
  = Z.of_nat (requests (trace r.2)) - Z.of_nat (requests (trace p)) /\
  (length r.1 - length scraped <= requests (trace r.2) - requests (trace p))%nat /\
  (requests (trace p) <= requests (trace r.2))%nat.
Proof.
  cbv zeta. revert scraped count p.
  induction problem_list as [| x xs IH]; intros scraped count p.
  - cbn. rewrite take_nil, app_nil_r. repeat split; lia.
  - cbn [scrape_loop omap list_omap List.filter].
    destruct (Z.leb_spec limit count) as [Hfull | Hroom].
    + replace (Z.to_nat (limit - count)) with 0%nat by lia.
      cbn. rewrite app_nil_r. repeat split; lia.
    + unfold scraped_of at 1, wanted at 1.
      destruct (skip_premium && default false (paidOnly x)); cbn [negb]; [apply IH |].
      destruct (scrape_problem (titleSlug x)) as [[problem |] printed]; cbn [fst].
      * match goal with
        | |- context [scrape_loop _ _ _ xs ?sc ?c ?q] =>
            destruct (IH sc c q) as (E1 & E2 & E3 & E4 & E5);
            destruct (scrape_loop limit skip_premium scrape_problem xs sc c q)
              as [scraped' p']
        end.
        cbn [fst snd] in *.
        repeat match goal with
               | H : context [trace (happened ?e ?q)] |- _ =>
                   let S1 := fresh in let R1 := fresh in
                   destruct (happened_totals e q) as [S1 R1];
                   rewrite ?S1, ?R1 in *; clear S1 R1
               end.
        cbn [trace print slept requests length] in *.
        repeat match goal with
               | H : context [trace (happened ?e ?q)] |- _ =>
                   let S1 := fresh in let R1 := fresh in
                   destruct (happened_totals e q) as [S1 R1];
                   rewrite ?S1, ?R1 in *; clear S1 R1
               end.
        cbn [trace print slept requests length] in *.
        unfold Py.append in E1, E4. rewrite length_app in E4. cbn [length] in E4.
        split.
        { rewrite E1, <- app_assoc. cbn [app]. f_equal.
          replace (Z.to_nat (limit - count))
            with (S (Z.to_nat (limit - (count + 1)))) by lia.
          reflexivity. }
        repeat split; lia.
      * match goal with
        | |- context [scrape_loop _ _ _ xs ?sc ?c ?q] =>
            destruct (IH sc c q) as (E1 & E2 & E3 & E4 & E5);
            destruct (scrape_loop limit skip_premium scrape_problem xs sc c q)
              as [scraped' p']
        end.
        cbn [fst snd] in *.
        repeat match goal with
               | H : context [trace (happened ?e ?q)] |- _ =>
                   let S1 := fresh in let R1 := fresh in
                   destruct (happened_totals e q) as [S1 R1];
                   rewrite ?S1, ?R1 in *; clear S1 R1
               end.
        cbn [trace print slept requests length] in *.
        repeat match goal with
               | H : context [trace (happened ?e ?q)] |- _ =>
                   let S1 := fresh in let R1 := fresh in
                   destruct (happened_totals e q) as [S1 R1];
                   rewrite ?S1, ?R1 in *; clear S1 R1
               end.
        cbn [trace print slept requests length] in *.
        split; [exact E1 |]. repeat split; lia.
Qed.

(** X30. [scrape_problems] asks for [3 * limit] entries and returns the
    first [limit] problems that [scrape_problem] gives for the entries it
    does not pass over as premium: never more than [limit] problems; one
    request for the list and one for each entry it looks at, none for a
    premium entry it skips; and a pause of 1 after each of the latter
    requests, whether it gave a problem or not. *)
Theorem leetcode_scrape_problems_bounds :
  let r := scrape_problems limit skip_premium scrape_problem get_problem_list in
  let problem_list := (get_problem_list (limit * 3)).1 in
  r.1 = take (Z.to_nat limit)
          (omap (scraped_of skip_premium scrape_problem) problem_list) /\
  (length r.1 <= Z.to_nat limit)%nat /\
  (length r.1 < requests (trace r.2))%nat /\
  (requests (trace r.2)
   <= 1 + length (List.filter (wanted skip_premium) problem_list))%nat /\
  slept (trace r.2) = Z.of_nat (requests (trace r.2)) - 1.
Proof.
  cbv zeta. unfold scrape_problems.
  destruct (get_problem_list (limit * 3)) as [problem_list printed]. cbn [fst].
  destruct problem_list as [| c cs] eqn:Elist.
  - cbn. rewrite take_nil. repeat split; lia.
  - cbn [truthy_list negb]. rewrite <- Elist.
    match goal with
    | |- context [scrape_loop _ _ _ problem_list [] 0 ?q] =>
        pose proof (leetcode_scrape_loop_result problem_list [] 0 q) as H;
        assert (Hq : slept (trace q) = 0 /\ requests (trace q) = 1%nat)
          by (split; reflexivity);
        destruct (scrape_loop limit skip_premium scrape_problem problem_list [] 0 q)
          as [scraped p2]
    end.
    cbv zeta in H. cbn [fst snd trace print] in *. destruct Hq as [Hs Hr].
    rewrite Hs, Hr in H. cbn [app length] in H. rewrite Z.sub_0_r in H.
    destruct H as (E1 & E2 & E3 & E4 & E5).
    split; [exact E1 |]. split; [rewrite E1, length_take; lia |].
    repeat split; lia.
Qed.

End LeetcodeCompleteScraper.

(** ** The text of the content parser *)

Section ContentParser.

Import ScrapeLeetcodeComplete TextSpec ContentParserSpec.

Lemma blank_app (a b : string) : blank (a ++ b) = blank a && blank b.
Proof.
  induction a as [| x a IH]; [now rewrite str_app_nil_l |].
  rewrite str_app_cons. cbn [blank]. rewrite IH. now rewrite andb_assoc.
Qed.

Lemma blank_concat_all (pieces : list string) :
  blank (concat_all pieces) = forallb blank pieces.
Proof.
  unfold concat_all. induction pieces as [| p ps IH]; [reflexivity |].
  destruct ps as [| q qs].
  - cbn. now rewrite andb_true_r.
  - change (Py.join "" (p :: q :: qs)) with (p ++ "" ++ Py.join "" (q :: qs)).
    rewrite str_app_nil_l, blank_app, IH. reflexivity.
Qed.

(** The text of a part in the making has something to show. *)
Lemma current_not_blank (pieces : list string) :
  nonempty pieces = true -> Forall (fun piece => blank piece = false) pieces ->
  Py.strip (concat_all pieces) <> "" /\ trimmed (Py.strip (concat_all pieces)).
Proof.
  intros Hne Hall. split; [| apply strip_idem].
  intros E. apply strip_blank in E. rewrite blank_concat_all in E.
  destruct Hall as [| p ps Hp _]; [discriminate Hne |].
  cbn [forallb] in E. rewrite Hp in E. discriminate E.
Qed.

Lemma rstrip_snoc (a : string) (c : ascii) :
  Py.is_space c = false -> Py.rstrip (a ++ String c "") = a ++ String c "".
Proof.
  intros Hc. induction a as [| x a IH].
  - rewrite str_app_nil_l. cbn [Py.rstrip]. now rewrite Hc.
  - rewrite str_app_cons, rstrip_cons, IH.
    destruct a; [rewrite str_app_nil_l | rewrite str_app_cons]; reflexivity.
Qed.

(** A text that starts and ends with a visible character is trimmed. *)
Lemma visible_ends_trimmed (c d : ascii) (s : string) :
  Py.is_space c = false -> Py.is_space d = false ->
  trimmed (String c (s ++ String d "")).
Proof.
  intros Hc Hd. unfold trimmed, Py.strip. cbn [Py.lstrip]. rewrite Hc.
  rewrite <- str_app_cons. now apply rstrip_snoc.
Qed.

(** A fenced block is a trimmed text. *)
Lemma fenced_trimmed (body : string) :
  fence ++ Py.nl ++ body ++ Py.nl ++ fence <> "" /\
  trimmed (fence ++ Py.nl ++ body ++ Py.nl ++ fence).
Proof.
  split; [discriminate |].
  assert (E : fence ++ Py.nl ++ body ++ Py.nl ++ fence
              = String "`" (("``" ++ Py.nl ++ body ++ Py.nl ++ "``") ++ String "`" "")).
  { unfold fence. rewrite !str_app_assoc. reflexivity. }
  rewrite E. now apply visible_ends_trimmed.
Qed.

Lemma well_kept_handle (t : token) (self : content_parser) :
  well_kept self -> well_kept (handle t self).
Proof.
  intros [Hparts Hcur]. destruct t as [tag | tag | data]; cbn [handle].
  - unfold handle_starttag.
    destruct (String.eqb tag "pre"); [split; assumption |].
    destruct (String.eqb tag "strong"); [split; assumption |].
    destruct (Py.contains ["p"; "div"] tag); [| split; assumption].
    destruct (nonempty (current_text self)) eqn:Hne; [| split; assumption].
    split; cbn [text_parts current_text]; [| constructor].
    unfold Py.append. apply Forall_app. split; [exact Hparts |].
    constructor; [| constructor]. now apply current_not_blank.
  - unfold handle_endtag.
    destruct (String.eqb tag "pre").
    + destruct (nonempty (current_text self)) eqn:Hne; [| split; assumption].
      split; cbn [text_parts current_text]; [| constructor].
      unfold Py.append. apply Forall_app. split; [exact Hparts |].
      constructor; [| constructor]. apply fenced_trimmed.
    + destruct (String.eqb tag "strong"); split; assumption.
  - unfold handle_data. rewrite truthy_strip.
    destruct (blank data) eqn:Hb; cbn [negb]; [split; assumption |].
    split; cbn [text_parts current_text]; [exact Hparts |].
    unfold Py.append. apply Forall_app. split; [exact Hcur |].
    constructor; [| constructor].
    destruct (in_strong self); [| exact Hb].
    rewrite !blank_app, Hb. reflexivity.
Qed.

Lemma occupied_handle (t : token) (self : content_parser) :
  occupied (handle t self) = occupied self || visible t.
Proof.
  unfold occupied. destruct t as [tag | tag | data]; cbn [handle visible].
  - rewrite orb_false_r. unfold handle_starttag.
    destruct (String.eqb tag "pre"); [reflexivity |].
    destruct (String.eqb tag "strong"); [reflexivity |].
    destruct (Py.contains ["p"; "div"] tag); [| reflexivity].
    destruct (nonempty (current_text self)) eqn:Hne; [| now rewrite Hne].
    cbn [text_parts current_text]. unfold Py.append.
    rewrite orb_true_r. destruct (text_parts self); reflexivity.
  - rewrite orb_false_r. unfold handle_endtag.
    destruct (String.eqb tag "pre").
    + destruct (nonempty (current_text self)) eqn:Hne; cbn [text_parts current_text];
        [| now rewrite Hne].
      unfold Py.append. rewrite orb_true_r. destruct (text_parts self); reflexivity.
    + destruct (String.eqb tag "strong"); reflexivity.
  - unfold handle_data. rewrite truthy_strip.
    destruct (blank data); cbn [negb]; [now rewrite orb_false_r |].
    cbn [text_parts current_text]. unfold Py.append.
    destruct (current_text self); cbn [app nonempty]; now rewrite !orb_true_r.
Qed.

Lemma feed_kept (tokens : list token) (self : content_parser) :
  well_kept self ->
  well_kept (feed tokens self) /\
  occupied (feed tokens self) = occupied self || existsb visible tokens.
Proof.
  unfold feed. revert self. induction tokens as [| t ts IH]; intros self Hk.
  - cbn. now rewrite orb_false_r.
  - cbn [fold_left existsb].
    destruct (IH (handle t self) (well_kept_handle t self Hk)) as [Hk' Ho].
    split; [exact Hk' |]. rewrite Ho, occupied_handle. now rewrite orb_assoc.
Qed.

(** X29. The text the parser gives is a list of parts separated by blank
    lines; every part is a trimmed text that is not empty; and there is
    no part at all exactly when no text of the markup has anything to
    show. *)
Theorem content_parser_parts (tokens : list token) :
  exists parts,
    get_text (feed tokens new_parser) = Py.join (Py.nl ++ Py.nl) parts /\
    Forall (fun part => part <> "" /\ trimmed part) parts /\
    (parts = [] <-> existsb visible tokens = false).
Proof.
  destruct (feed_kept tokens new_parser) as [[Hparts Hcur] Ho];
    [split; constructor |].
  change (occupied new_parser) with false in Ho. cbn [orb] in Ho.
  unfold get_text, occupied in *.
  destruct (nonempty (current_text (feed tokens new_parser))) eqn:Hne.
  - eexists. split; [reflexivity |]. split.
    + unfold Py.append. apply Forall_app. split; [exact Hparts |].
      constructor; [| constructor]. now apply current_not_blank.
    + rewrite orb_true_r in Ho. rewrite <- Ho. unfold Py.append.
      split; [| discriminate].
      intros E. apply app_eq_nil in E as [_ E]. discriminate E.
  - eexists. split; [reflexivity |]. split; [exact Hparts |].
    rewrite orb_false_r in Ho. rewrite <- Ho.
    destruct (text_parts (feed tokens new_parser)); cbn; split; congruence.
Qed.

(** Only the start of a paragraph or of a block closes the part in
    the making: text that is still open when a [pre] ends goes inside the
    fence with it. *)
Example content_parser_open_text :
  get_text (feed [StartTag "p"; Data "Example 1:"; EndTag "p";
                  StartTag "pre"; Data " 1 2 "; EndTag "pre";
                  StartTag "p"; Data "Done"; EndTag "p"; Data "   "] new_parser)
  = "```" ++ Py.nl ++ "Example 1: 1 2" ++ Py.nl ++ "```" ++ Py.nl ++ Py.nl ++ "Done".
Proof. reflexivity. Qed.

End ContentParser.
